(** * Normalisation and validation layer of the RoseScout MCP adapters

    A shallow embedding of the registry adapters found under [src/mcp]
    (Europe PMC, NIH RePORTER, ORCID) and of the tool wrappers of the
    FastMCP server, followed by the properties of the specification that
    concern them.

    Modelling conventions.
    - A JavaScript string is a [string] holding its UTF-8 encoding. [trim]
      is modelled on the ASCII white space. [toUpperCase] maps every
      character whose upper-case form is made of ASCII letters (the letters
      a to z, the dotless i U+0131, the long s U+017F, the sharp s U+00DF
      and the Latin ligatures U+FB00 to U+FB06); the other characters
      outside ASCII are left as they are: their upper-case forms lie
      outside ASCII as well, so that a comparison of the result with an
      ASCII literal is decided as JavaScript decides it.
    - A JSON number is an integer [Z]: the adapters only test its type tag
      and whether it is zero.
    - Values that went through a zod schema carry the inferred static type
      (records with [option] fields); values of type [any] (the ORCID
      payloads) stay dynamic values [jsval].
    - Exceptions are an explicit error result; what the network answers is
      an explicit argument of every operation that fetches. *)

From Stdlib Require Import ZArith List String Ascii Bool Lia.
From Stdlib Require Import DecimalString Sorted Permutation.
Import ListNotations.
Local Open Scope string_scope.
Local Open Scope Z_scope.

Set Implicit Arguments.
Set Warnings "-register-all".

(* ===================================================================== *)
(** * JavaScript primitives used by the adapters                          *)
(* ===================================================================== *)

Module Js.

(** ** Strings *)

(** [!!s] for a string: only the empty string is falsy. *)
Definition truthy_string (s : string) : bool :=
  match s with
  | EmptyString => false
  | String _ _ => true
  end.

(** [!!x] for an optional string ([undefined] is falsy). *)
Definition truthy_opt (o : option string) : bool :=
  match o with
  | Some s => truthy_string s
  | None => false
  end.

(** [!!x] for an optional number: [undefined], [null] and [0] are falsy. *)
Definition truthy_num (o : option Z) : bool :=
  match o with
  | Some n => negb (n =? 0)
  | None => false
  end.

(** [a || b] on optional strings. *)
Definition or_else (o : option string) (d : string) : string :=
  if truthy_opt o then match o with Some s => s | None => d end else d.

(** [x || undefined]. *)
Definition or_undefined (o : option string) : option string :=
  if truthy_opt o then o else None.

(** White space removed by [String.prototype.trim], ASCII range:
    TAB, LF, VT, FF, CR and SPACE. *)
Definition is_space (c : ascii) : bool :=
  let n := N_of_ascii c in
  ((9 <=? n) && (n <=? 13) || (n =? 32))%N.

Fixpoint trimStart (s : string) : string :=
  match s with
  | EmptyString => EmptyString
  | String c s' => if is_space c then trimStart s' else s
  end.

Fixpoint trimEnd (s : string) : string :=
  match s with
  | EmptyString => EmptyString
  | String c s' =>
      match trimEnd s' with
      | EmptyString => if is_space c then EmptyString else String c EmptyString
      | r => String c r
      end
  end.

Definition trim (s : string) : string := trimEnd (trimStart s).

Definition upper_char (c : ascii) : ascii :=
  let n := N_of_ascii c in
  if ((97 <=? n) && (n <=? 122))%N then ascii_of_N (n - 32) else c.

Definition lower_char (c : ascii) : ascii :=
  let n := N_of_ascii c in
  if ((65 <=? n) && (n <=? 90))%N then ascii_of_N (n + 32) else c.

Fixpoint map_string (f : ascii -> ascii) (s : string) : string :=
  match s with
  | EmptyString => EmptyString
  | String c s' => String (f c) (map_string f s')
  end.

(** The upper-case form of a Latin ligature U+FB00..U+FB06 (UTF-8
    [EF AC 80] .. [EF AC 86]), from the last byte of its encoding. *)
Definition upper_ligature (c : ascii) : option string :=
  match N_of_ascii c with
  | 128%N => Some "FF"
  | 129%N => Some "FI"
  | 130%N => Some "FL"
  | 131%N => Some "FFI"
  | 132%N => Some "FFL"
  | 133%N => Some "ST"
  | 134%N => Some "ST"
  | _ => None
  end.

(** The characters outside ASCII whose upper-case form is ASCII: the
    dotless i ([C4 B1], upper case [I]), the long s ([C5 BF], upper case
    [S]), the sharp s ([C3 9F], upper case [SS]) and the ligatures. [c] is
    the first byte of the character, [out] what follows it. *)
Definition upper_special (c : ascii) (out : string) : option string :=
  match out with
  | String c1 out1 =>
      let n := N_of_ascii c in
      let n1 := N_of_ascii c1 in
      if ((n =? 196) && (n1 =? 177))%N then Some (String "I" out1)
      else if ((n =? 197) && (n1 =? 191))%N then Some (String "S" out1)
      else if ((n =? 195) && (n1 =? 159))%N then Some ("SS" ++ out1)
      else if ((n =? 239) && (n1 =? 172))%N then
        match out1 with
        | String c2 out2 => option_map (fun u => u ++ out2) (upper_ligature c2)
        | EmptyString => None
        end
      else None
  | EmptyString => None
  end.

(** One byte in front of an upper-cased rest. The bytes that continue a
    character are no letters and start no character, so the rest still
    begins with them when its first byte is examined. *)
Definition upper_step (c : ascii) (out : string) : string :=
  if (N_of_ascii c <? 128)%N then String (upper_char c) out
  else match upper_special c out with
       | Some r => r
       | None => String c out
       end.

(** [s.toUpperCase()]. *)
Fixpoint toUpperCase (s : string) : string :=
  match s with
  | EmptyString => EmptyString
  | String c s' => upper_step c (toUpperCase s')
  end.

(** ASCII lower-casing, used to compare ASCII words whatever their case. *)
Definition toLowerCase : string -> string := map_string lower_char.

(** [s.split(sep)] for a one-character separator: every occurrence of
    the separator cuts; the empty string yields one empty piece. *)
Fixpoint split (sep : ascii) (s : string) : list string :=
  match s with
  | EmptyString => [EmptyString]
  | String c s' =>
      if Ascii.eqb c sep then EmptyString :: split sep s'
      else match split sep s' with
           | [] => [String c EmptyString]
           | piece :: rest => String c piece :: rest
           end
  end.

(** [s.split(sep, limit)]: the array of all pieces, truncated to its
    first [limit] entries (the text after the last kept piece is lost). *)
Definition split_limit (sep : ascii) (limit : nat) (s : string) : list string :=
  firstn limit (split sep s).

(** [pieces.join(sep)] on an array of strings. *)
Fixpoint join (sep : string) (l : list string) : string :=
  match l with
  | [] => EmptyString
  | [x] => x
  | x :: rest => x ++ sep ++ join sep rest
  end.

(** Decimal rendering of an integer in a template literal. *)
Definition string_of_Z (n : Z) : string := NilZero.string_of_int (Z.to_int n).

(** [o?.f]. *)
Definition opt_get {A B} (o : option A) (f : A -> option B) : option B :=
  match o with
  | Some a => f a
  | None => None
  end.

(** A loop [for (x of l) { if (skip x) continue; out.push(e x) }]:
    the body yields the pushed value, or nothing when it continues. *)
Fixpoint collect {A B} (body : A -> option B) (l : list A) : list B :=
  match l with
  | [] => []
  | x :: l' =>
      match body x with
      | Some y => y :: collect body l'
      | None => collect body l'
      end
  end.

(** [a === b] between an optional string and a literal. *)
Definition strict_eq (o : option string) (lit : string) : bool :=
  match o with
  | Some s => String.eqb s lit
  | None => false
  end.

(** ** Arrays *)

(** [arr.find(p)]: first element, in order, on which [p] is truthy. *)
Definition find {A} (p : A -> bool) (l : list A) : option A := List.find p l.

(** [arr[i]] for an integer index: [undefined] outside [0 .. length-1],
    negative indices included. *)
Definition index {A} (l : list A) (i : Z) : option A :=
  if i <? 0 then None else nth_error l (Z.to_nat i).

(** [arr.sort(cmp)] is a stable sort (ECMAScript 2019); for a consistent
    comparator its result is the one of stable insertion: an element goes
    behind exactly those elements that the comparator puts strictly
    before it or that tie with it and came earlier. *)
Fixpoint insert {A} (cmp : A -> A -> Z) (x : A) (l : list A) : list A :=
  match l with
  | [] => [x]
  | y :: l' => if cmp x y <=? 0 then x :: y :: l' else y :: insert cmp x l'
  end.

Fixpoint sort {A} (cmp : A -> A -> Z) (l : list A) : list A :=
  match l with
  | [] => []
  | x :: l' => insert cmp x (sort cmp l')
  end.

(** ** Exceptions *)

Inductive result (E A : Type) : Type :=
| Ok (a : A)
| Throw (e : E).
Arguments Ok {E A} a.
Arguments Throw {E A} e.

Definition bind {E A B} (m : result E A) (k : A -> result E B) : result E B :=
  match m with
  | Ok a => k a
  | Throw e => Throw e
  end.

(** [try { body } catch (error) { handler }]. *)
Definition try_catch {E A} (body : result E A) (handler : E -> result E A)
  : result E A :=
  match body with
  | Ok a => Ok a
  | Throw e => handler e
  end.

Fixpoint mapM {E A B} (f : A -> result E B) (l : list A) : result E (list B) :=
  match l with
  | [] => Ok []
  | x :: l' => bind (f x) (fun y => bind (mapM f l') (fun ys => Ok (y :: ys)))
  end.

End Js.

Import Js.

Declare Scope js_scope.
Notation "x <- m ;; k" := (Js.bind m (fun x => k))
  (at level 61, m at next level, right associativity) : js_scope.
Local Open Scope js_scope.

(* ===================================================================== *)
(** * JSON values and zod schemas                                         *)
(* ===================================================================== *)

Module Json.

(** A JavaScript value as produced by [response.json()], together with
    [undefined], which reading a missing property yields. An object is
    the list of its own properties; the first binding of a key is the
    one that a property read sees. *)
Inductive jsval : Type :=
| JUndefined
| JNull
| JBool (b : bool)
| JNum (n : Z)
| JStr (s : string)
| JArr (items : list jsval)
| JObj (fields : list (string * jsval)).

Fixpoint lookup (k : string) (fields : list (string * jsval)) : jsval :=
  match fields with
  | [] => JUndefined
  | (k', v) :: rest => if String.eqb k' k then v else lookup k rest
  end.


(** [!!v]. *)
Definition truthy (v : jsval) : bool :=
  match v with
  | JUndefined | JNull => false
  | JBool b => b
  | JNum n => negb (n =? 0)
  | JStr s => truthy_string s
  | JArr _ | JObj _ => true
  end.

(** [a || b]. *)
Definition or (a b : jsval) : jsval := if truthy a then a else b.

End Json.

Import Json.

Module Zod.

(** The schema combinators used by the adapters. *)
Inductive schema : Type :=
| ZString
| ZNumber
| ZBoolean
| ZArray (item : schema)
| ZObject (shape : list (string * schema))
| ZUnion (options : list schema)
| ZOptional (inner : schema)
| ZNullable (inner : schema).

(** [schema.safeParse(v).success]: an object schema reads each key of its
    shape from the input (a missing key reads as [undefined]) and ignores
    the keys it does not know. *)
Fixpoint accepts (s : schema) (v : jsval) {struct s} : bool :=
  match s with
  | ZString => match v with JStr _ => true | _ => false end
  | ZNumber => match v with JNum _ => true | _ => false end
  | ZBoolean => match v with JBool _ => true | _ => false end
  | ZArray item =>
      match v with
      | JArr items => forallb (accepts item) items
      | _ => false
      end
  | ZObject shape =>
      match v with
      | JObj fields =>
          forallb (fun ks => accepts (snd ks) (lookup (fst ks) fields)) shape
      | _ => false
      end
  | ZUnion options => existsb (fun o => accepts o v) options
  | ZOptional inner =>
      match v with
      | JUndefined => true
      | _ => accepts inner v
      end
  | ZNullable inner =>
      match v with
      | JNull => true
      | _ => accepts inner v
      end
  end.





Definition optional (s : schema) : schema := ZOptional s.
Definition nullable (s : schema) : schema := ZNullable s.

(** Typed views of a parsed value, following [z.infer]: a property of
    an object, and a value seen at the type its schema guarantees. *)
Definition field (k : string) (v : jsval) : jsval :=
  match v with
  | JObj fields => lookup k fields
  | _ => JUndefined
  end.

Definition as_string (v : jsval) : option string :=
  match v with JStr s => Some s | _ => None end.

Definition as_number (v : jsval) : option Z :=
  match v with JNum n => Some n | _ => None end.

Definition as_boolean (v : jsval) : option bool :=
  match v with JBool b => Some b | _ => None end.

Definition as_object {A} (view : jsval -> A) (v : jsval) : option A :=
  match v with JObj _ => Some (view v) | _ => None end.

Definition as_array {A} (view : jsval -> A) (v : jsval) : option (list A) :=
  match v with JArr items => Some (map view items) | _ => None end.

End Zod.

Import Zod.

(* ===================================================================== *)
(** * Exceptions and the network                                          *)
(* ===================================================================== *)

Module Errors.

(** The error classes of the adapters; [JsError] stands for every
    built-in exception ([Error], [TypeError], [SyntaxError], [ZodError],
    an abort), none of which is an instance of an adapter class. *)
Inductive exn : Type :=
| JsError (name message : string)
| EpmcAPIError (message : string) (details : jsval)
| EpmcValidationError (message : string) (validationError : exn) (details : jsval)
| OrcidAPIError (message : string) (details : jsval)
| OrcidNotFoundError (message : string) (details : jsval)
| OrcidValidationError (message : string) (details : jsval).

(** [error instanceof Error ? error.message : String(error)]: every
    exception of the model is an [Error]. *)
Definition message_of (e : exn) : string :=
  match e with
  | JsError _ m | EpmcAPIError m _ | EpmcValidationError m _ _
  | OrcidAPIError m _ | OrcidNotFoundError m _ | OrcidValidationError m _ => m
  end.

Definition outcome (A : Type) : Type := Js.result exn A.

(** [schema.parse(v)]: the input when accepted, a [ZodError] otherwise
    (the issue list of its message is not modelled). The keys that zod
    strips from its result are keys that nothing reads afterwards. *)
Definition parse (s : schema) (v : jsval) : outcome jsval :=
  if accepts s v then Ok v else Throw (JsError "ZodError" "Invalid input").

(** What [response.json()] yields: the decoded body, or a [SyntaxError]
    when the body is not JSON. *)
Inductive JsonOutcome : Type :=
| Body (v : jsval)
| NotJson (message : string).

Definition json_of (j : JsonOutcome) : outcome jsval :=
match j with
| Body v => Ok v
| NotJson message => Throw (JsError "SyntaxError" message)
end.

(** What one [fetch] call observes: the promise rejects with a built-in
    exception (a [TypeError] on a network failure, an abort on timeout),
    or a response arrives. *)
Inductive FetchOutcome : Type :=
| Rejected (name message : string)
| Responded (status : Z) (statusText : string) (json : JsonOutcome).

(** [response.ok]. *)
Definition ok (status : Z) : bool := (200 <=? status) && (status <=? 299).

(** The outside world of one operation: the message of the [TypeError]
    that the [URL] constructor throws on an address, if it does, and what
    a [fetch] of an address (without its query string) with given query
    parameters observes. *)
Record Network := {
  new_URL : string -> option string;
  fetch : string -> jsval -> FetchOutcome
}.

End Errors.

Import Errors.

(* ===================================================================== *)
(** * Europe PMC adapter ([src/mcp/epmc.ts])                              *)
(* ===================================================================== *)

Module Epmc.

Record EpmcConfig := { timeout : Z; baseUrl : string }.

Definition defaultEpmcConfig : EpmcConfig :=
  {| timeout := 30000;
     baseUrl := "https://www.ebi.ac.uk/europepmc/webservices/rest" |}.

(** ** Schemas *)

Definition EpmcAuthorIdSchema : schema :=
  ZObject [("type", optional ZString); ("value", optional ZString)].

Definition EpmcAuthorAffiliationSchema : schema :=
  ZObject [("affiliation", optional ZString)].

Definition EpmcAuthorSchema : schema :=
  ZObject
    [("fullName", optional ZString);
     ("lastName", optional ZString);
     ("firstName", optional ZString);
     ("initials", optional ZString);
     ("authorId", optional EpmcAuthorIdSchema);
     ("collectiveName", optional ZString);
     ("authorAffiliationDetailsList",
       optional (ZObject
         [("authorAffiliation", optional (ZArray EpmcAuthorAffiliationSchema))]))].

Definition EpmcJournalSchema : schema :=
  ZObject
    [("title", optional ZString);
     ("medlineAbbreviation", optional ZString);
     ("nlmid", optional ZString);
     ("isoabbreviation", optional ZString);
     ("issn", optional ZString);
     ("essn", optional ZString)].

Definition EpmcJournalInfoSchema : schema :=
  ZObject
    [("issue", optional ZString);
     ("volume", optional ZString);
     ("journalIssueId", optional ZNumber);
     ("dateOfPublication", optional ZString);
     ("monthOfPublication", optional ZNumber);
     ("yearOfPublication", optional ZNumber);
     ("printPublicationDate", optional ZString);
     ("journal", optional EpmcJournalSchema)].

Definition EpmcGrantSchema : schema :=
  ZObject
    [("grantId", optional ZString);
     ("agency", optional ZString);
     ("acronym", optional ZString);
     ("orderIn", optional ZNumber)].

Definition EpmcMeshQualifierSchema : schema :=
  ZObject
    [("abbreviation", optional ZString);
     ("qualifierName", optional ZString);
     ("majorTopic_YN", optional ZString)].

Definition EpmcMeshHeadingSchema : schema :=
  ZObject
    [("majorTopic_YN", optional ZString);
     ("descriptorName", optional ZString);
     ("meshQualifierList",
       optional (ZObject
         [("meshQualifier", optional (ZArray EpmcMeshQualifierSchema))]))].

Definition EpmcFullTextUrlSchema : schema :=
  ZObject
    [("availability", optional ZString);
     ("availabilityCode", optional ZString);
     ("documentStyle", optional ZString);
     ("site", optional ZString);
     ("url", optional ZString)].

Definition EpmcResultSchema : schema :=
  ZObject
    [("id", optional ZString);
     ("source", optional ZString);
     ("pmid", optional ZString);
     ("pmcid", optional ZString);
     ("doi", optional ZString);
     ("title", optional ZString);
     ("authorString", optional ZString);
     ("authorList",
       optional (ZObject [("author", optional (ZArray EpmcAuthorSchema))]));
     ("authorIdList",
       optional (ZObject [("authorId", optional (ZArray EpmcAuthorIdSchema))]));
     ("journalInfo", optional EpmcJournalInfoSchema);
     ("pubYear", optional ZString);
     ("pageInfo", optional ZString);
     ("abstractText", optional ZString);
     ("affiliation", optional ZString);
     ("language", optional ZString);
     ("pubTypeList",
       optional (ZObject [("pubType", optional (ZArray ZString))]));
     ("keywordList",
       optional (ZObject [("keyword", optional (ZArray ZString))]));
     ("grantsList",
       optional (ZObject [("grant", optional (ZArray EpmcGrantSchema))]));
     ("meshHeadingList",
       optional (ZObject [("meshHeading", optional (ZArray EpmcMeshHeadingSchema))]));
     ("fullTextUrlList",
       optional (ZObject [("fullTextUrl", optional (ZArray EpmcFullTextUrlSchema))]));
     ("isOpenAccess", optional ZString);
     ("citedByCount", optional ZNumber);
     ("hasReferences", optional ZString);
     ("hasTextMinedTerms", optional ZString);
     ("firstPublicationDate", optional ZString)].

Definition EpmcResponseSchema : schema :=
  ZObject
    [("version", optional ZString);
     ("hitCount", optional ZNumber);
     ("resultList",
       optional (ZObject [("result", optional (ZArray EpmcResultSchema))]))].

(** ** The inferred types [EpmcResponse] and [EpmcResult]

    Only the fields that the normaliser reads are kept. A list wrapper
    such as [authorList: { author?: [...] }] is a record of its own. *)
Module Raw.

Record EpmcAuthorId := { type : option string; value : option string }.

Record EpmcAuthorAffiliation := { affiliation : option string }.

Record AuthorAffiliationDetailsList :=
  { authorAffiliation : option (list EpmcAuthorAffiliation) }.

Record EpmcAuthor := {
  fullName : option string;
  lastName : option string;
  firstName : option string;
  initials : option string;
  authorId : option EpmcAuthorId;
  authorAffiliationDetailsList : option AuthorAffiliationDetailsList
}.

Record EpmcJournal := { journal_title : option string; issn : option string }.

Record EpmcJournalInfo := { journal : option EpmcJournal }.

Record EpmcGrant := {
  grantId : option string;
  agency : option string;
  acronym : option string
}.

Record EpmcMeshQualifier := { qualifierName : option string }.

Record MeshQualifierList := { meshQualifier : option (list EpmcMeshQualifier) }.

Record EpmcMeshHeading := {
  majorTopic_YN : option string;
  descriptorName : option string;
  meshQualifierList : option MeshQualifierList
}.

Record EpmcFullTextUrl := { url : option string }.

Record AuthorList := { author : option (list EpmcAuthor) }.
Record KeywordList := { keyword : option (list string) }.
Record GrantsList := { grant : option (list EpmcGrant) }.
Record MeshHeadingList := { meshHeading : option (list EpmcMeshHeading) }.
Record FullTextUrlList := { fullTextUrl : option (list EpmcFullTextUrl) }.

Record EpmcResult := {
  pmid : option string;
  pmcid : option string;
  doi : option string;
  title : option string;
  authorList : option AuthorList;
  journalInfo : option EpmcJournalInfo;
  abstractText : option string;
  keywordList : option KeywordList;
  grantsList : option GrantsList;
  meshHeadingList : option MeshHeadingList;
  fullTextUrlList : option FullTextUrlList;
  isOpenAccess : option string;
  citedByCount : option Z;
  firstPublicationDate : option string
}.

Record ResultList := { result : option (list EpmcResult) }.

Record EpmcResponse := { resultList : option ResultList }.

End Raw.

(** ** Output records *)

Record Author := {
  fullName : option string;
  firstName : option string;
  lastName : option string;
  initials : option string;
  orcid : option string;
  affiliations : list string
}.

Record Grant := {
  grantId : option string;
  agency : option string;
  acronym : option string
}.

Record PublicationRecord := {
  title : string;
  abstract : option string;
  doi : option string;
  pmid : option string;
  pmcid : option string;
  publicationDate : option string;
  journalName : option string;
  journalIssn : option string;
  authors : list Author;
  source : string;
  fullTextUrl : option string;
  citationCount : option Z;
  keywords : list string;
  subjects : list string;
  grants : list Grant;
  isOpenAccess : bool
}.

(** ** Normalisation *)

(** Body of the loop over [result.authorList.author]. *)
Definition convertAuthor (author : Raw.EpmcAuthor) : option Author :=
  if negb (truthy_opt (Raw.fullName author)) then None
  else
    let affiliations :=
      match opt_get (Raw.authorAffiliationDetailsList author) Raw.authorAffiliation with
      | Some details =>
          collect (fun affDetail =>
                     if truthy_opt (Raw.affiliation affDetail)
                     then Raw.affiliation affDetail else None) details
      | None => []
      end in
    let orcid :=
      if strict_eq
           (option_map toUpperCase (opt_get (Raw.authorId author) Raw.type))
           "ORCID"
         && truthy_opt (opt_get (Raw.authorId author) Raw.value)
      then opt_get (Raw.authorId author) Raw.value
      else None in
    Some {| fullName := Raw.fullName author;
            firstName := Raw.firstName author;
            lastName := Raw.lastName author;
            initials := Raw.initials author;
            orcid := orcid;
            affiliations := affiliations |}.

(** Body of the loop over [result.grantsList.grant]. *)
Definition convertGrant (grant : Raw.EpmcGrant) : option Grant :=
  if truthy_opt (Raw.grantId grant)
  then Some {| grantId := Raw.grantId grant;
               agency := Raw.agency grant;
               acronym := Raw.acronym grant |}
  else None.

(** Body of the loop over [result.meshHeadingList.meshHeading]. *)
Definition convertMeshHeading (mesh : Raw.EpmcMeshHeading) : option string :=
  match Raw.descriptorName mesh with
  | Some descriptorName =>
      if negb (truthy_string descriptorName) then None
      else
        let subjectStr := descriptorName in
        let subjectStr :=
          if strict_eq (Raw.majorTopic_YN mesh) "Y"
          then "*" ++ subjectStr else subjectStr in
        let subjectStr :=
          match opt_get (Raw.meshQualifierList mesh) Raw.meshQualifier with
          | Some qualifiers =>
              fold_left
                (fun acc qualifier =>
                   match Raw.qualifierName qualifier with
                   | Some q => if truthy_string q then acc ++ "/" ++ q else acc
                   | None => acc
                   end)
                qualifiers subjectStr
          | None => subjectStr
          end in
        Some subjectStr
  | None => None
  end.

(** Body of the loop over [epmcResponse.resultList.result]: [None] is the
    [continue] taken for a falsy title or abstract. *)
Definition convertResult (result : Raw.EpmcResult) : option PublicationRecord :=
  match Raw.title result, Raw.abstractText result with
  | Some title, Some abstractText =>
      if negb (truthy_string title) || negb (truthy_string abstractText) then None
      else
        let authors :=
          match opt_get (Raw.authorList result) Raw.author with
          | Some l => collect convertAuthor l
          | None => []
          end in
        let grants :=
          match opt_get (Raw.grantsList result) Raw.grant with
          | Some l => collect convertGrant l
          | None => []
          end in
        let fullTextUrl :=
          match opt_get (Raw.fullTextUrlList result) Raw.fullTextUrl with
          | Some l => opt_get (find (fun u => truthy_opt (Raw.url u)) l) Raw.url
          | None => None
          end in
        let subjects :=
          match opt_get (Raw.meshHeadingList result) Raw.meshHeading with
          | Some l => collect convertMeshHeading l
          | None => []
          end in
        Some {| title := title;
                abstract := Some abstractText;
                doi := Raw.doi result;
                pmid := Raw.pmid result;
                pmcid := Raw.pmcid result;
                publicationDate := Raw.firstPublicationDate result;
                journalName :=
                  opt_get (opt_get (Raw.journalInfo result) Raw.journal)
                          Raw.journal_title;
                journalIssn :=
                  opt_get (opt_get (Raw.journalInfo result) Raw.journal) Raw.issn;
                authors := authors;
                source := "Europe PMC";
                fullTextUrl := fullTextUrl;
                citationCount := Raw.citedByCount result;
                keywords :=
                  match opt_get (Raw.keywordList result) Raw.keyword with
                  | Some l => l
                  | None => []
                  end;
                subjects := subjects;
                grants := grants;
                isOpenAccess := strict_eq (Raw.isOpenAccess result) "Y" |}
  | _, _ => None
  end.

Definition convertEpmcResponseToPublications (epmcResponse : Raw.EpmcResponse)
  : list PublicationRecord :=
  match opt_get (Raw.resultList epmcResponse) Raw.result with
  | None => []
  | Some results => collect convertResult results
  end.

(** ** From a parsed payload to the inferred type *)

Definition viewAuthorId (v : jsval) : Raw.EpmcAuthorId :=
  {| Raw.type := as_string (field "type" v);
     Raw.value := as_string (field "value" v) |}.

Definition viewAuthorAffiliation (v : jsval) : Raw.EpmcAuthorAffiliation :=
  {| Raw.affiliation := as_string (field "affiliation" v) |}.

Definition viewAuthor (v : jsval) : Raw.EpmcAuthor :=
  {| Raw.fullName := as_string (field "fullName" v);
     Raw.lastName := as_string (field "lastName" v);
     Raw.firstName := as_string (field "firstName" v);
     Raw.initials := as_string (field "initials" v);
     Raw.authorId := as_object viewAuthorId (field "authorId" v);
     Raw.authorAffiliationDetailsList :=
       as_object
         (fun w => {| Raw.authorAffiliation :=
                        as_array viewAuthorAffiliation (field "authorAffiliation" w) |})
         (field "authorAffiliationDetailsList" v) |}.

Definition viewJournal (v : jsval) : Raw.EpmcJournal :=
  {| Raw.journal_title := as_string (field "title" v);
     Raw.issn := as_string (field "issn" v) |}.

Definition viewJournalInfo (v : jsval) : Raw.EpmcJournalInfo :=
  {| Raw.journal := as_object viewJournal (field "journal" v) |}.

Definition viewGrant (v : jsval) : Raw.EpmcGrant :=
  {| Raw.grantId := as_string (field "grantId" v);
     Raw.agency := as_string (field "agency" v);
     Raw.acronym := as_string (field "acronym" v) |}.

Definition viewMeshQualifier (v : jsval) : Raw.EpmcMeshQualifier :=
  {| Raw.qualifierName := as_string (field "qualifierName" v) |}.

Definition viewMeshHeading (v : jsval) : Raw.EpmcMeshHeading :=
  {| Raw.majorTopic_YN := as_string (field "majorTopic_YN" v);
     Raw.descriptorName := as_string (field "descriptorName" v);
     Raw.meshQualifierList :=
       as_object
         (fun w => {| Raw.meshQualifier :=
                        as_array viewMeshQualifier (field "meshQualifier" w) |})
         (field "meshQualifierList" v) |}.

Definition viewFullTextUrl (v : jsval) : Raw.EpmcFullTextUrl :=
  {| Raw.url := as_string (field "url" v) |}.

Definition viewResult (v : jsval) : Raw.EpmcResult :=
  {| Raw.pmid := as_string (field "pmid" v);
     Raw.pmcid := as_string (field "pmcid" v);
     Raw.doi := as_string (field "doi" v);
     Raw.title := as_string (field "title" v);
     Raw.authorList :=
       as_object
         (fun w => {| Raw.author := as_array viewAuthor (field "author" w) |})
         (field "authorList" v);
     Raw.journalInfo := as_object viewJournalInfo (field "journalInfo" v);
     Raw.abstractText := as_string (field "abstractText" v);
     Raw.keywordList :=
       as_object
         (fun w => {| Raw.keyword :=
                        as_array (fun k => match k with JStr s => s | _ => "" end)
                                 (field "keyword" w) |})
         (field "keywordList" v);
     Raw.grantsList :=
       as_object
         (fun w => {| Raw.grant := as_array viewGrant (field "grant" w) |})
         (field "grantsList" v);
     Raw.meshHeadingList :=
       as_object
         (fun w => {| Raw.meshHeading :=
                        as_array viewMeshHeading (field "meshHeading" w) |})
         (field "meshHeadingList" v);
     Raw.fullTextUrlList :=
       as_object
         (fun w => {| Raw.fullTextUrl :=
                        as_array viewFullTextUrl (field "fullTextUrl" w) |})
         (field "fullTextUrlList" v);
     Raw.isOpenAccess := as_string (field "isOpenAccess" v);
     Raw.citedByCount := as_number (field "citedByCount" v);
     Raw.firstPublicationDate := as_string (field "firstPublicationDate" v) |}.

Definition viewResponse (v : jsval) : Raw.EpmcResponse :=
  {| Raw.resultList :=
       as_object
         (fun w => {| Raw.result := as_array viewResult (field "result" w) |})
         (field "resultList" v) |}.

(** ** Fetching and parsing *)

Definition is_EpmcAPIError (e : exn) : bool :=
  match e with EpmcAPIError _ _ => true | _ => false end.

Definition is_EpmcValidationError (e : exn) : bool :=
  match e with EpmcValidationError _ _ _ => true | _ => false end.

(** The [URL] constructor runs before the [try]; everything after it is
    caught and wrapped. *)
Definition fetchEpmcData (net : Network) (payload : jsval)
    (config : EpmcConfig) (endpoint : string) : outcome jsval :=
  match new_URL net (baseUrl config ++ "/" ++ endpoint) with
  | Some message => Throw (JsError "TypeError" message)
  | None =>
      try_catch
        (match fetch net (baseUrl config ++ "/" ++ endpoint) payload with
         | Rejected name message => Throw (JsError name message)
         | Responded status statusText json =>
             if negb (ok status)
             then Throw (JsError "Error"
                           ("HTTP " ++ string_of_Z status ++ ": " ++ statusText))
             else json_of json
         end)
        (fun error =>
           Throw (EpmcAPIError
                    ("Failed to fetch " ++ endpoint ++ " data")
                    (JObj [("endpoint", JStr endpoint);
                           ("params", payload);
                           ("error", JStr (message_of error))])))
  end.

Definition parsePublications (data : jsval) : outcome (list PublicationRecord) :=
  try_catch
    (epmcResponse <- parse EpmcResponseSchema data;;
     Ok (convertEpmcResponseToPublications (viewResponse epmcResponse)))
    (fun error =>
       Throw (EpmcValidationError
                "Failed to validate Europe PMC publication data"
                error
                (JObj [("rawData", data)]))).

Definition dquote : string := String (ascii_of_N 34) EmptyString.

(** The [try] block of [getEpmcPublicationsByOrcid]. *)
Definition getEpmcPublicationsByOrcid_try (net : Network) (orcidId : string)
    (maxResults : Z) (config : EpmcConfig) : outcome (list PublicationRecord) :=
  let payload :=
    JObj [("query", JStr ("AUTHORID:" ++ dquote ++ orcidId ++ dquote));
          ("resultType", JStr "core");
          ("pageSize", JNum maxResults);
          ("format", JStr "json")] in
  data <- fetchEpmcData net payload config "search";;
  parsePublications data.

(** The [catch] block of [getEpmcPublicationsByOrcid]. *)
Definition getEpmcPublicationsByOrcid_catch (orcidId : string) (error : exn)
  : outcome (list PublicationRecord) :=
  if is_EpmcAPIError error || is_EpmcValidationError error
  then Throw error
  else Throw (EpmcAPIError
                "Failed to process publications"
                (JObj [("orcidId", JStr orcidId);
                       ("error", JStr (message_of error))])).

Definition getEpmcPublicationsByOrcid (net : Network) (orcidId : string)
    (maxResults : Z) (config : EpmcConfig) : outcome (list PublicationRecord) :=
  try_catch (getEpmcPublicationsByOrcid_try net orcidId maxResults config)
            (getEpmcPublicationsByOrcid_catch orcidId).

End Epmc.

(* ===================================================================== *)
(** * NIH RePORTER adapter ([src/mcp/nih.ts])                             *)
(* ===================================================================== *)

Module Nih.

(** ** Schemas *)

Definition NIHPrincipalInvestigatorSchema : schema :=
  ZObject
    [("profile_id", optional ZNumber);
     ("first_name", optional ZString);
     ("middle_name", optional ZString);
     ("last_name", optional ZString);
     ("full_name", optional ZString);
     ("title", optional ZString);
     ("email", optional ZString);
     ("phone", optional ZString);
     ("is_contact_pi", optional ZBoolean)].

Definition NIHOrganizationSchema : schema :=
  ZObject
    [("org_name", optional ZString);
     ("org_city", optional ZString);
     ("org_state", optional ZString);
     ("org_country", optional ZString);
     ("org_zipcode", optional ZString);
     ("org_duns", optional (ZUnion [ZString; ZArray ZString]));
     ("org_fips", optional ZString);
     ("dept_type", nullable (optional ZString));
     ("org_department", optional ZString)].

Definition NIHAgencySchema : schema :=
  ZObject
    [("code", optional ZString);
     ("name", optional ZString);
     ("abbreviation", optional ZString)].

Definition NIHProjectSchema : schema :=
  ZObject
    [("appl_id", optional ZNumber);
     ("project_num", ZString);
     ("project_serial_num", optional ZString);
     ("project_title", optional ZString);
     ("project_start_date", optional ZString);
     ("project_end_date", optional ZString);
     ("budget_start", optional ZString);
     ("budget_end", optional ZString);
     ("fiscal_year", optional ZNumber);
     ("award_amount", nullable (optional ZNumber));
     ("award_notice_date", optional ZString);
     ("is_active", optional ZBoolean);
     ("project_num_split",
       optional (ZObject
         [("appl_type_code", optional ZString);
          ("activity_code", optional ZString);
          ("ic_code", optional ZString);
          ("serial_num", optional ZString);
          ("support_year", optional ZString)]));
     ("principal_investigators", optional (ZArray NIHPrincipalInvestigatorSchema));
     ("contact_pi_name", optional ZString);
     ("other_pi_names", optional (ZArray ZString));
     ("organization", optional NIHOrganizationSchema);
     ("agency_ic_admin", optional NIHAgencySchema);
     ("agency_ic_fundings", nullable (optional (ZArray NIHAgencySchema)));
     ("cong_dist", optional ZString);
     ("project_terms", optional ZString);
     ("pref_terms", nullable (optional ZString));
     ("abstract_text", optional ZString);
     ("phr_text", nullable (optional ZString));
     ("spending_cats",
       optional (ZArray (ZObject
         [("code", optional ZString); ("name", optional ZString)])));
     ("covid_response", nullable (optional (ZArray ZString)));
     ("arra_funded", optional ZString);
     ("is_new", optional ZBoolean);
     ("mechanism_code_dc", optional ZString);
     ("core_project_num", optional ZString);
     ("full_study_section",
       optional (ZObject
         [("srgCode", optional ZString);
          ("srgFlex", optional ZString);
          ("srgName", optional ZString)]));
     ("subproject_id", nullable (optional (ZUnion [ZNumber; ZString])));
     ("total_cost", optional ZNumber);
     ("total_cost_sub_project", optional ZNumber)].

Definition NIHSearchResponseSchema : schema :=
  ZObject
    [("meta",
       ZObject
         [("search_id", optional ZString);
          ("total", ZNumber);
          ("offset", ZNumber);
          ("limit", ZNumber);
          ("sort_field", nullable (optional ZString));
          ("sort_order", nullable (optional ZString))]);
     ("results", ZArray NIHProjectSchema)].

(** ** The inferred type [NIHProject]

    Only the fields that the converter reads are kept; a nullable field
    holds [None] for [null] as for [undefined] (the converter only tests
    such a field for truthiness). *)
Module Raw.

Record NIHPrincipalInvestigator := {
  first_name : option string;
  last_name : option string;
  full_name : option string
}.

Record NIHOrganization := {
  org_name : option string;
  org_country : option string;
  org_department : option string
}.

Record NIHAgency := { name : option string }.

Record NIHProject := {
  project_num : string;
  project_title : option string;
  project_start_date : option string;
  project_end_date : option string;
  fiscal_year : option Z;
  award_amount : option Z;
  is_active : option bool;
  principal_investigators : option (list NIHPrincipalInvestigator);
  contact_pi_name : option string;
  organization : option NIHOrganization;
  agency_ic_admin : option NIHAgency;
  pref_terms : option string;
  abstract_text : option string;
  phr_text : option string;
  mechanism_code_dc : option string
}.

End Raw.

(** ** Output record *)

Record PrincipalInvestigator := {
  given_name : option string;
  family_name : option string;
  credit_name : option string
}.

Record GrantRecord := {
  id : string;
  title : option string;
  funder : string;
  year : option Z;
  amount : option Z;
  currency : string;
  start_date : option string;
  end_date : option string;
  recipient : option string;
  principal_investigators : list PrincipalInvestigator;
  abstract : option string;
  keywords : list string;
  description : option string;
  is_active : option bool;
  award_type : string
}.

Definition newline : string := String (ascii_of_N 10) EmptyString.

(** [if (x) arr.push(x)] for an optional string. *)
Definition push_if_truthy (o : option string) (arr : list string) : list string :=
  match o with
  | Some s => if truthy_string s then arr ++ [s] else arr
  | None => arr
  end.

(** The principal investigators of [convertNIHProjectToGrantRecord]: the
    structured list when the field is there (an empty array is truthy),
    otherwise the contact name when it is a non-empty string. *)
Definition principalInvestigatorsOf (project : Raw.NIHProject)
  : list PrincipalInvestigator :=
  match Raw.principal_investigators project with
  | Some pis =>
      map (fun pi => {| given_name := Raw.first_name pi;
                        family_name := Raw.last_name pi;
                        credit_name := Raw.full_name pi |}) pis
  | None =>
      match Raw.contact_pi_name project with
      | Some contact_pi_name =>
          if truthy_string contact_pi_name then
            let nameParts := split_limit "," 2 contact_pi_name in
            if Nat.eqb (List.length nameParts) 2 then
              [{| given_name := Some (trim (nth 1 nameParts ""));
                  family_name := Some (trim (nth 0 nameParts ""));
                  credit_name := Some contact_pi_name |}]
            else
              [{| given_name := Some "";
                  family_name := Some contact_pi_name;
                  credit_name := Some contact_pi_name |}]
          else []
      | None => []
      end
  end.

Definition convertNIHProjectToGrantRecord (project : Raw.NIHProject) : GrantRecord :=
  let principal_investigators := principalInvestigatorsOf project in
  let org := Raw.organization project in
  let recipientParts := [] in
  let recipientParts :=
    push_if_truthy (opt_get org Raw.org_name) recipientParts in
  let recipientParts :=
    push_if_truthy (opt_get org Raw.org_department) recipientParts in
  let recipientParts :=
    push_if_truthy (opt_get org Raw.org_country) recipientParts in
  let keywords :=
    match Raw.pref_terms project with
    | Some pref_terms =>
        if truthy_string pref_terms
        then filter truthy_string (map trim (split ";" pref_terms))
        else []
    | None => []
    end in
  {| id := Raw.project_num project;
     title := Raw.project_title project;
     funder := or_else (opt_get (Raw.agency_ic_admin project) Raw.name) "NIH";
     year := Raw.fiscal_year project;
     amount := if truthy_num (Raw.award_amount project)
               then Raw.award_amount project else None;
     currency := "USD";
     start_date := Raw.project_start_date project;
     end_date := Raw.project_end_date project;
     recipient := or_undefined (Some (join ", " recipientParts));
     principal_investigators := principal_investigators;
     abstract := Raw.abstract_text project;
     keywords := keywords;
     description :=
       match Raw.phr_text project with
       | Some phr_text =>
           if truthy_string phr_text
           then Some ("### Public Health Relevance: " ++ newline ++ phr_text)
           else None
       | None => None
       end;
     is_active := Raw.is_active project;
     award_type := or_else (Raw.mechanism_code_dc project) "research" |}.

End Nih.

(* ===================================================================== *)
(** * Operations on values of type [any]                                  *)
(* ===================================================================== *)

Module Dyn.

Definition TypeError (message : string) : exn := JsError "TypeError" message.

Definition nullish (v : jsval) : bool :=
  match v with
  | JUndefined | JNull => true
  | _ => false
  end.

(** [v?.k]: [undefined] on [undefined] and [null], the own property of an
    object, and [undefined] on any other value (none of the keys read by
    the adapters is a built-in property of strings, numbers, booleans or
    arrays). *)
Definition oget (k : string) (v : jsval) : jsval :=
  match v with
  | JObj fields => lookup k fields
  | _ => JUndefined
  end.

(** [v.k] and [v['k']]: a [TypeError] on [undefined] and [null]. *)
Definition get (k : string) (v : jsval) : outcome jsval :=
  match v with
  | JUndefined =>
      Throw (TypeError ("Cannot read properties of undefined (reading '" ++ k ++ "')"))
  | JNull =>
      Throw (TypeError ("Cannot read properties of null (reading '" ++ k ++ "')"))
  | _ => Ok (oget k v)
  end.

Fixpoint chars (s : string) : list jsval :=
  match s with
  | EmptyString => []
  | String c s' => JStr (String c EmptyString) :: chars s'
  end.

(** The values that [for (const x of v)] visits: the items of an array,
    the characters of a string; anything else is not iterable. *)
Definition for_of (v : jsval) : outcome (list jsval) :=
  match v with
  | JArr items => Ok items
  | JStr s => Ok (chars s)
  | _ => Throw (TypeError "value is not iterable")
  end.

(** [v.map(f)] for a truthy [v]: only arrays have a [map]. *)
Definition map_of {B} (f : jsval -> outcome B) (v : jsval) : outcome (list B) :=
  match v with
  | JArr items => mapM f items
  | _ => Throw (TypeError "map is not a function")
  end.

(** The text an array element contributes to [arr.join(sep)]. *)
Fixpoint join_item (v : jsval) : string :=
  match v with
  | JUndefined | JNull => ""
  | JBool b => if b then "true" else "false"
  | JNum n => string_of_Z n
  | JStr s => s
  | JArr items => join "," (map join_item items)
  | JObj _ => "[object Object]"
  end.

(** [v === lit] for a string literal. *)
Definition strict_eq_str (v : jsval) (lit : string) : bool :=
  match v with
  | JStr s => String.eqb s lit
  | _ => false
  end.

End Dyn.

Import Dyn.

(** [await Promise.all(ps)], where [order] lists the indices of the
    promises in the order in which they settle: the first rejection to
    settle is the rejection of the whole; with no rejection the values come
    back in the order of [ps]. A rejected promise that [order] leaves out
    still rejects the whole. *)
Fixpoint first_rejection {A} (ps : list (outcome A)) (order : list nat) : option exn :=
  match order with
  | [] => None
  | i :: rest =>
      match nth_error ps i with
      | Some (Throw e) => Some e
      | _ => first_rejection ps rest
      end
  end.

Definition promise_all {A} (order : list nat) (ps : list (outcome A))
  : outcome (list A) :=
  match first_rejection ps order with
  | Some e => Throw e
  | None => mapM (fun p => p) ps
  end.

(* ===================================================================== *)
(** * ORCID adapter ([src/mcp/orcid.ts])                                  *)
(* ===================================================================== *)

Module Orcid.

Record OrcidConfig := {
  apiKey : option string;
  timeout : Z;
  baseUrl : string
}.

Definition defaultOrcidConfig : OrcidConfig :=
  {| apiKey := None; timeout := 30000; baseUrl := "https://pub.orcid.org/v3.0" |}.

(** ** Interfaces

    The ORCID payloads are never validated: the parse functions copy
    whatever value the registry sent, so that a field declared [string]
    or [boolean] holds an arbitrary value at run time. A field name that
    several interfaces share carries the interface as a prefix. *)

Record OrcidName := { givenNames : jsval; familyName : jsval; creditName : jsval }.

Record OrcidEmail := { email : jsval; verified : jsval; primary : jsval }.

Record OrcidExternalId := {
  ext_name : jsval; ext_value : jsval; ext_url : jsval; ext_source : jsval
}.

Record OrcidUrl := { url_name : jsval; url_url : jsval }.

Record OrcidKeyword := { kw_content : jsval; kw_source : jsval }.

Record OrcidOtherName := { on_content : jsval; on_source : jsval }.

Record OrcidOrganizationAddress := { city : jsval; region : jsval; country : jsval }.

Record OrcidOrganization := {
  org_name : jsval;
  address : option OrcidOrganizationAddress;
  disambiguationSource : jsval
}.

Record OrcidAffiliation := {
  organization : OrcidOrganization;
  departmentName : jsval;
  roleTitle : jsval;
  startDate : jsval;
  endDate : jsval;
  sourceName : jsval
}.

Record OrcidWorkSummary := {
  ws_title : jsval;
  ws_type : jsval;
  ws_publicationDate : jsval;
  journalTitle : jsval;
  ws_url : jsval;
  ws_source : jsval
}.

Record OrcidWorkExternalId := {
  wid_name : jsval; wid_value : jsval; wid_url : jsval; wid_source : jsval
}.

Record OrcidWork := {
  workSummaries : list OrcidWorkSummary;
  work_externalIds : list OrcidWorkExternalId
}.

Record OrcidWorks := { works : list OrcidWork }.

(** The [Date] built by [new Date(year, month - 1, day)], kept as the
    three values it is built from. *)
Inductive JsDate : Type := NewDate (year month day : jsval).

Record OrcidProfile := {
  name : OrcidName;
  biography : jsval;
  keywords : list OrcidKeyword;
  otherNames : list OrcidOtherName;
  emails : list OrcidEmail;
  externalIds : list OrcidExternalId;
  researcherUrls : list OrcidUrl;
  (** the argument of [new Date(...)], when the date is there *)
  lastModified : option jsval
}.

Record ProfileEmail := { pe_address : jsval; pe_primary : jsval }.

Record ResearcherId := {
  orcid : string;
  givenName : jsval;
  rid_familyName : jsval;
  rid_creditName : jsval;
  rid_emails : list ProfileEmail
}.

Record DescriptionSection := { title : string; content : jsval }.

Record Description := { sections : list DescriptionSection }.

Record ExternalReference := { ref_url : jsval; ref_name : jsval; ref_source : jsval }.

Record Publication := {
  pub_title : jsval;
  publicationDate : option JsDate;
  journalName : jsval;
  pub_source : option string;
  doi : jsval
}.

Record CustomerProfile := {
  researcherId : ResearcherId;
  description : Description;
  externalReferences : list ExternalReference;
  educations : list OrcidAffiliation;
  employments : list OrcidAffiliation;
  publications : list Publication
}.

Definition is_OrcidAPIError (e : exn) : bool :=
  match e with OrcidAPIError _ _ => true | _ => false end.

Definition is_OrcidNotFoundError (e : exn) : bool :=
  match e with OrcidNotFoundError _ _ => true | _ => false end.

Definition is_OrcidValidationError (e : exn) : bool :=
  match e with OrcidValidationError _ _ => true | _ => false end.

(** ** Fetching *)

Definition fetchOrcidData (net : Network) (orcidId endpoint : string)
    (config : OrcidConfig) : outcome jsval :=
  try_catch
    (match fetch net (baseUrl config ++ "/" ++ orcidId ++ "/" ++ endpoint)
                 JUndefined with
     | Rejected name message => Throw (JsError name message)
     | Responded status statusText json =>
         if negb (ok status) then
           if status =? 404 then
             Throw (OrcidNotFoundError
                      "The requested researcher profile could not be found. Please verify the ORCID ID is correct."
                      (JObj [("orcidId", JStr orcidId); ("endpoint", JStr endpoint)]))
           else
             Throw (OrcidAPIError
                      ("Failed to fetch " ++ endpoint ++ " data")
                      (JObj [("orcidId", JStr orcidId);
                             ("endpoint", JStr endpoint);
                             ("status", JNum status);
                             ("statusText", JStr statusText)]))
         else json_of json
     end)
    (fun error =>
       if is_OrcidAPIError error || is_OrcidNotFoundError error
       then Throw error
       else Throw (OrcidAPIError
                     ("Failed to fetch " ++ endpoint ++ " data")
                     (JObj [("orcidId", JStr orcidId);
                            ("error", JStr (message_of error))]))).

(** ** Parsing *)

(** Body of the loop over the summaries of an affiliation group: the
    affiliation pushed, if any. *)
Definition parseAffiliationSummary (summary : jsval)
  : outcome (option OrcidAffiliation) :=
  education <- get "education-summary" summary;;
  let affiliationData :=
    if Json.truthy education then education
    else if Json.truthy (oget "employment-summary" summary)
         then oget "employment-summary" summary
         else JNull in
  if Json.truthy affiliationData then
    let org := oget "organization" affiliationData in
    Ok (Some
          {| organization :=
               {| org_name := Json.or (oget "name" org) (JStr "");
                  address :=
                    if Json.truthy (oget "address" org)
                    then Some
                           {| city := oget "value" (oget "city" (oget "address" org));
                              region := oget "value" (oget "region" (oget "address" org));
                              country := oget "value" (oget "country" (oget "address" org)) |}
                    else None;
                  disambiguationSource :=
                    oget "disambiguation-source" (oget "disambiguated-organization" org) |};
             departmentName := oget "department-name" affiliationData;
             roleTitle := oget "role-title" affiliationData;
             startDate := oget "start-date" affiliationData;
             endDate := oget "end-date" affiliationData;
             sourceName :=
               oget "value" (oget "source-name" (oget "source" affiliationData)) |})
  else Ok None.

Definition keep {A} (l : list (option A)) : list A := collect (fun o => o) l.

Definition parseAffiliations (data : jsval) : outcome (list OrcidAffiliation) :=
  if negb (Json.truthy data) || negb (Json.truthy (oget "affiliation-group" data))
  then Ok []
  else
    groups <- for_of (oget "affiliation-group" data);;
    pushed <- mapM (fun group =>
                      groupSummaries <- get "summaries" group;;
                      summaries <- for_of (Json.or groupSummaries (JArr []));;
                      mapM parseAffiliationSummary summaries)
                   groups;;
    Ok (keep (List.concat pushed)).

(** [v?.source?.['source-name']?.value] for a non-nullish [v]. *)
Definition sourceNameOf (v : jsval) : jsval :=
  oget "value" (oget "source-name" (oget "source" v)).

(** [parseOrcidProfile] is only called on a truthy [personData]. *)
Definition parseOrcidProfile (personData : jsval) : outcome OrcidProfile :=
  let name :=
    {| givenNames := oget "value" (oget "given-names" (oget "name" personData));
       familyName := oget "value" (oget "family-name" (oget "name" personData));
       creditName := oget "value" (oget "credit-name" (oget "name" personData)) |} in
  let biography := oget "content" (oget "biography" personData) in
  keywords <-
    map_of (fun k =>
              content <- get "content" k;;
              Ok {| kw_content := content; kw_source := sourceNameOf k |})
           (Json.or (oget "keyword" (oget "keywords" personData)) (JArr []));;
  otherNames <-
    map_of (fun n =>
              content <- get "content" n;;
              Ok {| on_content := content; on_source := sourceNameOf n |})
           (Json.or (oget "other-name" (oget "other-names" personData)) (JArr []));;
  emails <-
    map_of (fun e =>
              address <- get "email" e;;
              Ok {| email := address;
                    verified := Json.or (oget "verified" e) (JBool false);
                    primary := Json.or (oget "primary" e) (JBool false) |})
           (Json.or (oget "email" (oget "emails" personData)) (JArr []));;
  externalIds <-
    map_of (fun id =>
              type <- get "external-id-type" id;;
              Ok {| ext_name := type;
                    ext_value := oget "value" (oget "external-id-value" id);
                    ext_url := oget "value" (oget "external-id-url" id);
                    ext_source := sourceNameOf id |})
           (Json.or (oget "external-identifier"
                        (oget "external-identifiers" personData)) (JArr []));;
  researcherUrls <-
    map_of (fun url =>
              urlName <- get "url-name" url;;
              Ok {| url_name := urlName;
                    url_url := oget "value" (oget "url" url) |})
           (Json.or (oget "researcher-url"
                        (oget "researcher-urls" personData)) (JArr []));;
  Ok {| name := name;
        biography := biography;
        keywords := keywords;
        otherNames := otherNames;
        emails := emails;
        externalIds := externalIds;
        researcherUrls := researcherUrls;
        lastModified :=
          if Json.truthy (oget "value" (oget "last-modified-date" personData))
          then Some (oget "value" (oget "last-modified-date" personData))
          else None |}.

(** Body of the loop over [worksData.group]. *)
Definition parseWorkGroup (group : jsval) : outcome OrcidWork :=
  groupSummaries <- get "work-summary" group;;
  workSummaries <-
    map_of (fun summary =>
              summaryTitle <- get "title" summary;;
              Ok {| ws_title := oget "value" (oget "title" summaryTitle);
                    ws_type := oget "type" summary;
                    ws_publicationDate := oget "publication-date" summary;
                    journalTitle := oget "value" (oget "journal-title" summary);
                    ws_url := oget "value" (oget "url" summary);
                    ws_source := sourceNameOf summary |})
           (Json.or groupSummaries (JArr []));;
  externalIds <-
    map_of (fun id =>
              type <- get "external-id-type" id;;
              Ok {| wid_name := type;
                    wid_value := oget "external-id-value" id;
                    wid_url := oget "value" (oget "external-id-url" id);
                    wid_source := sourceNameOf id |})
           (Json.or (oget "external-id" (oget "external-ids" group)) (JArr []));;
  Ok {| workSummaries := workSummaries; work_externalIds := externalIds |}.

Definition parseOrcidWorks (worksData : jsval) : outcome OrcidWorks :=
  if negb (Json.truthy worksData) || negb (Json.truthy (oget "group" worksData))
  then Ok {| works := [] |}
  else
    groups <- for_of (oget "group" worksData);;
    works <- mapM parseWorkGroup groups;;
    Ok {| works := works |}.

Definition parseDate (dateObj : jsval) : option JsDate :=
  if negb (Json.truthy dateObj) then None
  else
    let year := oget "value" (oget "year" dateObj) in
    let month := Json.or (oget "value" (oget "month" dateObj)) (JNum 1) in
    let day := Json.or (oget "value" (oget "day" dateObj)) (JNum 1) in
    if Json.truthy year then Some (NewDate year month day) else None.

(** ** Assembling the profile *)

(** The comparator given to [sort] for the e-mail addresses. *)
Definition compareEmails (a b : OrcidEmail) : Z :=
  if Json.truthy (primary a) && negb (Json.truthy (primary b)) then -1
  else if negb (Json.truthy (primary a)) && Json.truthy (primary b) then 1
  else if Json.truthy (verified a) && negb (Json.truthy (verified b)) then -1
  else if negb (Json.truthy (verified a)) && Json.truthy (verified b) then 1
  else 0.

Definition sortedEmails (orcidProfile : OrcidProfile) : list OrcidEmail :=
  sort compareEmails (emails orcidProfile).

(** [summaries.find(s => s.f)?.f]. *)
Definition first_truthy (f : OrcidWorkSummary -> jsval)
    (summaries : list OrcidWorkSummary) : jsval :=
  match find (fun s => Json.truthy (f s)) summaries with
  | Some s => f s
  | None => JUndefined
  end.

(** Body of the loop over [works.works]: the publication pushed, if any. *)
Definition publicationOfWork (work : OrcidWork) : option Publication :=
  let summaries := workSummaries work in
  let title := first_truthy ws_title summaries in
  let pubDate := first_truthy ws_publicationDate summaries in
  let journal := first_truthy journalTitle summaries in
  let sources :=
    map ws_source (filter (fun s => Json.truthy (ws_source s)) summaries) in
  let doi :=
    match find (fun id => strict_eq_str (wid_name id) "doi") (work_externalIds work) with
    | Some id => wid_value id
    | None => JUndefined
    end in
  if Json.truthy title then
    Some {| pub_title := title;
            publicationDate := parseDate pubDate;
            journalName := journal;
            pub_source :=
              if (0 <? List.length sources)%nat
              then Some (join ", " (map join_item sources))
              else None;
            doi := doi |}
  else None.

Definition createCustomerProfile (orcidProfile : OrcidProfile) (orcidId : string)
    (educations employments : list OrcidAffiliation) (works : OrcidWorks)
  : CustomerProfile :=
  let sortedEmails := sortedEmails orcidProfile in
  let sections : list DescriptionSection := [] in
  let sections :=
    if Json.truthy (biography orcidProfile)
    then (sections ++ [{| title := "ORCID Profile Biography";
                          content := biography orcidProfile |}])%list
    else sections in
  let sections :=
    if (0 <? List.length (keywords orcidProfile))%nat
    then (sections ++
          [{| title := "ORCID Profile Keywords";
              content :=
                JStr (join ", " (map join_item
                                     (map kw_content (keywords orcidProfile)))) |}])%list
    else sections in
  let externalReferences :=
    map (fun extId => {| ref_url := ext_url extId;
                         ref_name := ext_name extId;
                         ref_source := ext_source extId |})
        (externalIds orcidProfile) in
  let externalReferences :=
    (externalReferences ++
     map (fun url => {| ref_url := url_url url;
                        ref_name := url_name url;
                        ref_source := JStr "ORCID Profile" |})
         (researcherUrls orcidProfile))%list in
  {| researcherId :=
       {| orcid := orcidId;
          givenName := givenNames (name orcidProfile);
          rid_familyName := familyName (name orcidProfile);
          rid_creditName := creditName (name orcidProfile);
          rid_emails :=
            map (fun email => {| pe_address := Orcid.email email;
                                 pe_primary := primary email |})
                sortedEmails |};
     description := {| sections := sections |};
     externalReferences := externalReferences;
     educations := educations;
     employments := employments;
     publications := collect publicationOfWork (Orcid.works works) |}.

(** ** The aggregate *)

(** The inner [try] block of [getOrcidProfile]. *)
Definition assembleProfile (orcidId : string)
    (personData worksData educationData employmentData : jsval)
  : outcome CustomerProfile :=
  orcidProfile <- parseOrcidProfile personData;;
  orcidWorks <- parseOrcidWorks worksData;;
  educations <- parseAffiliations educationData;;
  employments <- parseAffiliations employmentData;;
  Ok (createCustomerProfile orcidProfile orcidId educations employments orcidWorks).

(** The four sub-fetches, in the order of the array given to
    [Promise.all]. *)
Definition subFetches (net : Network) (orcidId : string) (config : OrcidConfig)
  : list (outcome jsval) :=
  [fetchOrcidData net orcidId "person" config;
   fetchOrcidData net orcidId "works" config;
   fetchOrcidData net orcidId "educations" config;
   fetchOrcidData net orcidId "employments" config].

(** The outer [try] block of [getOrcidProfile]; [order] is the order in
    which the four sub-fetches settle. A destructured array reads a
    missing position as [undefined]. *)
Definition getOrcidProfile_try (order : list nat) (net : Network)
    (orcidId : string) (config : OrcidConfig) : outcome CustomerProfile :=
  fetched <- promise_all order (subFetches net orcidId config);;
  let personData := nth 0 fetched JUndefined in
  let worksData := nth 1 fetched JUndefined in
  let educationData := nth 2 fetched JUndefined in
  let employmentData := nth 3 fetched JUndefined in
  if negb (Json.truthy personData) then
    Throw (OrcidAPIError "No person data found" (JObj [("orcidId", JStr orcidId)]))
  else
    try_catch
      (assembleProfile orcidId personData worksData educationData employmentData)
      (fun error =>
         Throw (OrcidValidationError
                  "Failed to validate ORCID data"
                  (JObj [("orcidId", JStr orcidId);
                         ("error", JStr (message_of error));
                         ("rawData",
                           JObj [("person", personData);
                                 ("works", worksData);
                                 ("education", educationData);
                                 ("employment", employmentData)])]))).

(** The outer [catch] block of [getOrcidProfile]. *)
Definition getOrcidProfile_catch (orcidId : string) (error : exn)
  : outcome CustomerProfile :=
  if is_OrcidAPIError error || is_OrcidNotFoundError error
     || is_OrcidValidationError error
  then Throw error
  else Throw (OrcidAPIError
                "Failed to process author metadata"
                (JObj [("orcidId", JStr orcidId);
                       ("error", JStr (message_of error))])).

Definition getOrcidProfile (order : list nat) (net : Network)
    (orcidId : string) (config : OrcidConfig) : outcome CustomerProfile :=
  try_catch (getOrcidProfile_try order net orcidId config)
            (getOrcidProfile_catch orcidId).

End Orcid.


(* ===================================================================== *)
(** * Tool wrappers of the server ([src/unnamed/part_000])                *)
(* ===================================================================== *)

Module Server.

(** What a tool's [execute] returns: a literal text, or
    [JSON.stringify(v, null, 2)], which for [v = undefined] is not a text
    but [undefined]. *)
Inductive ToolOutput (A : Type) : Type :=
| Text (s : string)
| Stringify (v : option A).
Arguments Text {A} s.
Arguments Stringify {A} v.

Definition error_text (error : exn) : string := "Error: " ++ message_of error.

Definition search_epmc_by_orcid (net : Network) (orcid_id : string)
    (max_results : Z) : ToolOutput (list Epmc.PublicationRecord) :=
match Epmc.getEpmcPublicationsByOrcid net orcid_id max_results
        Epmc.defaultEpmcConfig with
| Ok publications => Stringify (Some publications)
| Throw error => Text (error_text error)
end.

Definition get_publication_details (net : Network) (orcid_id : string)
    (publication_index : Z) : ToolOutput Epmc.PublicationRecord :=
match Epmc.getEpmcPublicationsByOrcid net orcid_id 100 Epmc.defaultEpmcConfig with
| Ok publications =>
    if publication_index >=? Z.of_nat (List.length publications) then
      Text ("Error: Publication index " ++ string_of_Z publication_index
            ++ " is out of range. Found "
            ++ string_of_Z (Z.of_nat (List.length publications))
            ++ " publications.")
    else Stringify (index publications publication_index)
| Throw error => Text (error_text error)
end.

Definition get_orcid_profile (order : list nat) (net : Network)
    (orcid_id : string) : ToolOutput Orcid.CustomerProfile :=
match Orcid.getOrcidProfile order net orcid_id Orcid.defaultOrcidConfig with
| Ok profile => Stringify (Some profile)
| Throw error => Text (error_text error)
end.

End Server.


(* ===================================================================== *)
(** * NIH RePORTER: fetching and the three searches ([src/mcp/nih.ts])    *)
(* ===================================================================== *)

Module NihApi.

Record NIHConfig := {
  apiKey : option string;
  timeout : Z;
  baseUrl : string
}.

Definition defaultNIHConfig : NIHConfig :=
{| apiKey := None; timeout := 30000; baseUrl := "https://api.reporter.nih.gov/v2" |}.

(** ** From a parsed payload to the inferred type *)

Definition viewPrincipalInvestigator (v : jsval) : Nih.Raw.NIHPrincipalInvestigator :=
{| Nih.Raw.first_name := as_string (field "first_name" v);
   Nih.Raw.last_name := as_string (field "last_name" v);
   Nih.Raw.full_name := as_string (field "full_name" v) |}.

Definition viewOrganization (v : jsval) : Nih.Raw.NIHOrganization :=
{| Nih.Raw.org_name := as_string (field "org_name" v);
   Nih.Raw.org_country := as_string (field "org_country" v);
   Nih.Raw.org_department := as_string (field "org_department" v) |}.

Definition viewAgency (v : jsval) : Nih.Raw.NIHAgency :=
{| Nih.Raw.name := as_string (field "name" v) |}.

Definition viewProject (v : jsval) : Nih.Raw.NIHProject :=
{| Nih.Raw.project_num :=
     match field "project_num" v with JStr s => s | _ => "" end;
   Nih.Raw.project_title := as_string (field "project_title" v);
   Nih.Raw.project_start_date := as_string (field "project_start_date" v);
   Nih.Raw.project_end_date := as_string (field "project_end_date" v);
   Nih.Raw.fiscal_year := as_number (field "fiscal_year" v);
   Nih.Raw.award_amount := as_number (field "award_amount" v);
   Nih.Raw.is_active := as_boolean (field "is_active" v);
   Nih.Raw.principal_investigators :=
     as_array viewPrincipalInvestigator (field "principal_investigators" v);
   Nih.Raw.contact_pi_name := as_string (field "contact_pi_name" v);
   Nih.Raw.organization := as_object viewOrganization (field "organization" v);
   Nih.Raw.agency_ic_admin := as_object viewAgency (field "agency_ic_admin" v);
   Nih.Raw.pref_terms := as_string (field "pref_terms" v);
   Nih.Raw.abstract_text := as_string (field "abstract_text" v);
   Nih.Raw.phr_text := as_string (field "phr_text" v);
   Nih.Raw.mechanism_code_dc := as_string (field "mechanism_code_dc" v) |}.

(** [response.results] of a parsed search response. *)
Definition viewResults (response : jsval) : list Nih.Raw.NIHProject :=
match field "results" response with
| JArr items => map viewProject items
| _ => []
end.

(** ** Fetching *)

(** Every failure inside the [try], the HTTP error thrown for a non-2xx
    answer included, is re-thrown as a plain [Error] whose message carries
    the endpoint and the original message. *)
Definition fetchNIHData (net : Network) (payload : jsval) (endpoint : string)
    (config : NIHConfig) : outcome jsval :=
try_catch
  (match fetch net (baseUrl config ++ "/" ++ endpoint) payload with
   | Rejected name message => Throw (JsError name message)
   | Responded status statusText json =>
       if negb (ok status)
       then Throw (JsError "Error" ("HTTP error! status: " ++ string_of_Z status))
       else json_of json
   end)
  (fun error =>
     Throw (JsError "Error"
              ("Failed to fetch " ++ endpoint ++ " data: " ++ message_of error))).

Definition advancedTextSearch (text : string) : jsval :=
JObj [("operator", JStr "AND");
      ("search_field", JStr "all");
      ("search_text", JStr text)].

Definition piNamePayload (piName : string) (maxResults : Z) : jsval :=
JObj [("criteria",
        JObj [("pi_names", JArr [JObj [("any_name", JStr piName)]]);
              ("advanced_text_search", advancedTextSearch piName)]);
      ("limit", JNum maxResults);
      ("offset", JNum 0);
      ("sort_field", JStr "project_start_date");
      ("sort_order", JStr "desc")].

Definition organizationPayload (orgName : string) (maxResults : Z) : jsval :=
JObj [("criteria",
        JObj [("org_names", JArr [JStr orgName]);
              ("advanced_text_search", advancedTextSearch orgName)]);
      ("limit", JNum maxResults);
      ("offset", JNum 0);
      ("sort_field", JStr "project_start_date");
      ("sort_order", JStr "desc")].

Definition projectNumberPayload (projectNumber : string) : jsval :=
JObj [("criteria", JObj [("project_nums", JArr [JStr (trim projectNumber)])]);
      ("limit", JNum 1);
      ("offset", JNum 0)].

(** The part that the two list searches share, after their payload is
    built: fetch, give up on a falsy body, parse, convert every project. *)
Definition searchGrants (net : Network) (payload : jsval) (config : NIHConfig)
  : outcome (list Nih.GrantRecord) :=
rawData <- fetchNIHData net payload "projects/search" config;;
if negb (Json.truthy rawData) then Ok []
else
  response <- parse Nih.NIHSearchResponseSchema rawData;;
  Ok (map Nih.convertNIHProjectToGrantRecord (viewResults response)).

Definition getNIHGrantsByPIName (net : Network) (piName : string)
    (maxResults : Z) (config : NIHConfig) : outcome (list Nih.GrantRecord) :=
searchGrants net (piNamePayload piName maxResults) config.

Definition getNIHGrantsByOrganization (net : Network) (orgName : string)
    (maxResults : Z) (config : NIHConfig) : outcome (list Nih.GrantRecord) :=
searchGrants net (organizationPayload orgName maxResults) config.

(** [null] is [None]. *)
Definition getNIHGrantByNumber (net : Network) (projectNumber : string)
    (config : NIHConfig) : outcome (option Nih.GrantRecord) :=
if negb (truthy_string projectNumber) || negb (truthy_string (trim projectNumber))
then Ok None
else
  rawData <- fetchNIHData net (projectNumberPayload projectNumber)
                          "projects/search" config;;
  if negb (Json.truthy rawData) then Ok None
  else
    response <- parse Nih.NIHSearchResponseSchema rawData;;
    match viewResults response with
    | [] => Ok None
    | first :: _ => Ok (Some (Nih.convertNIHProjectToGrantRecord first))
    end.

(** ** The NIH tools of the server ([src/unnamed/part_000]) *)

Definition search_nih_grants_by_pi_name (net : Network) (pi_name : string)
    (max_results : Z) : Server.ToolOutput (list Nih.GrantRecord) :=
match getNIHGrantsByPIName net pi_name max_results defaultNIHConfig with
| Ok grants => Server.Stringify (Some grants)
| Throw error => Server.Text (Server.error_text error)
end.

Definition search_nih_grants_by_organization (net : Network) (org_name : string)
    (max_results : Z) : Server.ToolOutput (list Nih.GrantRecord) :=
match getNIHGrantsByOrganization net org_name max_results defaultNIHConfig with
| Ok grants => Server.Stringify (Some grants)
| Throw error => Server.Text (Server.error_text error)
end.

Definition get_nih_grant_by_number (net : Network) (project_number : string)
  : Server.ToolOutput Nih.GrantRecord :=
match getNIHGrantByNumber net project_number defaultNIHConfig with
| Ok (Some grant) => Server.Stringify (Some grant)
| Ok None => Server.Text ("Error: Grant " ++ project_number ++ " not found.")
| Throw error => Server.Text (Server.error_text error)
end.

End NihApi.


(* ===================================================================== *)
(** * Consolidated Screening List adapter ([src/mcp/screening.ts])        *)
(* ===================================================================== *)

Module Screening.

Record ScreeningSearchParams := {
  name : option string;
  countries : option string;
  city : option string;
  state : option string
}.

(** What the service can throw: its own error class, or a built-in
    exception, given by its [name] and [message]. *)
Inductive error : Type :=
| ScreeningListError (message : string)
| Builtin (name message : string).

Definition message_of (e : error) : string :=
match e with
| ScreeningListError m => m
| Builtin _ m => m
end.

(** [String(e)] for an [Error]: [name: message], or the one of the two
    that is not empty. *)
Definition error_to_string (e : error) : string :=
let name := match e with
            | ScreeningListError _ => "ScreeningListError"
            | Builtin n _ => n
            end in
let message := message_of e in
if negb (truthy_string name) then message
else if negb (truthy_string message) then name
else name ++ ": " ++ message.

(** What [response.text()] yields. *)
Inductive TextOutcome : Type :=
| TextBody (s : string)
| NoText (name message : string).

(** What the [fetch] of a search observes; of a response, the body is read
    as text when the status is not 2xx and as JSON otherwise. *)
Inductive FetchOutcome : Type :=
| Rejected (name message : string)
| Responded (status : Z) (text : TextOutcome) (json : JsonOutcome).

Record ScreeningListService := { apiKey : string }.

(** The constructor refuses a falsy key. *)
Definition newScreeningListService (apiKey : option string)
  : Js.result error ScreeningListService :=
match apiKey with
| Some key =>
    if truthy_string key then Ok {| apiKey := key |}
    else Throw (ScreeningListError "Consolidated Screening List API key is required")
| None => Throw (ScreeningListError "Consolidated Screening List API key is required")
end.

(** [if (v) searchParams.append(k, v)]. *)
Definition append_if_truthy (k : string) (v : option string)
    (searchParams : list (string * string)) : list (string * string) :=
match v with
| Some s => if truthy_string s then (searchParams ++ [(k, s)])%list else searchParams
| None => searchParams
end.

(** The entries of the [URLSearchParams] of a search, in order, before
    they are percent-encoded into the address. *)
Definition searchParamsOf (service : ScreeningListService)
    (params : ScreeningSearchParams) : list (string * string) :=
let searchParams := [("subscription-key", apiKey service)] in
let searchParams := append_if_truthy "name" (name params) searchParams in
let searchParams := append_if_truthy "countries" (countries params) searchParams in
let searchParams := append_if_truthy "city" (city params) searchParams in
let searchParams := append_if_truthy "state" (state params) searchParams in
searchParams.

(** [search]: the body of a 2xx answer is returned as it is decoded, with
    no validation. *)
Definition search (fetch : list (string * string) -> FetchOutcome)
    (service : ScreeningListService) (params : ScreeningSearchParams)
  : Js.result error jsval :=
try_catch
  (match fetch (searchParamsOf service params) with
   | Rejected name message => Throw (Builtin name message)
   | Responded status text json =>
       if negb (ok status) then
         match text with
         | TextBody errorText =>
             Throw (ScreeningListError
                      ("API returned status " ++ string_of_Z status ++ ": "
                       ++ errorText))
         | NoText name message => Throw (Builtin name message)
         end
       else
         match json with
         | Body data => Ok data
         | NotJson message => Throw (Builtin "SyntaxError" message)
         end
   end)
  (fun error =>
     match error with
     | ScreeningListError _ => Throw error
     | Builtin _ _ =>
         Throw (ScreeningListError
                  ("Failed to search screening list: " ++ error_to_string error))
     end).

(** The [search_screening_list] tool; [env] is the value of the
    environment variable that holds the key. *)
Definition search_screening_list (env : option string)
    (fetch : list (string * string) -> FetchOutcome)
    (args : ScreeningSearchParams) : Server.ToolOutput jsval :=
if negb (truthy_opt env) then
  Server.Text "Error: CONSOLIDATED_SCREENING_LIST_API_KEY environment variable is not set."
else
  match (service <- newScreeningListService env;; search fetch service args) with
  | Ok result => Server.Stringify (Some result)
  | Throw error => Server.Text ("Error: " ++ message_of error)
  end.

End Screening.


(* ===================================================================== *)
(** * Notions of the specification                                        *)
(* ===================================================================== *)

Unset Implicit Arguments.

Module Spec.

(** Two strings match case-insensitively when they agree once letters are
    folded to one case. *)
Definition eq_ignore_case (s t : string) : Prop := toLowerCase s = toLowerCase t.

(** The dotless i, U+0131, in UTF-8. *)
Definition dotless_i : string :=
String (ascii_of_N 196) (String (ascii_of_N 177) "").

(** A string that spells ORCID: the five letters in this order, each in
    either case, a dotless i also standing for the letter i. *)
Definition spellsORCID (ty : string) : Prop :=
exists o r c i d,
  ty = o ++ r ++ c ++ i ++ d
  /\ (o = "o" \/ o = "O")
  /\ (r = "r" \/ r = "R")
  /\ (c = "c" \/ c = "C")
  /\ (i = "i" \/ i = "I" \/ i = dotless_i)
  /\ (d = "d" \/ d = "D").

(** An optional string that is present and not empty. *)
Definition nonempty (o : option string) : Prop :=
exists s, o = Some s /\ s <> "".

(** The character [c] occurs in [s]. *)
Fixpoint occurs (c : ascii) (s : string) : bool :=
match s with
| EmptyString => false
| String c' s' => Ascii.eqb c' c || occurs c s'
end.

(** The entries of a Europe PMC search response. *)
Definition entries (epmcResponse : Epmc.Raw.EpmcResponse) : list Epmc.Raw.EpmcResult :=
match opt_get (Epmc.Raw.resultList epmcResponse) Epmc.Raw.result with
| Some results => results
| None => []
end.

(** An entry whose title and abstract are both present and not empty. *)
Definition complete (result : Epmc.Raw.EpmcResult) : bool :=
truthy_opt (Epmc.Raw.title result) && truthy_opt (Epmc.Raw.abstractText result).

(** [v] is what the first summary, in source order, that supplies a truthy
    [f] supplies; [undefined] when none does. *)
Inductive FirstSupplying (f : Orcid.OrcidWorkSummary -> jsval)
  : list Orcid.OrcidWorkSummary -> jsval -> Prop :=
| FirstSupplying_none summaries :
    Forall (fun s => Json.truthy (f s) = false) summaries ->
    FirstSupplying f summaries JUndefined
| FirstSupplying_at before s after :
    Forall (fun s' => Json.truthy (f s') = false) before ->
    Json.truthy (f s) = true ->
    FirstSupplying f (before ++ s :: after) (f s).

(** A work group one of whose summaries has a truthy title. *)
Definition titled (work : Orcid.OrcidWork) : bool :=
existsb (fun s => Json.truthy (Orcid.ws_title s)) (Orcid.workSummaries work).

(** The source labels of a group: the truthy ones, in source order, with
    repetitions. *)
Definition sourceLabels (work : Orcid.OrcidWork) : list string :=
map join_item
    (filter Json.truthy (map Orcid.ws_source (Orcid.workSummaries work))).

(** [v] is the value of the first external identifier of type ["doi"];
    [undefined] when there is none. *)
Inductive DoiOf : list Orcid.OrcidWorkExternalId -> jsval -> Prop :=
| DoiOf_none ids :
    Forall (fun id => Orcid.wid_name id <> JStr "doi") ids ->
    DoiOf ids JUndefined
| DoiOf_at before id after :
    Forall (fun id' => Orcid.wid_name id' <> JStr "doi") before ->
    Orcid.wid_name id = JStr "doi" ->
    DoiOf (before ++ id :: after) (Orcid.wid_value id).

(** The profile publication [p] is the merge of the work group [work]. *)
Definition MergedFrom (work : Orcid.OrcidWork) (p : Orcid.Publication) : Prop :=
FirstSupplying Orcid.ws_title (Orcid.workSummaries work) (Orcid.pub_title p)
/\ (exists pubDate,
      FirstSupplying Orcid.ws_publicationDate (Orcid.workSummaries work) pubDate
      /\ Orcid.publicationDate p = Orcid.parseDate pubDate)
/\ FirstSupplying Orcid.journalTitle (Orcid.workSummaries work) (Orcid.journalName p)
/\ Orcid.pub_source p =
     match sourceLabels work with
     | [] => None
     | labels => Some (join ", " labels)
     end
/\ DoiOf (Orcid.work_externalIds work) (Orcid.doi p).

(** E-mail flags as the comparator reads them. *)
Definition isPrimary (e : Orcid.OrcidEmail) : bool := Json.truthy (Orcid.primary e).
Definition isVerified (e : Orcid.OrcidEmail) : bool := Json.truthy (Orcid.verified e).

(** [a] may stand before [b]: a non-primary address never precedes a
    primary one, and among addresses of equal primary status an unverified
    one never precedes a verified one. *)
Definition mayPrecede (a b : Orcid.OrcidEmail) : Prop :=
(isPrimary b = true -> isPrimary a = true)
/\ (isPrimary a = isPrimary b -> isVerified b = true -> isVerified a = true).

(** Position of an address in the order: primary and verified first, then
    primary only, then verified only, then neither. *)
Definition rank (e : Orcid.OrcidEmail) : nat :=
((if isPrimary e then 0 else 2) + (if isVerified e then 0 else 1))%nat.

(** The addresses of one class (same primary flag, same verified flag). *)
Definition sameClass (p v : bool) (e : Orcid.OrcidEmail) : bool :=
Bool.eqb (isPrimary e) p && Bool.eqb (isVerified e) v.

(** A built-in exception, which no adapter has classified. *)
Definition builtin (e : exn) : Prop :=
exists name message, e = JsError name message.

(** An error that an adapter has classified. *)
Definition classifiedEpmc (e : exn) : bool :=
Epmc.is_EpmcAPIError e || Epmc.is_EpmcValidationError e.

Definition classifiedOrcid (e : exn) : bool :=
Orcid.is_OrcidAPIError e || Orcid.is_OrcidNotFoundError e
|| Orcid.is_OrcidValidationError e.

End Spec.

(* ===================================================================== *)
(** * Sample payloads                                                     *)
(* ===================================================================== *)

Module Samples.

Definition epmcResult (title abstractText : option string) : Epmc.Raw.EpmcResult :=
{| Epmc.Raw.pmid := None;
   Epmc.Raw.pmcid := None;
   Epmc.Raw.doi := None;
   Epmc.Raw.title := title;
   Epmc.Raw.authorList := None;
   Epmc.Raw.journalInfo := None;
   Epmc.Raw.abstractText := abstractText;
   Epmc.Raw.keywordList := None;
   Epmc.Raw.grantsList := None;
   Epmc.Raw.meshHeadingList := None;
   Epmc.Raw.fullTextUrlList := None;
   Epmc.Raw.isOpenAccess := None;
   Epmc.Raw.citedByCount := None;
   Epmc.Raw.firstPublicationDate := None |}.

Definition epmcResponse (results : list Epmc.Raw.EpmcResult) : Epmc.Raw.EpmcResponse :=
{| Epmc.Raw.resultList := Some {| Epmc.Raw.result := Some results |} |}.

Definition epmcAuthor (fullName : string) (type value : option string)
  : Epmc.Raw.EpmcAuthor :=
{| Epmc.Raw.fullName := Some fullName;
   Epmc.Raw.lastName := None;
   Epmc.Raw.firstName := None;
   Epmc.Raw.initials := None;
   Epmc.Raw.authorId := Some {| Epmc.Raw.type := type; Epmc.Raw.value := value |};
   Epmc.Raw.authorAffiliationDetailsList := None |}.

Definition nihProject
    (principal_investigators : option (list Nih.Raw.NIHPrincipalInvestigator))
    (contact_pi_name : option string) : Nih.Raw.NIHProject :=
{| Nih.Raw.project_num := "5R01CA000001-02";
   Nih.Raw.project_title := None;
   Nih.Raw.project_start_date := None;
   Nih.Raw.project_end_date := None;
   Nih.Raw.fiscal_year := None;
   Nih.Raw.award_amount := None;
   Nih.Raw.is_active := None;
   Nih.Raw.principal_investigators := principal_investigators;
   Nih.Raw.contact_pi_name := contact_pi_name;
   Nih.Raw.organization := None;
   Nih.Raw.agency_ic_admin := None;
   Nih.Raw.pref_terms := None;
   Nih.Raw.abstract_text := None;
   Nih.Raw.phr_text := None;
   Nih.Raw.mechanism_code_dc := None |}.

Definition orcidEmail (address : string) (primary verified : bool) : Orcid.OrcidEmail :=
{| Orcid.email := JStr address;
   Orcid.verified := JBool verified;
   Orcid.primary := JBool primary |}.

Definition orcidProfile (emails : list Orcid.OrcidEmail) : Orcid.OrcidProfile :=
{| Orcid.name := {| Orcid.givenNames := JUndefined;
                    Orcid.familyName := JUndefined;
                    Orcid.creditName := JUndefined |};
   Orcid.biography := JUndefined;
   Orcid.keywords := [];
   Orcid.otherNames := [];
   Orcid.emails := emails;
   Orcid.externalIds := [];
   Orcid.researcherUrls := [];
   Orcid.lastModified := None |}.

Definition orcidSummary (title source : jsval) : Orcid.OrcidWorkSummary :=
{| Orcid.ws_title := title;
   Orcid.ws_type := JStr "journal-article";
   Orcid.ws_publicationDate := JUndefined;
   Orcid.journalTitle := JUndefined;
   Orcid.ws_url := JUndefined;
   Orcid.ws_source := source |}.

Definition orcidWorks (summaries : list Orcid.OrcidWorkSummary) : Orcid.OrcidWorks :=
{| Orcid.works :=
     [{| Orcid.workSummaries := summaries; Orcid.work_externalIds := [] |}] |}.

(** A Europe PMC search response with one complete entry. *)
Definition epmcOnePublication : jsval :=
JObj [("hitCount", JNum 1);
      ("resultList",
        JObj [("result",
                JArr [JObj [("title", JStr "A title");
                            ("abstractText", JStr "An abstract")]])])].

Definition orcidId : string := "0000-0002-1825-0097".

Definition nihMeta : list (string * jsval) :=
[("total", JNum 1); ("offset", JNum 0); ("limit", JNum 1)].

Definition nihProjectPayload : list (string * jsval) :=
[("project_num", JStr "5R01CA000001-02"); ("project_title", JStr "A title")].

Definition nihSearchResponse (meta project : list (string * jsval)) : jsval :=
JObj [("meta", JObj meta); ("results", JArr [JObj project])].

(** A network on which every address answers [200 OK] with the body
    [body], except the address [failing], which answers [status]. *)
Definition networkStatus (failing : string) (status : Z) (body : jsval) : Network :=
{| new_URL := fun _ => None;
   fetch := fun url _ =>
     if String.eqb url failing
     then Responded status "" (Body JNull)
     else Responded 200 "OK" (Body body) |}.

Definition network (failing : string) (body : jsval) : Network :=
networkStatus failing 500 body.

(** A network on which every address answers [200 OK] with [body]. *)
Definition networkOk (body : jsval) : Network :=
{| new_URL := fun _ => None;
   fetch := fun _ _ => Responded 200 "OK" (Body body) |}.

(** A network on which the [URL] constructor rejects every address. *)
Definition networkBadUrl : Network :=
{| new_URL := fun _ => Some "Invalid URL";
   fetch := fun _ _ => Rejected "TypeError" "fetch failed" |}.

Definition epmcSearchUrl : string :=
"https://www.ebi.ac.uk/europepmc/webservices/rest/search".

Definition orcidWorksUrl : string :=
"https://pub.orcid.org/v3.0/0000-0002-1825-0097/works".

End Samples.

Import Spec.

(* ===================================================================== *)
(** * Further notions: closed forms of the normalisers                    *)
(* ===================================================================== *)

Module Closed.

(** The string of an optional string that is present and not empty. *)
Definition present (o : option string) : list string :=
match o with
| Some s => if truthy_string s then [s] else []
| None => []
end.

(** All the strings of a list, one after the other. *)
Definition concat_all (l : list string) : string := fold_right append "" l.

(** The lists that a Europe PMC entry wraps, empty when absent. *)
Definition rawAuthors (result : Epmc.Raw.EpmcResult) : list Epmc.Raw.EpmcAuthor :=
match opt_get (Epmc.Raw.authorList result) Epmc.Raw.author with
| Some l => l
| None => []
end.

Definition rawGrants (result : Epmc.Raw.EpmcResult) : list Epmc.Raw.EpmcGrant :=
match opt_get (Epmc.Raw.grantsList result) Epmc.Raw.grant with
| Some l => l
| None => []
end.

Definition rawUrls (result : Epmc.Raw.EpmcResult) : list Epmc.Raw.EpmcFullTextUrl :=
match opt_get (Epmc.Raw.fullTextUrlList result) Epmc.Raw.fullTextUrl with
| Some l => l
| None => []
end.

Definition rawHeadings (result : Epmc.Raw.EpmcResult) : list Epmc.Raw.EpmcMeshHeading :=
match opt_get (Epmc.Raw.meshHeadingList result) Epmc.Raw.meshHeading with
| Some l => l
| None => []
end.

Definition rawAffiliations (author : Epmc.Raw.EpmcAuthor)
  : list Epmc.Raw.EpmcAuthorAffiliation :=
match opt_get (Epmc.Raw.authorAffiliationDetailsList author)
              Epmc.Raw.authorAffiliation with
| Some l => l
| None => []
end.

Definition rawQualifiers (mesh : Epmc.Raw.EpmcMeshHeading)
  : list Epmc.Raw.EpmcMeshQualifier :=
match opt_get (Epmc.Raw.meshQualifierList mesh) Epmc.Raw.meshQualifier with
| Some l => l
| None => []
end.

(** The decorated subject of a MeSH heading with descriptor [d]: a star
    for a major topic, the descriptor, then [/name] for every qualifier
    that has a name, in source order. *)
Definition subjectOf (mesh : Epmc.Raw.EpmcMeshHeading) (d : string) : string :=
(if strict_eq (Epmc.Raw.majorTopic_YN mesh) "Y" then "*" else "")
++ d
++ concat_all
     (map (append "/")
          (flat_map (fun q => present (Epmc.Raw.qualifierName q))
                    (rawQualifiers mesh))).

(** The subjects of a list of headings: those of the headings that have
    a descriptor. *)
Definition subjectsOf (headings : list Epmc.Raw.EpmcMeshHeading) : list string :=
flat_map (fun mesh => map (subjectOf mesh) (present (Epmc.Raw.descriptorName mesh)))
         headings.

(** The query parameters of a publication search. *)
Definition epmcSearchPayload (orcidId : string) (maxResults : Z) : jsval :=
JObj [("query", JStr ("AUTHORID:" ++ Epmc.dquote ++ orcidId ++ Epmc.dquote));
      ("resultType", JStr "core");
      ("pageSize", JNum maxResults);
      ("format", JStr "json")].

(** The entries of the result list in a raw search response. *)
Definition rawEntries (data : jsval) : list jsval :=
match field "result" (field "resultList" data) with
| JArr items => items
| _ => []
end.

End Closed.

Module Samples2.

(** A Europe PMC entry with authors, grants, headings and addresses, some
    of which the normaliser skips. *)
Definition richResult : Epmc.Raw.EpmcResult :=
{| Epmc.Raw.pmid := Some "12345678";
   Epmc.Raw.pmcid := None;
   Epmc.Raw.doi := Some "10.1000/j.1";
   Epmc.Raw.title := Some "A title";
   Epmc.Raw.authorList :=
     Some {| Epmc.Raw.author :=
               Some [{| Epmc.Raw.fullName := Some "Doe J";
                        Epmc.Raw.lastName := Some "Doe";
                        Epmc.Raw.firstName := Some "Jane";
                        Epmc.Raw.initials := Some "J";
                        Epmc.Raw.authorId := None;
                        Epmc.Raw.authorAffiliationDetailsList :=
                          Some {| Epmc.Raw.authorAffiliation :=
                                    Some [{| Epmc.Raw.affiliation := Some "" |};
                                          {| Epmc.Raw.affiliation := Some "EMBL" |}] |} |};
                     {| Epmc.Raw.fullName := None;
                        Epmc.Raw.lastName := Some "Consortium";
                        Epmc.Raw.firstName := None;
                        Epmc.Raw.initials := None;
                        Epmc.Raw.authorId := None;
                        Epmc.Raw.authorAffiliationDetailsList := None |}] |};
   Epmc.Raw.journalInfo := None;
   Epmc.Raw.abstractText := Some "An abstract";
   Epmc.Raw.keywordList := None;
   Epmc.Raw.grantsList :=
     Some {| Epmc.Raw.grant :=
               Some [{| Epmc.Raw.grantId := None;
                        Epmc.Raw.agency := Some "Wellcome";
                        Epmc.Raw.acronym := None |};
                     {| Epmc.Raw.grantId := Some "R01";
                        Epmc.Raw.agency := Some "NIH";
                        Epmc.Raw.acronym := None |}] |};
   Epmc.Raw.meshHeadingList :=
     Some {| Epmc.Raw.meshHeading :=
               Some [{| Epmc.Raw.majorTopic_YN := Some "Y";
                        Epmc.Raw.descriptorName := Some "Genomics";
                        Epmc.Raw.meshQualifierList :=
                          Some {| Epmc.Raw.meshQualifier :=
                                    Some [{| Epmc.Raw.qualifierName := Some "methods" |};
                                          {| Epmc.Raw.qualifierName := None |};
                                          {| Epmc.Raw.qualifierName := Some "trends" |}] |} |};
                     {| Epmc.Raw.majorTopic_YN := Some "N";
                        Epmc.Raw.descriptorName := None;
                        Epmc.Raw.meshQualifierList := None |}] |};
   Epmc.Raw.fullTextUrlList :=
     Some {| Epmc.Raw.fullTextUrl :=
               Some [{| Epmc.Raw.url := None |};
                     {| Epmc.Raw.url := Some "https://a.example/1" |};
                     {| Epmc.Raw.url := Some "https://b.example/1" |}] |};
   Epmc.Raw.isOpenAccess := Some "Y";
   Epmc.Raw.citedByCount := Some 3;
   Epmc.Raw.firstPublicationDate := Some "2020-01-31" |}.

(** An author with three affiliation details, two of them unusable. *)
Definition affiliatedAuthor : Epmc.Raw.EpmcAuthor :=
{| Epmc.Raw.fullName := Some "Doe J";
   Epmc.Raw.lastName := None;
   Epmc.Raw.firstName := None;
   Epmc.Raw.initials := None;
   Epmc.Raw.authorId := None;
   Epmc.Raw.authorAffiliationDetailsList :=
     Some {| Epmc.Raw.authorAffiliation :=
               Some [{| Epmc.Raw.affiliation := Some "" |};
                     {| Epmc.Raw.affiliation := None |};
                     {| Epmc.Raw.affiliation := Some "EMBL" |}] |} |}.

End Samples2.

Import Closed.

Module ClosedNih.

(** The non-empty parts of a recipient: organisation name, department and
    country, in that order. *)
Definition recipientParts (project : Nih.Raw.NIHProject) : list string :=
flat_map (fun f => present (opt_get (Nih.Raw.organization project) f))
         [Nih.Raw.org_name; Nih.Raw.org_department; Nih.Raw.org_country].

(** The project numbers in the result list of a raw search response. *)
Definition rawProjectNumbers (data : jsval) : list string :=
match field "results" data with
| JArr items =>
    map (fun v => match field "project_num" v with JStr s => s | _ => "" end) items
| _ => []
end.

(** The address of the project search. *)
Definition searchUrl (config : NihApi.NIHConfig) : string :=
NihApi.baseUrl config ++ "/projects/search".

End ClosedNih.

Import ClosedNih.

Module ClosedNihApi.

(** A list search answered well: a 2xx status and a JSON body that is
    either falsy, for no grant at all, or accepted by the response schema,
    for one grant per project of its result list. *)
Definition SearchAnswered (net : Network) (config : NihApi.NIHConfig)
    (payload : jsval) (grants : list Nih.GrantRecord) : Prop :=
exists status statusText data,
  fetch net (searchUrl config) payload = Responded status statusText (Body data)
  /\ ok status = true
  /\ ((Json.truthy data = false /\ grants = [])
      \/ (Json.truthy data = true
          /\ accepts Nih.NIHSearchResponseSchema data = true
          /\ grants = map Nih.convertNIHProjectToGrantRecord
                          (NihApi.viewResults data))).

Definition fetchFailure (reason : string) : exn :=
JsError "Error" ("Failed to fetch projects/search data: " ++ reason).

End ClosedNihApi.

Import ClosedNihApi.

Module ClosedOrcid.

(** A flag that the profile parser has defaulted: truthy, or [false]. *)
Definition defaulted (flag : jsval) : Prop :=
Json.truthy flag = true \/ flag = JBool false.

(** A value that the parser has defaulted from the value sent: the value
    sent when that is truthy, [dflt] when it is missing or falsy. *)
Definition defaultedFrom (sent dflt value : jsval) : Prop :=
(Json.truthy sent = true -> value = sent)
/\ (Json.truthy sent = false -> value = dflt).

(** The values that a loop over [v] visits, none when [v] is not
    iterable. *)
Definition itemsOf (v : jsval) : list jsval :=
match for_of v with
| Ok items => items
| Throw _ => []
end.

(** The summaries of an affiliations answer, group after group. *)
Definition summariesSent (data : jsval) : list jsval :=
flat_map (fun group => itemsOf (Json.or (oget "summaries" group) (JArr [])))
         (itemsOf (oget "affiliation-group" data)).

(** The affiliation that a summary describes: its education summary, or
    else its employment summary. *)
Definition affiliationSent (summary : jsval) : jsval :=
if Json.truthy (oget "education-summary" summary)
then oget "education-summary" summary
else oget "employment-summary" summary.

(** The organisation name that a summary sends. *)
Definition nameSent (summary : jsval) : jsval :=
oget "name" (oget "organization" (affiliationSent summary)).

(** The e-mail entries of a person record. *)
Definition emailsSent (personData : jsval) : list jsval :=
match Json.or (oget "email" (oget "emails" personData)) (JArr []) with
| JArr entries => entries
| _ => []
end.

(** The four sub-fetches all succeeded, with these bodies. *)
Definition AllFetched (net : Network) (orcidId : string) (config : Orcid.OrcidConfig)
    (personData worksData educationData employmentData : jsval) : Prop :=
Orcid.subFetches net orcidId config
= [Ok personData; Ok worksData; Ok educationData; Ok employmentData].

(** The details of the validation error raised for unparsable data. *)
Definition validationDetails (orcidId : string) (cause : exn)
    (personData worksData educationData employmentData : jsval) : jsval :=
JObj [("orcidId", JStr orcidId);
      ("error", JStr (message_of cause));
      ("rawData",
        JObj [("person", personData);
              ("works", worksData);
              ("education", educationData);
              ("employment", employmentData)])].

(** The address of a sub-resource of a researcher. *)
Definition resourceUrl (config : Orcid.OrcidConfig) (orcidId endpoint : string)
  : string :=
Orcid.baseUrl config ++ "/" ++ orcidId ++ "/" ++ endpoint.

(** A person record with a biography and none of the list members. *)
Definition barePerson : jsval :=
JObj [("name", JObj [("given-names", JObj [("value", JStr "Jane")]);
                     ("family-name", JObj [("value", JStr "Doe")])]);
      ("biography", JObj [("content", JStr "Genomics.")])].

(** A person record whose keyword list holds a [null]. *)
Definition brokenPerson : jsval :=
JObj [("keywords", JObj [("keyword", JArr [JNull])])].

End ClosedOrcid.

Import ClosedOrcid.

Module SamplesOrcid.

(** A person record with two e-mail entries, one of them without flags. *)
Definition personWithEmails : jsval :=
JObj [("emails",
        JObj [("email",
                JArr [JObj [("email", JStr "a@x.org"); ("primary", JBool true)];
                      JObj [("email", JStr "b@x.org");
                            ("verified", JNull);
                            ("primary", JNum 0)]])])].

(** An employments answer with one group of two summaries, the second of
    which names no organisation. *)
Definition employments : jsval :=
JObj [("affiliation-group",
        JArr [JObj [("summaries",
                      JArr [JObj [("employment-summary",
                                    JObj [("organization",
                                            JObj [("name", JStr "EMBL")])])];
                            JObj [("employment-summary",
                                    JObj [("role-title", JStr "Fellow")])];
                            JObj [("other", JNull)]])]])].

(** A works answer with two groups, the second without any title. *)
Definition worksAnswer : jsval :=
JObj [("group",
        JArr [JObj [("work-summary",
                      JArr [JObj [("title",
                                    JObj [("title", JObj [("value", JStr "A title")])])]])];
              JObj [("work-summary", JArr [JObj [("type", JStr "book")]])]])].

End SamplesOrcid.

Module ClosedScreening.

(** The filters of a search, by key, in the order in which they are
    appended. *)
Definition filters (params : Screening.ScreeningSearchParams)
  : list (string * option string) :=
[("name", Screening.name params);
 ("countries", Screening.countries params);
 ("city", Screening.city params);
 ("state", Screening.state params)].

Definition keyRequired : string := "Consolidated Screening List API key is required".

Definition keyNotSet : string :=
"Error: CONSOLIDATED_SCREENING_LIST_API_KEY environment variable is not set.".

End ClosedScreening.

Import ClosedScreening.

(* ===================================================================== *)
(** * Facts about the primitives                                          *)
(* ===================================================================== *)

Lemma truthy_string_true (s : string) : truthy_string s = true <-> s <> "".
Proof. destruct s; simpl; split; intros; congruence. Qed.

Lemma truthy_opt_nonempty (o : option string) :
  truthy_opt o = true <-> nonempty o.
Proof.
  unfold nonempty. destruct o as [s|]; simpl.
  - rewrite truthy_string_true. split.
    + intros H. exists s. auto.
    + intros (s' & E & H). congruence.
  - split; [discriminate | intros (s & E & _); discriminate].
Qed.

Example split_keeps_first_two_pieces :
  split_limit "," 2 "Smith, John, Jr." = ["Smith"; " John"].
Proof. reflexivity. Qed.

Example split_of_empty_string : split "," "" = [""].
Proof. reflexivity. Qed.

Example trim_both_ends : trim "  John Q.  " = "John Q.".
Proof. reflexivity. Qed.

Example index_negative : index [1; 2; 3] (-1) = None.
Proof. reflexivity. Qed.

Lemma lower_upper_char (c : ascii) : lower_char (upper_char c) = lower_char c.
Proof. destruct c as [[] [] [] [] [] [] [] []]; reflexivity. Qed.

Lemma upper_lower_char (c : ascii) : upper_char (lower_char c) = upper_char c.
Proof. destruct c as [[] [] [] [] [] [] [] []]; reflexivity. Qed.

Lemma upper_char_inv (c x : ascii) :
  upper_char c = x -> c = x \/ c = lower_char x.
Proof. intros <-. destruct c as [[] [] [] [] [] [] [] []]; auto. Qed.

Lemma lower_char_inv (c x : ascii) :
  lower_char c = x -> c = x \/ c = upper_char x.
Proof. intros <-. destruct c as [[] [] [] [] [] [] [] []]; auto. Qed.

Lemma upper_ligature_head (c : ascii) (u : string) :
  upper_ligature c = Some u ->
  exists u', u = String "F" u' \/ u = String "S" u'.
Proof.
  destruct c as [[] [] [] [] [] [] [] []]; cbv;
    intros H; inversion H; eauto.
Qed.

Lemma byte_eqb_eq (c : ascii) (n : N) :
  (N_of_ascii c =? n)%N = true -> c = ascii_of_N n.
Proof.
  intros H. apply N.eqb_eq in H. rewrite <- H. symmetry. apply ascii_N_embedding.
Qed.

(** What a byte in front of an upper-cased rest can produce as a first
    byte: the upper case of an ASCII byte, a byte outside ASCII left as it
    is, the [I] of a dotless i, or the [S] or [F] that starts the upper
    case of a long s, a sharp s or a ligature. *)
Lemma upper_step_inv (c : ascii) (out : string) (x : ascii) (t : string) :
  upper_step c out = String x t ->
  ((N_of_ascii c <? 128)%N = true /\ upper_char c = x /\ out = t)
  \/ ((N_of_ascii c <? 128)%N = false /\ c = x /\ out = t)
  \/ (x = "I"%char /\ String c out = dotless_i ++ t)
  \/ x = "S"%char \/ x = "F"%char.
Proof.
  unfold upper_step. destruct (N_of_ascii c <? 128)%N eqn:A.
  - intros [= <- <-]. auto.
  - unfold upper_special. destruct out as [|c1 out1].
    + intros [= <- <-]. auto.
    + cbv zeta.
      destruct ((N_of_ascii c =? 196) && (N_of_ascii c1 =? 177))%N eqn:T1.
      { intros [= <- <-]. apply andb_true_iff in T1. destruct T1 as [T T'].
        apply byte_eqb_eq in T, T'. subst. right; right; left. auto. }
      destruct ((N_of_ascii c =? 197) && (N_of_ascii c1 =? 191))%N eqn:T2.
      { intros [= <- <-]. auto. }
      destruct ((N_of_ascii c =? 195) && (N_of_ascii c1 =? 159))%N eqn:T3.
      { intros [= <- <-]. auto. }
      destruct ((N_of_ascii c =? 239) && (N_of_ascii c1 =? 172))%N eqn:T4.
      * destruct out1 as [|c2 out2]; [intros [= <- <-]; auto|].
        destruct (upper_ligature c2) as [u|] eqn:L; cbn [option_map].
        -- destruct (upper_ligature_head _ _ L) as [u' [-> | ->]];
             intros [= <- <-]; auto.
        -- intros [= <- <-]. auto.
      * intros [= <- <-]. auto.
Qed.

Lemma upper_step_nonempty (c : ascii) (out : string) : upper_step c out <> "".
Proof.
  unfold upper_step. destruct (N_of_ascii c <? 128)%N; [discriminate|].
  unfold upper_special. destruct out as [|c1 out1]; [discriminate|].
  cbv zeta.
  destruct ((N_of_ascii c =? 196) && (N_of_ascii c1 =? 177))%N; [discriminate|].
  destruct ((N_of_ascii c =? 197) && (N_of_ascii c1 =? 191))%N; [discriminate|].
  destruct ((N_of_ascii c =? 195) && (N_of_ascii c1 =? 159))%N; [discriminate|].
  destruct ((N_of_ascii c =? 239) && (N_of_ascii c1 =? 172))%N; [|discriminate].
  destruct out1 as [|c2 out2]; [discriminate|].
  destruct (upper_ligature c2) as [u|] eqn:L; cbn [option_map]; [|discriminate].
  destruct (upper_ligature_head _ _ L) as [u' [-> | ->]]; discriminate.
Qed.

Lemma toUpperCase_empty (s : string) : toUpperCase s = "" -> s = "".
Proof.
  destruct s as [|c s]; [reflexivity|]. cbn [toUpperCase]. intros H.
  destruct (upper_step_nonempty _ _ H).
Qed.

(** An ASCII upper-case letter other than I, S and F at the head of an
    upper-cased string comes from that letter, in either case. *)
Lemma toUpperCase_letter (s : string) (x : ascii) (t : string) :
  toUpperCase s = String x t ->
  (N_of_ascii x <? 128)%N = true ->
  x <> "I"%char -> x <> "S"%char -> x <> "F"%char ->
  exists c s', s = String c s' /\ (c = x \/ c = lower_char x)
               /\ toUpperCase s' = t.
Proof.
  intros H A NI NS NF. destruct s as [|c s']; [discriminate|].
  cbn [toUpperCase] in H. apply upper_step_inv in H.
  destruct H as [(_ & U & E) | [(B & -> & _) | [(E & _) | [E | E]]]];
    try congruence.
  exists c, s'. split; [reflexivity|]. split; [apply upper_char_inv, U | exact E].
Qed.

(** The letter I at the head of an upper-cased string comes from an i in
    either case or from a dotless i. *)
Lemma toUpperCase_letter_I (s t : string) :
  toUpperCase s = String "I" t ->
  exists i s', s = i ++ s' /\ (i = "i" \/ i = "I" \/ i = dotless_i)
               /\ toUpperCase s' = t.
Proof.
  intros H. destruct s as [|c s']; [discriminate|].
  cbn [toUpperCase] in H. apply upper_step_inv in H.
  destruct H as [(_ & U & E) | [(B & -> & _) | [(_ & E) | [E | E]]]];
    try discriminate.
  - apply upper_char_inv in U. cbv in U.
    exists (String c ""), s'. split; [reflexivity|]. split; [|exact E].
    destruct U as [-> | ->]; auto.
  - change (dotless_i ++ t)
      with (String (ascii_of_N 196) (String (ascii_of_N 177) t)) in E.
    injection E as -> E. destruct s' as [|c1 s2]; [discriminate|].
    cbn [toUpperCase] in E. apply upper_step_inv in E.
    destruct E as [(B & U & _) | [(_ & -> & E) | [(E & _) | [E | E]]]];
      try discriminate.
    + apply upper_char_inv in U. cbv in U. destruct U as [-> | ->]; discriminate.
    + exists dotless_i, s2. split; [reflexivity|]. auto.
Qed.

(** The type test of the author loop: exactly the spellings of ORCID
    upper-case to "ORCID". *)
Lemma toUpperCase_is_ORCID (ty : string) :
  toUpperCase ty = "ORCID" <-> spellsORCID ty.
Proof.
  split.
  - intros H.
    apply toUpperCase_letter in H; [|reflexivity|discriminate..].
    destruct H as (o & s1 & -> & Ho & H).
    apply toUpperCase_letter in H; [|reflexivity|discriminate..].
    destruct H as (r & s2 & -> & Hr & H).
    apply toUpperCase_letter in H; [|reflexivity|discriminate..].
    destruct H as (c & s3 & -> & Hc & H).
    apply toUpperCase_letter_I in H.
    destruct H as (i & s4 & -> & Hi & H).
    apply toUpperCase_letter in H; [|reflexivity|discriminate..].
    destruct H as (d & s5 & -> & Hd & H).
    apply toUpperCase_empty in H. subst s5.
    exists (String o ""), (String r ""), (String c ""), i, (String d "").
    split; [reflexivity|].
    cbv in Ho, Hr, Hc, Hd.
    repeat split; auto;
      match goal with
      | H : ?c = _ \/ ?c = _ |- String ?c _ = _ \/ _ =>
          destruct H as [-> | ->]; auto
      end.
  - intros (o & r & c & i & d & -> & Ho & Hr & Hc & Hi & Hd).
    destruct Ho as [-> | ->], Hr as [-> | ->], Hc as [-> | ->],
             Hi as [-> | [-> | ->]], Hd as [-> | ->]; reflexivity.
Qed.

(** A type that matches "ORCID" whatever the case of its ASCII letters is
    one of the spellings. *)
Lemma eq_ignore_case_spellsORCID (ty : string) :
  eq_ignore_case ty "ORCID" -> spellsORCID ty.
Proof.
  unfold eq_ignore_case, toLowerCase. cbn [map_string]. intros H.
  destruct ty as [|o [|r [|c [|i [|d [|x ty]]]]]]; try discriminate.
  cbn [map_string] in H. injection H as Ho Hr Hc Hi Hd.
  apply lower_char_inv in Ho, Hr, Hc, Hi, Hd. cbv in Ho, Hr, Hc, Hi, Hd.
  exists (String o ""), (String r ""), (String c ""), (String i ""), (String d "").
  split; [reflexivity|].
  destruct Ho as [-> | ->], Hr as [-> | ->], Hc as [-> | ->],
           Hi as [-> | ->], Hd as [-> | ->]; repeat split; auto.
Qed.

(* ===================================================================== *)
(** * Europe PMC: the drop policy and the ORCID of an author              *)
(* ===================================================================== *)

Lemma convertResult_emits (result : Epmc.Raw.EpmcResult) :
  (exists p, Epmc.convertResult result = Some p) <-> complete result = true.
Proof.
  unfold Epmc.convertResult, complete.
  destruct (Epmc.Raw.title result) as [[|c t]|];
    destruct (Epmc.Raw.abstractText result) as [[|c' a]|]; simpl;
    split; intros H; try discriminate; try (destruct H; discriminate);
    eauto.
Qed.

Lemma convertResult_fields (result : Epmc.Raw.EpmcResult) (p : Epmc.PublicationRecord) :
  Epmc.convertResult result = Some p ->
  Some (Epmc.title p) = Epmc.Raw.title result
  /\ Epmc.abstract p = Epmc.Raw.abstractText result.
Proof.
  unfold Epmc.convertResult.
  destruct (Epmc.Raw.title result) as [[|c t]|];
    destruct (Epmc.Raw.abstractText result) as [[|c' a]|]; simpl;
    intros H; inversion H; subst; simpl; auto.
Qed.

Lemma collect_convertResult (results : list Epmc.Raw.EpmcResult) :
  map (fun p => (Some (Epmc.title p), Epmc.abstract p))
      (collect Epmc.convertResult results)
  = map (fun r => (Epmc.Raw.title r, Epmc.Raw.abstractText r))
        (filter complete results).
Proof.
  induction results as [|r results IH]; simpl; [reflexivity|].
  destruct (Epmc.convertResult r) as [p|] eqn:E.
  - assert (C : complete r = true) by (apply convertResult_emits; eauto).
    rewrite C. simpl. rewrite IH.
    destruct (convertResult_fields _ _ E) as [<- ->]. reflexivity.
  - destruct (complete r) eqn:C; [|exact IH].
    apply convertResult_emits in C. destruct C as [p C]. congruence.
Qed.

(** C1 (as amended). For every Europe PMC search response, the normaliser
    emits a record for an entry exactly when the entry's title and abstract
    are both present and not empty; the emitted records are, in order, the
    ones of the entries that have both, each with the title and abstract of
    its entry, and every other entry yields no record. *)
Theorem publication_emitted_iff_title_and_abstract_nonempty
    (epmcResponse : Epmc.Raw.EpmcResponse) :
  (forall result,
      (exists p, Epmc.convertResult result = Some p)
      <-> nonempty (Epmc.Raw.title result)
          /\ nonempty (Epmc.Raw.abstractText result))
  /\ map (fun p => (Some (Epmc.title p), Epmc.abstract p))
         (Epmc.convertEpmcResponseToPublications epmcResponse)
     = map (fun r => (Epmc.Raw.title r, Epmc.Raw.abstractText r))
           (filter complete (entries epmcResponse)).
Proof.
  split.
  - intros result. rewrite convertResult_emits. unfold complete.
    rewrite andb_true_iff, !truthy_opt_nonempty. reflexivity.
  - unfold Epmc.convertEpmcResponseToPublications, entries.
    destruct (opt_get _ _) as [results|]; [apply collect_convertResult | reflexivity].
Qed.

(** C1, counterexample to the claim as stated: an entry whose title is
    present but empty has a non-absent title and a non-absent abstract, and
    yet no record is emitted for it. *)
Lemma empty_title_entry_is_dropped :
  let entry := Samples.epmcResult (Some "") (Some "Background: ...") in
  Epmc.Raw.title entry <> None
  /\ Epmc.Raw.abstractText entry <> None
  /\ Epmc.convertEpmcResponseToPublications (Samples.epmcResponse [entry]) = [].
Proof. simpl. repeat split; discriminate. Qed.

Lemma strict_eq_true (o : option string) (lit : string) :
  strict_eq o lit = true <-> o = Some lit.
Proof.
  destruct o as [s|]; simpl; [|split; discriminate].
  rewrite String.eqb_eq. split; congruence.
Qed.

(** C2 (as amended). For every author of a Europe PMC publication for
    which an Author is emitted, the Author's orcid is populated if and only
    if the author's identifier has a declared type that matches "ORCID"
    case-insensitively, in the sense of the code's test that its upper-case
    form is "ORCID" (the letters o, r, c, i, d in this order, each in
    either case, a dotless i also standing for the i), and a value that is
    present and not empty; the orcid is then that value. *)
Theorem author_orcid_iff_type_matches_and_value_nonempty
    (author : Epmc.Raw.EpmcAuthor) (a : Epmc.Author) (v : string) :
  Epmc.convertAuthor author = Some a ->
  (Epmc.orcid a = Some v
   <-> exists id ty,
        Epmc.Raw.authorId author = Some id
        /\ Epmc.Raw.type id = Some ty
        /\ spellsORCID ty
        /\ Epmc.Raw.value id = Some v
        /\ v <> "").
Proof.
  unfold Epmc.convertAuthor.
  destruct (negb (truthy_opt (Epmc.Raw.fullName author))); [discriminate|].
  intros H. inversion H as [Ha]. clear H Ha. cbn [Epmc.orcid].
  destruct (Epmc.Raw.authorId author) as [id|]; cbn [opt_get].
  - destruct (Epmc.Raw.type id) as [ty|] eqn:Ety0; cbn [option_map].
    + destruct (strict_eq (Some (toUpperCase ty)) "ORCID") eqn:T; cbn [andb].
      * apply strict_eq_true in T. injection T as T.
        apply toUpperCase_is_ORCID in T.
        destruct (truthy_opt (Epmc.Raw.value id)) eqn:V.
        -- apply truthy_opt_nonempty in V. destruct V as (s & E & NE).
           split.
           ++ intros Hv. exists id, ty. rewrite E in Hv. injection Hv as <-.
              repeat split; auto.
           ++ intros (id' & ty' & Eid & _ & _ & Ev & _). injection Eid as <-.
              exact Ev.
        -- split; [discriminate|].
           intros (id' & ty' & Eid & _ & _ & Ev & NE). injection Eid as <-.
           assert (truthy_opt (Epmc.Raw.value id) = true)
             by (apply truthy_opt_nonempty; exists v; auto).
           congruence.
      * split; [discriminate|].
        intros (id' & ty' & Eid & Ety & M & _). injection Eid as <-.
        rewrite Ety0 in Ety. injection Ety as <-.
        apply toUpperCase_is_ORCID in M.
        assert (strict_eq (Some (toUpperCase ty)) "ORCID" = true)
          by (apply strict_eq_true; congruence).
        congruence.
    + split; [discriminate|].
      intros (id' & ty' & Eid & Ety & _). injection Eid as <-. congruence.
  - split; [discriminate|]. intros (id' & ty' & Eid & _). discriminate.
Qed.

(** C2, witness: an identifier of type "orcid" with a value. *)
Lemma author_orcid_witness :
  let author :=
    Samples.epmcAuthor "Doe J" (Some "orcid") (Some "0000-0002-1825-0097") in
  exists a,
    Epmc.convertAuthor author = Some a
    /\ (Epmc.orcid a = Some "0000-0002-1825-0097"
        <-> exists id ty,
             Epmc.Raw.authorId author = Some id
             /\ Epmc.Raw.type id = Some ty
             /\ spellsORCID ty
             /\ Epmc.Raw.value id = Some "0000-0002-1825-0097"
             /\ "0000-0002-1825-0097" <> "").
Proof.
  eexists. split; [reflexivity|].
  apply (author_orcid_iff_type_matches_and_value_nonempty
           (Samples.epmcAuthor "Doe J" (Some "orcid") (Some "0000-0002-1825-0097"))
           _ "0000-0002-1825-0097").
  reflexivity.
Defined.

(** C2, counterexample to the claim as stated: the identifier's type is
    "ORCID" but it carries no value, and the emitted Author has no orcid. *)
Lemma orcid_type_without_value_gives_no_orcid :
  let author := Samples.epmcAuthor "Doe J" (Some "ORCID") None in
  exists a,
    Epmc.convertAuthor author = Some a
    /\ opt_get (Epmc.Raw.authorId author) Epmc.Raw.type = Some "ORCID"
    /\ eq_ignore_case "ORCID" "ORCID"
    /\ spellsORCID "ORCID"
    /\ Epmc.orcid a = None.
Proof.
  eexists. repeat split. apply toUpperCase_is_ORCID. reflexivity.
Qed.

(** The type test on a type written with a dotless i: its upper-case form
    is "ORCID", and the value is taken as the author's orcid, though the
    type differs from "ORCID" by more than the case of its ASCII letters. *)
Example dotless_i_type_is_an_orcid_type :
  let ty := "orc" ++ dotless_i ++ "d" in
  let author := Samples.epmcAuthor "Doe J" (Some ty) (Some "0000-0002-1825-0097") in
  toUpperCase ty = "ORCID"
  /\ toLowerCase ty <> toLowerCase "ORCID"
  /\ option_map Epmc.orcid (Epmc.convertAuthor author)
     = Some (Some "0000-0002-1825-0097").
Proof. repeat split. discriminate. Qed.

Example upper_case_outside_ascii :
  toUpperCase ("stra" ++ String (ascii_of_N 195) (String (ascii_of_N 159) "e"))
  = "STRASSE"
  /\ toUpperCase (String (ascii_of_N 239) (String (ascii_of_N 172)
                   (String (ascii_of_N 129) "n")))
     = "FIN".
Proof. split; reflexivity. Qed.

Example parsePublications_drops_incomplete_entries :
  option_map (map Epmc.title)
    match Epmc.parsePublications
            (JObj [("resultList",
                     JObj [("result",
                             JArr [JObj [("title", JStr "First");
                                         ("abstractText", JStr "Text")];
                                   JObj [("title", JStr "No abstract")];
                                   JObj [("title", JStr "");
                                         ("abstractText", JStr "Text")];
                                   JObj [("title", JStr "Last");
                                         ("abstractText", JStr "Text")]])])]) with
    | Ok publications => Some publications
    | Throw _ => None
    end
  = Some ["First"; "Last"].
Proof. reflexivity. Qed.

(* ===================================================================== *)
(** * NIH: principal investigators                                        *)
(* ===================================================================== *)

Lemma split_without_separator (sep : ascii) (s : string) :
  occurs sep s = false -> split sep s = [s].
Proof.
  induction s as [|c s IH]; simpl; [reflexivity|].
  intros H. apply orb_false_iff in H. destruct H as [Hc Hs].
  rewrite Hc, IH by exact Hs. reflexivity.
Qed.

Lemma split_at_first_separator (sep : ascii) (a b : string) :
  occurs sep a = false ->
  split sep (a ++ String sep b) = a :: split sep b.
Proof.
  induction a as [|c a IH]; simpl.
  - intros _. now rewrite Ascii.eqb_refl.
  - intros H. apply orb_false_iff in H. destruct H as [Hc Ha].
    rewrite Hc, IH by exact Ha. reflexivity.
Qed.

(** With one comma or more, the two parts kept are the text before the
    first comma and the text between the first and the second comma. *)
Lemma split_limit_two (a b : string) :
  occurs "," a = false ->
  split_limit "," 2 (a ++ String "," b) = [a; hd "" (split "," b)].
Proof.
  intros H. unfold split_limit. rewrite split_at_first_separator by exact H.
  destruct b as [|c b]; simpl; [reflexivity|].
  destruct (Ascii.eqb c ","); [reflexivity|].
  destruct (split "," b); reflexivity.
Qed.

(** With at least one comma, whatever follows: the family name is the text
    before the first comma and the given name the text between the first
    and the second comma, both trimmed. *)
Lemma contact_pi_name_with_commas
    (project : Nih.Raw.NIHProject) (family rest : string) :
  Nih.Raw.principal_investigators project = None ->
  Nih.Raw.contact_pi_name project = Some (family ++ "," ++ rest) ->
  occurs "," family = false ->
  Nih.principal_investigators (Nih.convertNIHProjectToGrantRecord project)
  = [{| Nih.given_name := Some (trim (hd "" (split "," rest)));
        Nih.family_name := Some (trim family);
        Nih.credit_name := Some (family ++ "," ++ rest) |}].
Proof.
  intros Hpis Hname Hf.
  unfold Nih.convertNIHProjectToGrantRecord. cbn [Nih.principal_investigators].
  unfold Nih.principalInvestigatorsOf. rewrite Hpis, Hname.
  assert (T : truthy_string (family ++ "," ++ rest) = true)
    by (destruct family; reflexivity).
  rewrite T. cbn [append]. rewrite split_limit_two by exact Hf. reflexivity.
Qed.

(** C4 (as amended). For every NIH project with no structured
    principal-investigator list and a contact_pi_name that is not empty: if
    the name contains exactly one comma, principal_investigators is the
    single entry whose family_name is the part before the comma, trimmed,
    whose given_name is the part after it, trimmed, and whose credit_name
    is the original string; if it contains no comma, family_name is the
    entire string and given_name is empty. *)
Theorem contact_pi_name_fallback
    (project : Nih.Raw.NIHProject) (contact : string) :
  Nih.Raw.principal_investigators project = None ->
  Nih.Raw.contact_pi_name project = Some contact ->
  contact <> "" ->
  (forall family given,
      contact = family ++ "," ++ given ->
      occurs "," family = false ->
      occurs "," given = false ->
      Nih.principal_investigators (Nih.convertNIHProjectToGrantRecord project)
      = [{| Nih.given_name := Some (trim given);
            Nih.family_name := Some (trim family);
            Nih.credit_name := Some contact |}])
  /\ (occurs "," contact = false ->
      Nih.principal_investigators (Nih.convertNIHProjectToGrantRecord project)
      = [{| Nih.given_name := Some "";
            Nih.family_name := Some contact;
            Nih.credit_name := Some contact |}]).
Proof.
  intros Hpis Hname Hne.
  unfold Nih.convertNIHProjectToGrantRecord. cbn [Nih.principal_investigators].
  unfold Nih.principalInvestigatorsOf. rewrite Hpis, Hname.
  apply truthy_string_true in Hne. rewrite Hne.
  split.
  - intros family given -> Hf Hg. cbn [append].
    rewrite split_limit_two by exact Hf.
    rewrite split_without_separator by exact Hg.
    reflexivity.
  - intros H. unfold split_limit. rewrite split_without_separator by exact H.
    reflexivity.
Qed.

(** C4, witness: the two examples of the specification. *)
Lemma contact_pi_name_fallback_witness :
  Nih.principal_investigators
    (Nih.convertNIHProjectToGrantRecord
       (Samples.nihProject None (Some "Smith, John")))
  = [{| Nih.given_name := Some "John";
        Nih.family_name := Some "Smith";
        Nih.credit_name := Some "Smith, John" |}]
  /\ Nih.principal_investigators
       (Nih.convertNIHProjectToGrantRecord
          (Samples.nihProject None (Some "Smith")))
     = [{| Nih.given_name := Some "";
           Nih.family_name := Some "Smith";
           Nih.credit_name := Some "Smith" |}].
Proof.
  split.
  - apply (proj1 (contact_pi_name_fallback
                    (Samples.nihProject None (Some "Smith, John")) "Smith, John"
                    eq_refl eq_refl ltac:(discriminate))
                 "Smith" " John");
      reflexivity.
  - apply (proj2 (contact_pi_name_fallback
                    (Samples.nihProject None (Some "Smith")) "Smith"
                    eq_refl eq_refl ltac:(discriminate)));
      reflexivity.
Defined.

(** C4, counterexample to the claim as stated. An empty contact_pi_name
    is non-absent and has no comma, yet no entry is produced; and for a
    name with two commas the given_name is the text between the first two
    commas, not everything after the first comma. *)
Lemma contact_pi_name_empty_or_two_commas :
  Nih.principal_investigators
    (Nih.convertNIHProjectToGrantRecord (Samples.nihProject None (Some "")))
  = []
  /\ Nih.principal_investigators
       (Nih.convertNIHProjectToGrantRecord
          (Samples.nihProject None (Some "Smith, John, Jr.")))
     = [{| Nih.given_name := Some "John";
           Nih.family_name := Some "Smith";
           Nih.credit_name := Some "Smith, John, Jr." |}]
  /\ trim " John, Jr." = "John, Jr."
  /\ "John" <> "John, Jr.".
Proof. repeat split. discriminate. Qed.

(** C10. For every NIH project whose structured principal_investigators
    field is present but an empty list, the GrantRecord's
    principal_investigators is empty, whatever contact_pi_name holds: the
    fallback on the contact name applies only when the structured list is
    absent. *)
Theorem empty_structured_list_disables_fallback (project : Nih.Raw.NIHProject) :
  Nih.Raw.principal_investigators project = Some [] ->
  Nih.principal_investigators (Nih.convertNIHProjectToGrantRecord project) = [].
Proof.
  intros H. unfold Nih.convertNIHProjectToGrantRecord.
  cbn [Nih.principal_investigators].
  unfold Nih.principalInvestigatorsOf. now rewrite H.
Qed.

(** C10, witness: an empty structured list next to a contact name. *)
Lemma empty_structured_list_witness :
  Nih.Raw.contact_pi_name (Samples.nihProject (Some []) (Some "Smith, John"))
  = Some "Smith, John"
  /\ Nih.principal_investigators
       (Nih.convertNIHProjectToGrantRecord
          (Samples.nihProject (Some []) (Some "Smith, John")))
     = [].
Proof.
  split; [reflexivity|].
  apply (empty_structured_list_disables_fallback
           (Samples.nihProject (Some []) (Some "Smith, John"))).
  reflexivity.
Defined.

(* ===================================================================== *)
(** * Schema validation: which keys may be missing                        *)
(* ===================================================================== *)


Lemma accepts_object (shape : list (string * schema)) (fields : list (string * jsval)) :
  accepts (ZObject shape) (JObj fields)
  = forallb (fun ks => accepts (snd ks) (lookup (fst ks) fields)) shape.
Proof. reflexivity. Qed.





(* ===================================================================== *)
(** * ORCID: the order of the e-mail addresses                            *)
(* ===================================================================== *)

Lemma compareEmails_rank (a b : Orcid.OrcidEmail) :
  (Orcid.compareEmails a b <=? 0) = (rank a <=? rank b)%nat.
Proof.
  unfold Orcid.compareEmails, rank, isPrimary, isVerified.
  destruct (Json.truthy (Orcid.primary a)), (Json.truthy (Orcid.primary b)),
    (Json.truthy (Orcid.verified a)), (Json.truthy (Orcid.verified b));
    reflexivity.
Qed.

Lemma mayPrecede_rank (a b : Orcid.OrcidEmail) :
  mayPrecede a b <-> (rank a <= rank b)%nat.
Proof.
  unfold mayPrecede, rank.
  destruct (isPrimary a), (isPrimary b), (isVerified a), (isVerified b);
    simpl; split; try lia; try tauto; intros [H1 H2];
    try (specialize (H1 eq_refl)); try (specialize (H2 eq_refl eq_refl));
    discriminate.
Qed.

Lemma sameClass_rank (p v : bool) (a b : Orcid.OrcidEmail) :
  sameClass p v a = true -> sameClass p v b = true -> rank a = rank b.
Proof.
  unfold sameClass, rank. intros Ha Hb.
  apply andb_true_iff in Ha, Hb. destruct Ha as [Ha1 Ha2], Hb as [Hb1 Hb2].
  apply Bool.eqb_prop in Ha1, Ha2, Hb1, Hb2.
  now rewrite Ha1, Ha2, Hb1, Hb2.
Qed.

Lemma insert_perm (x : Orcid.OrcidEmail) (l : list Orcid.OrcidEmail) :
  Permutation (x :: l) (insert Orcid.compareEmails x l).
Proof.
  induction l as [|y l IH]; simpl; [reflexivity|].
  destruct (Orcid.compareEmails x y <=? 0); [reflexivity|].
  rewrite perm_swap. now apply perm_skip.
Qed.

Lemma sort_perm (l : list Orcid.OrcidEmail) :
  Permutation l (sort Orcid.compareEmails l).
Proof.
  induction l as [|x l IH]; simpl; [reflexivity|].
  rewrite <- insert_perm. now apply perm_skip.
Qed.

Lemma insert_sorted (x : Orcid.OrcidEmail) (l : list Orcid.OrcidEmail) :
  StronglySorted mayPrecede l ->
  StronglySorted mayPrecede (insert Orcid.compareEmails x l).
Proof.
  induction 1 as [|y l Hs IH Hy]; simpl.
  - constructor; constructor.
  - rewrite compareEmails_rank. destruct (Nat.leb_spec (rank x) (rank y)) as [L|L].
    + constructor; [constructor; assumption|].
      constructor; [now apply mayPrecede_rank|].
      eapply Forall_impl; [|exact Hy]. intros z Hz.
      apply mayPrecede_rank. apply mayPrecede_rank in Hz. lia.
    + constructor; [exact IH|].
      rewrite <- (insert_perm x l). constructor; [|exact Hy].
      apply mayPrecede_rank. lia.
Qed.

Lemma sort_sorted (l : list Orcid.OrcidEmail) :
  StronglySorted mayPrecede (sort Orcid.compareEmails l).
Proof.
  induction l as [|x l IH]; simpl; [constructor|]. now apply insert_sorted.
Qed.

Lemma filter_insert (p v : bool) (x : Orcid.OrcidEmail) (l : list Orcid.OrcidEmail) :
  filter (sameClass p v) (insert Orcid.compareEmails x l)
  = filter (sameClass p v) (x :: l).
Proof.
  induction l as [|y l IH]; [reflexivity|].
  cbn [insert]. rewrite compareEmails_rank.
  destruct (Nat.leb_spec (rank x) (rank y)) as [L|L]; [reflexivity|].
  cbn [filter] in *. rewrite IH.
  destruct (sameClass p v x) eqn:Hx, (sameClass p v y) eqn:Hy; try reflexivity.
  pose proof (sameClass_rank _ _ _ _ Hx Hy). lia.
Qed.

Lemma filter_sort (p v : bool) (l : list Orcid.OrcidEmail) :
  filter (sameClass p v) (sort Orcid.compareEmails l) = filter (sameClass p v) l.
Proof.
  induction l as [|x l IH]; [reflexivity|].
  cbn [sort]. rewrite filter_insert. cbn [filter]. now rewrite IH.
Qed.

(** C6. For every list of profile e-mails, the normalised order places
    primary-flagged addresses before the others and, among addresses of
    equal primary status, verified before unverified; addresses that tie on
    both criteria keep their original relative order; the profile carries
    the addresses in that order. In particular [non-primary verified;
    primary unverified; non-primary unverified] comes out as [primary;
    non-primary verified; non-primary unverified]. *)
Theorem emails_sorted_primary_then_verified_stably
    (orcidProfile : Orcid.OrcidProfile) :
  Permutation (Orcid.emails orcidProfile) (Orcid.sortedEmails orcidProfile)
  /\ StronglySorted mayPrecede (Orcid.sortedEmails orcidProfile)
  /\ (forall p v,
        filter (sameClass p v) (Orcid.sortedEmails orcidProfile)
        = filter (sameClass p v) (Orcid.emails orcidProfile))
  /\ (forall orcidId educations employments works,
        Orcid.rid_emails
          (Orcid.researcherId
             (Orcid.createCustomerProfile orcidProfile orcidId educations
                employments works))
        = map (fun e => {| Orcid.pe_address := Orcid.email e;
                           Orcid.pe_primary := Orcid.primary e |})
              (Orcid.sortedEmails orcidProfile))
  /\ Orcid.sortedEmails
       (Samples.orcidProfile
          [Samples.orcidEmail "a@x.org" false true;
           Samples.orcidEmail "b@x.org" true false;
           Samples.orcidEmail "c@x.org" false false])
     = [Samples.orcidEmail "b@x.org" true false;
        Samples.orcidEmail "a@x.org" false true;
        Samples.orcidEmail "c@x.org" false false].
Proof.
  unfold Orcid.sortedEmails.
  split; [apply sort_perm|]. split; [apply sort_sorted|].
  split; [intros p v; apply filter_sort|]. split; reflexivity.
Qed.

(* ===================================================================== *)
(** * ORCID: the publication list                                         *)
(* ===================================================================== *)

Lemma find_first {A} (p : A -> bool) (l : list A) :
  match List.find p l with
  | Some x =>
      exists before after,
        l = (before ++ x :: after)%list
        /\ Forall (fun y => p y = false) before
        /\ p x = true
  | None => Forall (fun y => p y = false) l
  end.
Proof.
  induction l as [|y l IH]; simpl; [constructor|].
  destruct (p y) eqn:Py.
  - exists [], l. repeat split; [constructor | exact Py].
  - destruct (List.find p l) as [x|].
    + destruct IH as (before & after & -> & Hb & Px).
      exists (y :: before), after. repeat split; [constructor; assumption | exact Px].
    + constructor; assumption.
Qed.

Lemma first_truthy_supplies (f : Orcid.OrcidWorkSummary -> jsval)
    (summaries : list Orcid.OrcidWorkSummary) :
  FirstSupplying f summaries (Orcid.first_truthy f summaries).
Proof.
  unfold Orcid.first_truthy, find.
  pose proof (find_first (fun s => Json.truthy (f s)) summaries) as H.
  destruct (List.find _ summaries) as [s|].
  - destruct H as (before & after & -> & Hb & Hs). now constructor.
  - now constructor.
Qed.

Lemma first_truthy_titled (work : Orcid.OrcidWork) :
  Json.truthy (Orcid.first_truthy Orcid.ws_title (Orcid.workSummaries work))
  = titled work.
Proof.
  unfold Orcid.first_truthy, find, titled.
  induction (Orcid.workSummaries work) as [|s l IH]; simpl; [reflexivity|].
  destruct (Json.truthy (Orcid.ws_title s)) eqn:T; simpl; [exact T | exact IH].
Qed.

Lemma strict_eq_str_true (v : jsval) (lit : string) :
  strict_eq_str v lit = true <-> v = JStr lit.
Proof.
  destruct v; simpl; try (split; discriminate).
  rewrite String.eqb_eq. split; congruence.
Qed.

Lemma doi_found (ids : list Orcid.OrcidWorkExternalId) :
  DoiOf ids
    match find (fun id => strict_eq_str (Orcid.wid_name id) "doi") ids with
    | Some id => Orcid.wid_value id
    | None => JUndefined
    end.
Proof.
  unfold find.
  pose proof (find_first (fun id => strict_eq_str (Orcid.wid_name id) "doi") ids) as H.
  assert (N : forall l,
             Forall (fun id => strict_eq_str (Orcid.wid_name id) "doi" = false) l ->
             Forall (fun id => Orcid.wid_name id <> JStr "doi") l).
  { intros l. apply Forall_impl. intros id Hf E.
    apply strict_eq_str_true in E. congruence. }
  destruct (List.find _ ids) as [id|].
  - destruct H as (before & after & -> & Hb & Hid).
    constructor; [now apply N | now apply strict_eq_str_true].
  - constructor. now apply N.
Qed.

Lemma sources_labels (work : Orcid.OrcidWork) :
  map join_item
      (map Orcid.ws_source
           (filter (fun s => Json.truthy (Orcid.ws_source s))
                   (Orcid.workSummaries work)))
  = sourceLabels work.
Proof.
  unfold sourceLabels. f_equal.
  induction (Orcid.workSummaries work) as [|s l IH]; simpl; [reflexivity|].
  destruct (Json.truthy (Orcid.ws_source s)); simpl; now rewrite IH.
Qed.

Lemma publicationOfWork_merges (work : Orcid.OrcidWork) :
  match Orcid.publicationOfWork work with
  | Some p => titled work = true /\ MergedFrom work p
  | None => titled work = false
  end.
Proof.
  unfold Orcid.publicationOfWork. rewrite first_truthy_titled.
  destruct (titled work); [|reflexivity].
  split; [reflexivity|]. unfold MergedFrom. cbn.
  split; [apply first_truthy_supplies|].
  split; [eexists; split; [apply first_truthy_supplies | reflexivity]|].
  split; [apply first_truthy_supplies|].
  split; [|apply doi_found].
  rewrite <- sources_labels. rewrite !length_map.
  destruct (filter _ (Orcid.workSummaries work)); reflexivity.
Qed.

Lemma publications_merge_titled (l : list Orcid.OrcidWork) :
  Forall2 MergedFrom (filter titled l) (collect Orcid.publicationOfWork l).
Proof.
  induction l as [|work l IH]; simpl; [constructor|].
  pose proof (publicationOfWork_merges work) as H.
  destruct (Orcid.publicationOfWork work) as [p|].
  - destruct H as [-> M]. constructor; assumption.
  - rewrite H. exact IH.
Qed.

(** C9 (as amended). For every ORCID works response, the profile's
    publication list contains, in source order, one entry for each
    work-group that has a summary with a non-empty title, and none for the
    other groups. The entry's title, publication date and journal are each
    taken from the first summary in source order supplying a value for that
    field (the date goes through the date reconstruction), its source is
    the ", "-join of all source labels across the group's summaries,
    without deduplication, and absent when there is none, and its DOI is
    the value of the group's first external identifier of type "doi". *)
Theorem publications_merge_titled_work_groups
    (orcidProfile : Orcid.OrcidProfile) (orcidId : string)
    (educations employments : list Orcid.OrcidAffiliation)
    (works : Orcid.OrcidWorks) :
  Forall2 MergedFrom
    (filter titled (Orcid.works works))
    (Orcid.publications
       (Orcid.createCustomerProfile orcidProfile orcidId educations employments
          works)).
Proof. apply publications_merge_titled. Qed.

(** C9, counterexample to the claim as stated: a work-group whose only
    summary has a source but no title has no entry in the publication
    list. *)
Lemma untitled_work_group_has_no_entry :
  let works :=
    Samples.orcidWorks [Samples.orcidSummary JUndefined (JStr "Crossref")] in
  List.length (Orcid.works works) = 1%nat
  /\ Orcid.publications
       (Orcid.createCustomerProfile (Samples.orcidProfile []) Samples.orcidId
          [] [] works)
     = [].
Proof. split; reflexivity. Qed.

Example two_summaries_merge :
  Orcid.publications
    (Orcid.createCustomerProfile (Samples.orcidProfile []) Samples.orcidId [] []
       (Samples.orcidWorks
          [Samples.orcidSummary JNull (JStr "Crossref");
           Samples.orcidSummary (JStr "A title") (JStr "Scopus");
           Samples.orcidSummary (JStr "Another title") (JStr "Crossref")]))
  = [{| Orcid.pub_title := JStr "A title";
        Orcid.publicationDate := None;
        Orcid.journalName := JUndefined;
        Orcid.pub_source := Some "Crossref, Scopus, Crossref";
        Orcid.doi := JUndefined |}].
Proof. reflexivity. Qed.

(* ===================================================================== *)
(** * Errors: classification, propagation, all-or-nothing                 *)
(* ===================================================================== *)

#[local] Hint Unfold builtin : core.

Lemma bind_throw {A B} (m : outcome A) (k : A -> outcome B) (e : exn) :
  Js.bind m k = Throw e ->
  m = Throw e \/ exists a, m = Ok a /\ k a = Throw e.
Proof.
  destruct m as [a|e']; simpl; intros H; [right; eauto | left; congruence].
Qed.

Lemma mapM_throw {A B} (P : exn -> Prop) (f : A -> outcome B) (l : list A) (e : exn) :
  (forall x e', f x = Throw e' -> P e') ->
  mapM f l = Throw e -> P e.
Proof.
  intros Hf. induction l as [|x l IH]; simpl; [discriminate|].
  intros H. apply bind_throw in H. destruct H as [H|(y & _ & H)]; [eauto|].
  apply bind_throw in H. destruct H as [H|(ys & _ & H)]; [auto | discriminate].
Qed.

Lemma get_throws_builtin (k : string) (v : jsval) (e : exn) :
  get k v = Throw e -> builtin e.
Proof. destruct v; simpl; intros H; inversion H; unfold TypeError; eauto. Qed.

Lemma for_of_throws_builtin (v : jsval) (e : exn) :
  for_of v = Throw e -> builtin e.
Proof. destruct v; simpl; intros H; inversion H; unfold TypeError; eauto. Qed.

Lemma map_of_throws_builtin {B} (f : jsval -> outcome B) (v : jsval) (e : exn) :
  (forall x e', f x = Throw e' -> builtin e') ->
  map_of f v = Throw e -> builtin e.
Proof.
  intros Hf. destruct v; simpl; intros H;
    try (inversion H; unfold TypeError; eauto; fail).
  apply (mapM_throw builtin _ _ _) in H; [exact H | exact Hf].
Qed.

(** Repeatedly splits a failed sequence into the step that failed. *)
Ltac failed_step H :=
  cbv zeta in H;
  repeat (match type of H with
          | Js.bind _ _ = Throw _ =>
              apply bind_throw in H; destruct H as [H|(? & _ & H)]
          end);
  try discriminate.

Lemma getter_then_ok {B} (k : string) (g : jsval -> B) (x : jsval) (e : exn) :
  (v <- get k x;; Ok (g v)) = Throw e -> builtin e.
Proof. intros H. failed_step H. eapply get_throws_builtin; eauto. Qed.

Lemma parseOrcidProfile_throws_builtin (personData : jsval) (e : exn) :
  Orcid.parseOrcidProfile personData = Throw e -> builtin e.
Proof.
  unfold Orcid.parseOrcidProfile. intros H. failed_step H;
    (eapply map_of_throws_builtin; [|exact H]);
    intros ? ?; apply getter_then_ok.
Qed.

Lemma parseWorkGroup_throws_builtin (group : jsval) (e : exn) :
  Orcid.parseWorkGroup group = Throw e -> builtin e.
Proof.
  unfold Orcid.parseWorkGroup. intros H. failed_step H.
  - eapply get_throws_builtin; eauto.
  - eapply map_of_throws_builtin; [|exact H]. intros ? ?. apply getter_then_ok.
  - eapply map_of_throws_builtin; [|exact H]. intros ? ?. apply getter_then_ok.
Qed.

Lemma parseOrcidWorks_throws_builtin (worksData : jsval) (e : exn) :
  Orcid.parseOrcidWorks worksData = Throw e -> builtin e.
Proof.
  unfold Orcid.parseOrcidWorks. destruct (_ || _); [discriminate|].
  intros H. failed_step H.
  - eapply for_of_throws_builtin; eauto.
  - apply (mapM_throw builtin _ _ _) in H; [exact H|]. apply parseWorkGroup_throws_builtin.
Qed.

Lemma parseAffiliationSummary_throws_builtin (summary : jsval) (e : exn) :
  Orcid.parseAffiliationSummary summary = Throw e -> builtin e.
Proof.
  unfold Orcid.parseAffiliationSummary. intros H.
  apply bind_throw in H. destruct H as [H|(v & _ & H)].
  - eapply get_throws_builtin; eauto.
  - destruct (Json.truthy _); discriminate.
Qed.

Lemma parseAffiliations_throws_builtin (data : jsval) (e : exn) :
  Orcid.parseAffiliations data = Throw e -> builtin e.
Proof.
  unfold Orcid.parseAffiliations. destruct (_ || _); [discriminate|].
  intros H. failed_step H.
  - eapply for_of_throws_builtin; eauto.
  - apply (mapM_throw builtin _ _ _) in H; [exact H|]. intros group e' Hg. failed_step Hg.
    + eapply get_throws_builtin; eauto.
    + eapply for_of_throws_builtin; eauto.
    + apply (mapM_throw builtin _ _ _) in Hg; [exact Hg|]. apply parseAffiliationSummary_throws_builtin.
Qed.

(** Parsing and assembling a profile only ever throws built-in
    exceptions: the inner [catch], which wraps whatever it receives, never
    receives an error that was already classified. *)
Lemma assembleProfile_throws_builtin
    (orcidId : string) (personData worksData educationData employmentData : jsval)
    (e : exn) :
  Orcid.assembleProfile orcidId personData worksData educationData employmentData
  = Throw e ->
  builtin e.
Proof.
  unfold Orcid.assembleProfile. intros H. failed_step H.
  - eapply parseOrcidProfile_throws_builtin; eauto.
  - eapply parseOrcidWorks_throws_builtin; eauto.
  - eapply parseAffiliations_throws_builtin; eauto.
  - eapply parseAffiliations_throws_builtin; eauto.
Qed.

Lemma fetchOrcidData_throws_classified
    (net : Network) (orcidId endpoint : string) (config : Orcid.OrcidConfig)
    (e : exn) :
  Orcid.fetchOrcidData net orcidId endpoint config = Throw e ->
  Orcid.is_OrcidAPIError e || Orcid.is_OrcidNotFoundError e = true.
Proof.
  unfold Orcid.fetchOrcidData.
  destruct (fetch net _ _) as [name message | status statusText [v|message]];
    simpl; try (intros H; inversion H; reflexivity).
  - destruct (negb (ok status)); simpl; [|discriminate].
    destruct (status =? 404); simpl; intros H; inversion H; reflexivity.
  - destruct (negb (ok status)); simpl;
      [destruct (status =? 404)|]; simpl; intros H; inversion H; reflexivity.
Qed.

Lemma fetchEpmcData_throws
    (net : Network) (payload : jsval) (config : Epmc.EpmcConfig)
    (endpoint : string) (e : exn) :
  Epmc.fetchEpmcData net payload config endpoint = Throw e ->
  builtin e \/ Epmc.is_EpmcAPIError e = true.
Proof.
  unfold Epmc.fetchEpmcData. destruct (new_URL net _) as [message|].
  - intros H. inversion H. left. unfold builtin. eauto.
  - destruct (fetch net _ _) as [name message | status statusText [v|message]];
      simpl; try (intros H; inversion H; right; reflexivity).
    + destruct (negb (ok status)); simpl; intros H; inversion H. right. reflexivity.
    + destruct (negb (ok status)); simpl; intros H; inversion H; right; reflexivity.
Qed.

Lemma parsePublications_throws (data : jsval) (e : exn) :
  Epmc.parsePublications data = Throw e ->
  Epmc.is_EpmcValidationError e = true.
Proof.
  unfold Epmc.parsePublications, parse.
  destruct (accepts _ data); simpl; intros H; inversion H. reflexivity.
Qed.

Lemma first_rejection_In {A} (ps : list (outcome A)) (order : list nat) (e : exn) :
  first_rejection ps order = Some e -> In (Throw e) ps.
Proof.
  induction order as [|i order IH]; simpl; [discriminate|].
  destruct (nth_error ps i) as [[a|e']|] eqn:E; auto.
  intros H. inversion H. subst e'. eapply nth_error_In; eauto.
Qed.

Lemma mapM_id_rejects {A} (ps : list (outcome A)) (e0 : exn) :
  In (Throw e0) ps ->
  exists e, mapM (fun p => p) ps = Throw e /\ In (Throw e) ps.
Proof.
  induction ps as [|p ps IH]; simpl; [contradiction|].
  intros Hin. destruct p as [a|e']; simpl.
  - destruct Hin as [Hin|Hin]; [discriminate|].
    destruct (IH Hin) as (e & -> & He). simpl. eauto.
  - eauto.
Qed.

(** [Promise.all] rejects as soon as one of its promises does, with the
    reason of one of them, however they settle. *)
Lemma promise_all_rejects {A} (order : list nat) (ps : list (outcome A)) (e0 : exn) :
  In (Throw e0) ps ->
  exists e, promise_all order ps = Throw e /\ In (Throw e) ps.
Proof.
  intros Hin. unfold promise_all.
  destruct (first_rejection ps order) as [e|] eqn:F.
  - exists e. split; [reflexivity|]. eapply first_rejection_In; eauto.
  - now apply mapM_id_rejects with e0.
Qed.

Lemma subFetches_throw_classified
    (net : Network) (orcidId : string) (config : Orcid.OrcidConfig) (e : exn) :
  In (Throw e) (Orcid.subFetches net orcidId config) ->
  classifiedOrcid e = true.
Proof.
  unfold Orcid.subFetches, classifiedOrcid. simpl.
  intros [H|[H|[H|[H|[]]]]];
    apply fetchOrcidData_throws_classified in H; now rewrite H.
Qed.

(** C3. For every profile aggregation over the four sub-resources, however
    the four fetches settle: if any sub-fetch fails, [getOrcidProfile] fails
    with the error of a failed sub-fetch, so that no CustomerProfile is
    returned, and the [get_orcid_profile] tool answers with that error's
    message as text. *)
Theorem failed_subfetch_fails_whole_profile
    (order : list nat) (net : Network) (orcidId : string)
    (config : Orcid.OrcidConfig) (e0 : exn) :
  In (Throw e0) (Orcid.subFetches net orcidId config) ->
  exists e,
    In (Throw e) (Orcid.subFetches net orcidId config)
    /\ Orcid.getOrcidProfile order net orcidId config = Throw e
    /\ (config = Orcid.defaultOrcidConfig ->
        Server.get_orcid_profile order net orcidId
        = Server.Text ("Error: " ++ message_of e)).
Proof.
  intros Hin.
  destruct (promise_all_rejects order _ _ Hin) as (e & Hall & He).
  assert (G : Orcid.getOrcidProfile order net orcidId config = Throw e).
  { unfold Orcid.getOrcidProfile, Orcid.getOrcidProfile_try. rewrite Hall. simpl.
    unfold Orcid.getOrcidProfile_catch.
    pose proof (subFetches_throw_classified _ _ _ _ He) as C.
    unfold classifiedOrcid in C. now rewrite C. }
  exists e. split; [exact He|]. split; [exact G|].
  intros ->. unfold Server.get_orcid_profile. now rewrite G.
Qed.

(** C3, witness: the works fetch answers 500 while the three others
    succeed. *)
Lemma failed_subfetch_witness :
  exists e,
    In (Throw e)
       (Orcid.subFetches (Samples.network Samples.orcidWorksUrl (JObj []))
          Samples.orcidId Orcid.defaultOrcidConfig)
    /\ Orcid.getOrcidProfile [0; 1; 2; 3]%nat
         (Samples.network Samples.orcidWorksUrl (JObj []))
         Samples.orcidId Orcid.defaultOrcidConfig
       = Throw e
    /\ (Orcid.defaultOrcidConfig = Orcid.defaultOrcidConfig ->
        Server.get_orcid_profile [0; 1; 2; 3]%nat
          (Samples.network Samples.orcidWorksUrl (JObj [])) Samples.orcidId
        = Server.Text ("Error: " ++ message_of e)).
Proof.
  apply (failed_subfetch_fails_whole_profile [0; 1; 2; 3]%nat
           (Samples.network Samples.orcidWorksUrl (JObj []))
           Samples.orcidId Orcid.defaultOrcidConfig
           (OrcidAPIError "Failed to fetch works data"
              (JObj [("orcidId", JStr Samples.orcidId);
                     ("endpoint", JStr "works");
                     ("status", JNum 500);
                     ("statusText", JStr "")]))).
  right. left. reflexivity.
Defined.

Example works_failure_leaves_no_profile :
  Server.get_orcid_profile [3; 2; 1; 0]%nat
    (Samples.network Samples.orcidWorksUrl (JObj [])) Samples.orcidId
  = Server.Text "Error: Failed to fetch works data".
Proof. reflexivity. Qed.

Lemma builtin_unclassified (e : exn) :
  builtin e -> classifiedEpmc e = false /\ classifiedOrcid e = false.
Proof. intros (name & message & ->). split; reflexivity. Qed.

(** Whatever [getEpmcPublicationsByOrcid] throws is classified. *)
Lemma getEpmcPublicationsByOrcid_throws_classified
    (net : Network) (orcidId : string) (maxResults : Z)
    (config : Epmc.EpmcConfig) (e : exn) :
  Epmc.getEpmcPublicationsByOrcid net orcidId maxResults config = Throw e ->
  classifiedEpmc e = true.
Proof.
  unfold Epmc.getEpmcPublicationsByOrcid, try_catch.
  destruct (Epmc.getEpmcPublicationsByOrcid_try _ _ _ _) as [a|e']; [discriminate|].
  unfold Epmc.getEpmcPublicationsByOrcid_catch, classifiedEpmc.
  destruct (Epmc.is_EpmcAPIError e' || Epmc.is_EpmcValidationError e') eqn:C;
    intros H; inversion H; subst; [exact C | reflexivity].
Qed.

(** C7. For every error raised inside an adapter operation, here the
    publication search and the profile aggregation: an error that reaches
    the outer catch already classified (NotFound, ValidationError or API
    error) leaves the operation unchanged, and only an unclassified
    exception is wrapped into the generic API error. The inner layers
    classify an error once: what the fetch and validation layers throw is
    classified, and the catch that turns parse failures into validation
    errors only ever receives built-in exceptions. *)
Theorem classified_errors_propagate_unchanged
    (net : Network) (orcidId : string) (maxResults : Z)
    (config : Epmc.EpmcConfig) (order : list nat)
    (orcidConfig : Orcid.OrcidConfig) (e : exn) :
  (Epmc.getEpmcPublicationsByOrcid_try net orcidId maxResults config = Throw e ->
   Epmc.getEpmcPublicationsByOrcid net orcidId maxResults config
   = Throw (if classifiedEpmc e then e
            else EpmcAPIError "Failed to process publications"
                   (JObj [("orcidId", JStr orcidId);
                          ("error", JStr (message_of e))])))
  /\ (Orcid.getOrcidProfile_try order net orcidId orcidConfig = Throw e ->
      Orcid.getOrcidProfile order net orcidId orcidConfig
      = Throw (if classifiedOrcid e then e
               else OrcidAPIError "Failed to process author metadata"
                      (JObj [("orcidId", JStr orcidId);
                             ("error", JStr (message_of e))])))
  /\ (forall data,
        Epmc.parsePublications data = Throw e -> classifiedEpmc e = true)
  /\ (forall payload endpoint,
        Epmc.fetchEpmcData net payload config endpoint = Throw e ->
        builtin e \/ classifiedEpmc e = true)
  /\ (forall endpoint,
        Orcid.fetchOrcidData net orcidId endpoint orcidConfig = Throw e ->
        classifiedOrcid e = true)
  /\ (forall personData worksData educationData employmentData,
        Orcid.assembleProfile orcidId personData worksData educationData
          employmentData = Throw e ->
        classifiedOrcid e = false).
Proof.
  repeat split.
  - intros H. unfold Epmc.getEpmcPublicationsByOrcid. rewrite H. simpl.
    unfold Epmc.getEpmcPublicationsByOrcid_catch, classifiedEpmc.
    now destruct (_ || _).
  - intros H. unfold Orcid.getOrcidProfile. rewrite H. simpl.
    unfold Orcid.getOrcidProfile_catch, classifiedOrcid.
    now destruct (_ || _ || _).
  - intros data H. apply parsePublications_throws in H.
    unfold classifiedEpmc. rewrite H. apply orb_true_r.
  - intros payload endpoint H. apply fetchEpmcData_throws in H.
    destruct H as [H|H]; [left; exact H | right].
    unfold classifiedEpmc. now rewrite H.
  - intros endpoint H. apply fetchOrcidData_throws_classified in H.
    unfold classifiedOrcid. now rewrite H.
  - intros personData worksData educationData employmentData H.
    apply assembleProfile_throws_builtin in H. now apply builtin_unclassified.
Qed.

(** C7, witness: a transport failure of the search, classified by the
    fetch layer, is what the operation throws. *)
Lemma transport_error_reaches_boundary :
  Epmc.getEpmcPublicationsByOrcid
    (Samples.network Samples.epmcSearchUrl (JObj [])) Samples.orcidId 20
    Epmc.defaultEpmcConfig
  = Throw (EpmcAPIError "Failed to fetch search data"
             (JObj [("endpoint", JStr "search");
                    ("params",
                      JObj [("query",
                              JStr ("AUTHORID:" ++ Epmc.dquote ++ Samples.orcidId
                                    ++ Epmc.dquote));
                            ("resultType", JStr "core");
                            ("pageSize", JNum 20);
                            ("format", JStr "json")]);
                    ("error", JStr "HTTP 500: ")])).
Proof.
  exact (proj1 (classified_errors_propagate_unchanged
                  (Samples.network Samples.epmcSearchUrl (JObj []))
                  Samples.orcidId 20 Epmc.defaultEpmcConfig []
                  Orcid.defaultOrcidConfig
                  (EpmcAPIError "Failed to fetch search data"
                     (JObj [("endpoint", JStr "search");
                            ("params",
                              JObj [("query",
                                      JStr ("AUTHORID:" ++ Epmc.dquote
                                            ++ Samples.orcidId ++ Epmc.dquote));
                                    ("resultType", JStr "core");
                                    ("pageSize", JNum 20);
                                    ("format", JStr "json")]);
                            ("error", JStr "HTTP 500: ")])))
               eq_refl).
Defined.

Example validation_error_reaches_boundary :
  Epmc.getEpmcPublicationsByOrcid
    (Samples.networkOk (JObj [("hitCount", JStr "many")])) Samples.orcidId 20
    Epmc.defaultEpmcConfig
  = Throw (EpmcValidationError "Failed to validate Europe PMC publication data"
             (JsError "ZodError" "Invalid input")
             (JObj [("rawData", JObj [("hitCount", JStr "many")])])).
Proof. reflexivity. Qed.

Example unclassified_exception_is_wrapped :
  Epmc.getEpmcPublicationsByOrcid Samples.networkBadUrl Samples.orcidId 20
    Epmc.defaultEpmcConfig
  = Throw (EpmcAPIError "Failed to process publications"
             (JObj [("orcidId", JStr Samples.orcidId);
                    ("error", JStr "Invalid URL")])).
Proof. reflexivity. Qed.

Example not_found_reaches_boundary :
  Orcid.getOrcidProfile [0; 1; 2; 3]%nat
    (Samples.networkStatus Samples.orcidWorksUrl 404 (JObj []))
    Samples.orcidId Orcid.defaultOrcidConfig
  = Throw (OrcidNotFoundError
             "The requested researcher profile could not be found. Please verify the ORCID ID is correct."
             (JObj [("orcidId", JStr Samples.orcidId); ("endpoint", JStr "works")])).
Proof. reflexivity. Qed.

Example malformed_person_is_a_validation_error :
  exists details,
    Orcid.getOrcidProfile [0; 1; 2; 3]%nat
      (Samples.networkOk (JObj [("keywords", JObj [("keyword", JNum 7)])]))
      Samples.orcidId Orcid.defaultOrcidConfig
    = Throw (OrcidValidationError "Failed to validate ORCID data" details).
Proof. eexists. reflexivity. Qed.

(* ===================================================================== *)
(** * The publication-detail tool                                         *)
(* ===================================================================== *)

Lemma index_in_range {A} (l : list A) (i : Z) :
  0 <= i < Z.of_nat (List.length l) ->
  exists x, index l i = Some x /\ nth_error l (Z.to_nat i) = Some x.
Proof.
  intros [H0 H1]. unfold index.
  destruct (Z.ltb_spec i 0) as [L|_]; [lia|].
  destruct (nth_error l (Z.to_nat i)) as [x|] eqn:E; [eauto|].
  apply nth_error_None in E. lia.
Qed.

(** What the tool answers once the search has succeeded: the publication
    at an index within the list, the out-of-range message at an index at or
    beyond its end, and [JSON.stringify(undefined)], with no message, at a
    negative index. *)
Lemma get_publication_details_by_index
    (net : Network) (orcid_id : string) (publication_index : Z)
    (publications : list Epmc.PublicationRecord) :
  Epmc.getEpmcPublicationsByOrcid net orcid_id 100 Epmc.defaultEpmcConfig
  = Ok publications ->
  (0 <= publication_index < Z.of_nat (List.length publications) ->
   exists p,
     nth_error publications (Z.to_nat publication_index) = Some p
     /\ Server.get_publication_details net orcid_id publication_index
        = Server.Stringify (Some p))
  /\ (Z.of_nat (List.length publications) <= publication_index ->
      Server.get_publication_details net orcid_id publication_index
      = Server.Text
          ("Error: Publication index " ++ string_of_Z publication_index
           ++ " is out of range. Found "
           ++ string_of_Z (Z.of_nat (List.length publications))
           ++ " publications."))
  /\ (publication_index < 0 ->
      Server.get_publication_details net orcid_id publication_index
      = Server.Stringify None).
Proof.
  intros H. unfold Server.get_publication_details. rewrite H.
  repeat split.
  - intros R. destruct (index_in_range publications _ R) as (p & Hi & Hn).
    exists p. split; [exact Hn|].
    destruct (Z.geb_spec publication_index (Z.of_nat (List.length publications)));
      [lia | now rewrite Hi].
  - intros R.
    destruct (Z.geb_spec publication_index (Z.of_nat (List.length publications)));
      [reflexivity | lia].
  - intros R.
    destruct (Z.geb_spec publication_index (Z.of_nat (List.length publications)));
      [lia|].
    unfold index. destruct (Z.ltb_spec publication_index 0); [reflexivity | lia].
Qed.

(** C8, the code at the failing input: with one publication found, the
    index -1 is outside the valid positions, and the tool returns neither
    the out-of-range message nor a publication but the serialisation of
    [undefined]; the index 1 gets the message and the index 0 the
    publication. *)
Theorem negative_index_is_not_reported_out_of_range :
  Server.get_publication_details
    (Samples.networkOk Samples.epmcOnePublication) Samples.orcidId (-1)
  = Server.Stringify None
  /\ Server.get_publication_details
       (Samples.networkOk Samples.epmcOnePublication) Samples.orcidId 1
     = Server.Text "Error: Publication index 1 is out of range. Found 1 publications."
  /\ exists p,
       Epmc.title p = "A title"
       /\ Server.get_publication_details
            (Samples.networkOk Samples.epmcOnePublication) Samples.orcidId 0
          = Server.Stringify (Some p).
Proof.
  split; [reflexivity|]. split; [reflexivity|].
  eexists. split. 2: reflexivity. reflexivity.
Qed.

(* ===================================================================== *)
(** * Europe PMC: what a record carries                                   *)
(* ===================================================================== *)

Lemma string_app_assoc (a b c : string) : ((a ++ b) ++ c = a ++ (b ++ c))%string.
Proof. induction a as [|x a IH]; simpl; [reflexivity | now rewrite IH]. Qed.

Lemma string_app_empty (a : string) : (a ++ "")%string = a.
Proof. induction a as [|x a IH]; simpl; [reflexivity | now rewrite IH]. Qed.

Lemma collect_flat_map {A B} (f : A -> option B) (l : list A) :
  collect f l = flat_map (fun x => match f x with Some y => [y] | None => [] end) l.
Proof.
  induction l as [|x l IH]; simpl; [reflexivity|].
  destruct (f x); simpl; now rewrite IH.
Qed.

Lemma qualifiers_fold (qs : list Epmc.Raw.EpmcMeshQualifier) (acc : string) :
  fold_left
    (fun acc qualifier =>
       match Epmc.Raw.qualifierName qualifier with
       | Some q => if truthy_string q then acc ++ "/" ++ q else acc
       | None => acc
       end) qs acc
  = (acc ++ concat_all
              (map (append "/")
                   (flat_map (fun q => present (Epmc.Raw.qualifierName q)) qs)))%string.
Proof.
  revert acc. induction qs as [|q qs IH]; intros acc; simpl.
  - now rewrite string_app_empty.
  - rewrite IH. destruct (Epmc.Raw.qualifierName q) as [[|c s]|]; simpl;
      try reflexivity.
    now rewrite string_app_assoc.
Qed.

Lemma convertMeshHeading_closed (mesh : Epmc.Raw.EpmcMeshHeading) :
  match Epmc.convertMeshHeading mesh with
  | Some s => [s]
  | None => []
  end
  = map (subjectOf mesh) (present (Epmc.Raw.descriptorName mesh)).
Proof.
  unfold Epmc.convertMeshHeading, subjectOf, rawQualifiers.
  destruct (Epmc.Raw.descriptorName mesh) as [[|c d]|]; simpl; try reflexivity.
  destruct (opt_get _ _) as [qs|].
  - rewrite qualifiers_fold.
    destruct (strict_eq (Epmc.Raw.majorTopic_YN mesh) "Y"); simpl; reflexivity.
  - simpl. rewrite string_app_empty.
    destruct (strict_eq (Epmc.Raw.majorTopic_YN mesh) "Y"); reflexivity.
Qed.

Lemma collect_convertMeshHeading (headings : list Epmc.Raw.EpmcMeshHeading) :
  collect Epmc.convertMeshHeading headings = subjectsOf headings.
Proof.
  rewrite collect_flat_map. unfold subjectsOf.
  induction headings as [|mesh l IH]; simpl; [reflexivity|].
  now rewrite convertMeshHeading_closed, IH.
Qed.

(** What [convertResult] makes of its lists, once it emits a record. *)
Lemma convertResult_lists (result : Epmc.Raw.EpmcResult) (p : Epmc.PublicationRecord) :
  Epmc.convertResult result = Some p ->
  Epmc.authors p = collect Epmc.convertAuthor (rawAuthors result)
  /\ Epmc.grants p = collect Epmc.convertGrant (rawGrants result)
  /\ Epmc.subjects p = collect Epmc.convertMeshHeading (rawHeadings result)
  /\ Epmc.fullTextUrl p
     = opt_get (find (fun u => truthy_opt (Epmc.Raw.url u)) (rawUrls result))
               Epmc.Raw.url.
Proof.
  unfold Epmc.convertResult, rawAuthors, rawGrants, rawHeadings, rawUrls.
  destruct (Epmc.Raw.title result) as [title|]; [|discriminate].
  destruct (Epmc.Raw.abstractText result) as [abstractText|]; [|discriminate].
  destruct (_ || _); [discriminate|].
  intros H. inversion H. clear H. cbn.
  split; [now destruct (opt_get (Epmc.Raw.authorList result) Epmc.Raw.author)|].
  split; [now destruct (opt_get (Epmc.Raw.grantsList result) Epmc.Raw.grant)|].
  split; [now destruct (opt_get (Epmc.Raw.meshHeadingList result)
                                Epmc.Raw.meshHeading)|].
  now destruct (opt_get (Epmc.Raw.fullTextUrlList result) Epmc.Raw.fullTextUrl).
Qed.

(** X1. The subjects of an emitted publication are, in source order, the
    decorated descriptors of the MeSH headings that have a non-empty
    descriptor: a star in front for a major topic (flag "Y"), then the
    descriptor, then "/name" for every qualifier with a non-empty name, in
    source order; headings without a descriptor contribute nothing. *)
Theorem subjects_are_decorated_descriptors
    (result : Epmc.Raw.EpmcResult) (p : Epmc.PublicationRecord) :
  Epmc.convertResult result = Some p ->
  Epmc.subjects p = subjectsOf (rawHeadings result).
Proof.
  intros H. destruct (convertResult_lists _ _ H) as (_ & _ & -> & _).
  apply collect_convertMeshHeading.
Qed.

Lemma subjects_witness :
  exists p,
    Epmc.convertResult Samples2.richResult = Some p
    /\ Epmc.subjects p = ["*Genomics/methods/trends"].
Proof.
  eexists. split; [reflexivity|].
  exact (subjects_are_decorated_descriptors Samples2.richResult _ eq_refl).
Defined.

(** X2. The full-text address of an emitted publication is the first
    non-empty address of the entry's address list, in source order, and is
    absent when the list has none. *)
Theorem full_text_url_is_first_nonempty
    (result : Epmc.Raw.EpmcResult) (p : Epmc.PublicationRecord) :
  Epmc.convertResult result = Some p ->
  Epmc.fullTextUrl p
  = hd_error (flat_map (fun u => present (Epmc.Raw.url u)) (rawUrls result)).
Proof.
  intros H. destruct (convertResult_lists _ _ H) as (_ & _ & _ & ->).
  unfold find. induction (rawUrls result) as [|u l IH]; simpl; [reflexivity|].
  destruct (Epmc.Raw.url u) as [[|c s]|] eqn:E; simpl.
  - exact IH.
  - exact E.
  - exact IH.
Qed.

Lemma full_text_url_witness :
  exists p,
    Epmc.convertResult Samples2.richResult = Some p
    /\ Epmc.fullTextUrl p = Some "https://a.example/1".
Proof.
  eexists. split; [reflexivity|].
  exact (full_text_url_is_first_nonempty Samples2.richResult _ eq_refl).
Defined.

Lemma convertAuthor_fullName (l : list Epmc.Raw.EpmcAuthor) :
  map Epmc.fullName (collect Epmc.convertAuthor l)
  = filter truthy_opt (map Epmc.Raw.fullName l).
Proof.
  induction l as [|a l IH]; simpl; [reflexivity|].
  unfold Epmc.convertAuthor at 1.
  destruct (truthy_opt (Epmc.Raw.fullName a)); simpl; now rewrite IH.
Qed.

Lemma convertAuthor_affiliations (author : Epmc.Raw.EpmcAuthor) (a : Epmc.Author) :
  Epmc.convertAuthor author = Some a ->
  Epmc.affiliations a
  = flat_map (fun d => present (Epmc.Raw.affiliation d)) (rawAffiliations author).
Proof.
  unfold Epmc.convertAuthor, rawAffiliations.
  destruct (negb _); [discriminate|]. intros H. inversion H. clear H. cbn.
  destruct (opt_get (Epmc.Raw.authorAffiliationDetailsList author)
                    Epmc.Raw.authorAffiliation) as [l|]; [|reflexivity].
  rewrite collect_flat_map. apply flat_map_ext. intros d.
  destruct (Epmc.Raw.affiliation d) as [s|]; simpl;
    [destruct (truthy_string s)|]; reflexivity.
Qed.

(** X3. The authors of an emitted publication are the entry's authors
    that have a non-empty full name, in source order, the others being
    skipped; so every emitted author has a non-empty full name. *)
Theorem authors_are_those_with_full_name
    (result : Epmc.Raw.EpmcResult) (p : Epmc.PublicationRecord) :
  Epmc.convertResult result = Some p ->
  map Epmc.fullName (Epmc.authors p)
  = filter truthy_opt (map Epmc.Raw.fullName (rawAuthors result))
  /\ Forall (fun a => nonempty (Epmc.fullName a)) (Epmc.authors p).
Proof.
  intros H. destruct (convertResult_lists _ _ H) as (-> & _).
  split; [apply convertAuthor_fullName|].
  apply Forall_forall. intros a Ha.
  apply truthy_opt_nonempty.
  assert (I : In (Epmc.fullName a)
                 (map Epmc.fullName (collect Epmc.convertAuthor (rawAuthors result))))
    by now apply in_map.
  rewrite convertAuthor_fullName in I. apply filter_In in I. tauto.
Qed.

Lemma authors_witness :
  exists p,
    Epmc.convertResult Samples2.richResult = Some p
    /\ map Epmc.fullName (Epmc.authors p) = [Some "Doe J"].
Proof.
  eexists. split; [reflexivity|].
  exact (proj1 (authors_are_those_with_full_name Samples2.richResult _ eq_refl)).
Defined.

(** X4. The affiliations of an emitted author are the non-empty
    affiliation strings of the author's affiliation details, in source
    order; an author without details has none. *)
Theorem affiliations_are_nonempty_strings
    (author : Epmc.Raw.EpmcAuthor) (a : Epmc.Author) :
  Epmc.convertAuthor author = Some a ->
  Epmc.affiliations a
  = flat_map (fun d => present (Epmc.Raw.affiliation d)) (rawAffiliations author)
  /\ Forall (fun s => s <> "") (Epmc.affiliations a).
Proof.
  intros H. rewrite (convertAuthor_affiliations _ _ H). split; [reflexivity|].
  apply Forall_forall. intros s Hs. apply in_flat_map in Hs.
  destruct Hs as (d & _ & Hd). unfold present in Hd.
  destruct (Epmc.Raw.affiliation d) as [[|c t]|]; simpl in Hd;
    try contradiction.
  destruct Hd as [<-|[]]. discriminate.
Qed.

Lemma affiliations_witness :
  exists a,
    Epmc.convertAuthor Samples2.affiliatedAuthor = Some a
    /\ Epmc.affiliations a = ["EMBL"].
Proof.
  eexists. split; [reflexivity|].
  exact (proj1 (affiliations_are_nonempty_strings Samples2.affiliatedAuthor _
                  eq_refl)).
Defined.

Lemma convertGrant_grantId (l : list Epmc.Raw.EpmcGrant) :
  map (fun g => (Epmc.grantId g, Epmc.agency g, Epmc.acronym g))
      (collect Epmc.convertGrant l)
  = map (fun g => (Epmc.Raw.grantId g, Epmc.Raw.agency g, Epmc.Raw.acronym g))
        (filter (fun g => truthy_opt (Epmc.Raw.grantId g)) l).
Proof.
  induction l as [|g l IH]; simpl; [reflexivity|].
  unfold Epmc.convertGrant at 1.
  destruct (truthy_opt (Epmc.Raw.grantId g)); simpl; now rewrite IH.
Qed.

(** X5. The grants of an emitted publication are the entry's grants that
    have a non-empty grant id, in source order and with their id, agency
    and acronym unchanged; a grant without an id is skipped even when it
    names an agency. *)
Theorem grants_are_those_with_id
    (result : Epmc.Raw.EpmcResult) (p : Epmc.PublicationRecord) :
  Epmc.convertResult result = Some p ->
  map (fun g => (Epmc.grantId g, Epmc.agency g, Epmc.acronym g)) (Epmc.grants p)
  = map (fun g => (Epmc.Raw.grantId g, Epmc.Raw.agency g, Epmc.Raw.acronym g))
        (filter (fun g => truthy_opt (Epmc.Raw.grantId g)) (rawGrants result)).
Proof.
  intros H. destruct (convertResult_lists _ _ H) as (_ & -> & _).
  apply convertGrant_grantId.
Qed.

Lemma grants_witness :
  exists p,
    Epmc.convertResult Samples2.richResult = Some p
    /\ map (fun g => (Epmc.grantId g, Epmc.agency g, Epmc.acronym g)) (Epmc.grants p)
       = [(Some "R01", Some "NIH", None)].
Proof.
  eexists. split; [reflexivity|].
  exact (grants_are_those_with_id Samples2.richResult _ eq_refl).
Defined.

(* ===================================================================== *)
(** * Europe PMC: the search from end to end                              *)
(* ===================================================================== *)

(** The search, case by case on what the network shows. *)
Lemma getEpmcPublicationsByOrcid_cases
    (net : Network) (orcidId : string) (maxResults : Z) (config : Epmc.EpmcConfig) :
  Epmc.getEpmcPublicationsByOrcid net orcidId maxResults config
  = match new_URL net (Epmc.baseUrl config ++ "/search") with
    | Some message =>
        Throw (EpmcAPIError "Failed to process publications"
                 (JObj [("orcidId", JStr orcidId); ("error", JStr message)]))
    | None =>
        let failed message :=
          Throw (EpmcAPIError "Failed to fetch search data"
                   (JObj [("endpoint", JStr "search");
                          ("params", epmcSearchPayload orcidId maxResults);
                          ("error", JStr message)])) in
        match fetch net (Epmc.baseUrl config ++ "/search")
                    (epmcSearchPayload orcidId maxResults) with
        | Rejected _ message => failed message
        | Responded status statusText json =>
            if ok status then
              match json with
              | NotJson message => failed message
              | Body data =>
                  if accepts Epmc.EpmcResponseSchema data
                  then Ok (Epmc.convertEpmcResponseToPublications
                             (Epmc.viewResponse data))
                  else Throw (EpmcValidationError
                                "Failed to validate Europe PMC publication data"
                                (JsError "ZodError" "Invalid input")
                                (JObj [("rawData", data)]))
              end
            else failed ("HTTP " ++ string_of_Z status ++ ": " ++ statusText)
        end
    end.
Proof.
  unfold Epmc.getEpmcPublicationsByOrcid, Epmc.getEpmcPublicationsByOrcid_try,
    Epmc.fetchEpmcData, epmcSearchPayload.
  unfold Epmc.parsePublications, parse, Epmc.getEpmcPublicationsByOrcid_catch.
  cbv beta iota zeta delta [Js.bind Js.try_catch json_of].
  destruct (new_URL net _) as [message|]; [reflexivity|].
  destruct (fetch net _ _) as [name message | status statusText [data|message]];
    [reflexivity | | destruct (ok status); reflexivity].
  destruct (ok status); cbn [negb]; [|reflexivity].
  destruct (accepts Epmc.EpmcResponseSchema data); reflexivity.
Qed.

(** X6. A publication search succeeds exactly when the search address is
    well formed and the registry answers with a 2xx status and a JSON body
    that the response schema accepts; the result is then the normalisation
    of that body. *)
Theorem search_succeeds_iff_valid_answer
    (net : Network) (orcidId : string) (maxResults : Z) (config : Epmc.EpmcConfig)
    (publications : list Epmc.PublicationRecord) :
  Epmc.getEpmcPublicationsByOrcid net orcidId maxResults config = Ok publications
  <-> new_URL net (Epmc.baseUrl config ++ "/search") = None
      /\ exists status statusText data,
           fetch net (Epmc.baseUrl config ++ "/search")
                 (epmcSearchPayload orcidId maxResults)
           = Responded status statusText (Body data)
           /\ ok status = true
           /\ accepts Epmc.EpmcResponseSchema data = true
           /\ publications
              = Epmc.convertEpmcResponseToPublications (Epmc.viewResponse data).
Proof.
  rewrite getEpmcPublicationsByOrcid_cases. cbv zeta.
  destruct (new_URL net _) as [message|].
  { split; [discriminate | intros [H _]; discriminate]. }
  destruct (fetch net _ _) as [name message | status statusText [data|message]].
  - split; [discriminate | intros (_ & ? & ? & ? & H & _); discriminate].
  - destruct (ok status) eqn:S.
    + destruct (accepts Epmc.EpmcResponseSchema data) eqn:A.
      * split.
        -- intros H. inversion H. split; [reflexivity|].
           exists status, statusText, data. auto.
        -- intros (_ & ? & ? & ? & H & _ & _ & ->). now inversion H.
      * split; [discriminate|].
        intros (_ & ? & ? & ? & H & _ & A' & _). inversion H. subst. congruence.
    + split; [discriminate|].
      intros (_ & ? & ? & ? & H & S' & _). inversion H. subst. congruence.
  - destruct (ok status);
      (split; [discriminate | intros (_ & ? & ? & ? & H & _); discriminate]).
Qed.

(** X7. A publication search fails with a validation error exactly when
    the registry answered with a 2xx status and a JSON body that the
    response schema rejects; the error then carries that body as raw data.
    A non-2xx answer is never a validation error, whatever its body. *)
Theorem validation_error_iff_body_rejected
    (net : Network) (orcidId : string) (maxResults : Z) (config : Epmc.EpmcConfig)
    (e : exn) :
  Epmc.getEpmcPublicationsByOrcid net orcidId maxResults config = Throw e
  /\ Epmc.is_EpmcValidationError e = true
  <-> new_URL net (Epmc.baseUrl config ++ "/search") = None
      /\ exists status statusText data,
           fetch net (Epmc.baseUrl config ++ "/search")
                 (epmcSearchPayload orcidId maxResults)
           = Responded status statusText (Body data)
           /\ ok status = true
           /\ accepts Epmc.EpmcResponseSchema data = false
           /\ e = EpmcValidationError
                    "Failed to validate Europe PMC publication data"
                    (JsError "ZodError" "Invalid input")
                    (JObj [("rawData", data)]).
Proof.
  rewrite getEpmcPublicationsByOrcid_cases. cbv zeta.
  destruct (new_URL net _) as [message|].
  { split; [intros [H V]; inversion H; subst; discriminate
           | intros [H _]; discriminate]. }
  destruct (fetch net _ _) as [name message | status statusText [data|message]].
  - split; [intros [H V]; inversion H; subst; discriminate
           | intros (_ & ? & ? & ? & H & _); discriminate].
  - destruct (ok status) eqn:S.
    + destruct (accepts Epmc.EpmcResponseSchema data) eqn:A.
      * split; [intros [H _]; discriminate|].
        intros (_ & ? & ? & ? & H & _ & A' & _). inversion H. subst. congruence.
      * split.
        -- intros [H _]. inversion H. split; [reflexivity|].
           exists status, statusText, data. auto.
        -- intros (_ & ? & ? & ? & H & _ & _ & ->). inversion H. subst.
           split; reflexivity.
    + split; [intros [H V]; inversion H; subst; discriminate|].
      intros (_ & ? & ? & ? & H & S' & _). inversion H. subst. congruence.
  - destruct (ok status);
      (split; [intros [H V]; inversion H; subst; discriminate
              | intros (_ & ? & ? & ? & H & _); discriminate]).
Qed.

Lemma entries_of_view (data : jsval) :
  entries (Epmc.viewResponse data) = map Epmc.viewResult (rawEntries data).
Proof.
  unfold entries, Epmc.viewResponse, rawEntries. cbn.
  destruct (field "resultList" data); try reflexivity. cbn.
  destruct (lookup "result" fields); reflexivity.
Qed.

Lemma collect_length {A B} (f : A -> option B) (l : list A) :
  (List.length (collect f l) <= List.length l)%nat.
Proof.
  induction l as [|x l IH]; simpl; [lia|]. destruct (f x); simpl; lia.
Qed.

Lemma convertResult_invariant (result : Epmc.Raw.EpmcResult) (p : Epmc.PublicationRecord) :
  Epmc.convertResult result = Some p ->
  Epmc.title p <> "" /\ nonempty (Epmc.abstract p) /\ Epmc.source p = "Europe PMC".
Proof.
  unfold Epmc.convertResult.
  destruct (Epmc.Raw.title result) as [t|]; [|discriminate].
  destruct (Epmc.Raw.abstractText result) as [a|]; [|discriminate].
  destruct (truthy_string t) eqn:T; [|discriminate].
  destruct (truthy_string a) eqn:A; [|discriminate].
  cbn [negb orb]. intros H. inversion H. cbn.
  apply truthy_string_true in T, A.
  split; [exact T|]. split; [|reflexivity].
  exists a. auto.
Qed.

Lemma collect_In {A B} (f : A -> option B) (l : list A) (y : B) :
  In y (collect f l) -> exists x, In x l /\ f x = Some y.
Proof.
  induction l as [|x l IH]; simpl; [contradiction|].
  destruct (f x) as [y'|] eqn:E.
  - intros [<-|H]; [eauto|]. destruct (IH H) as (x' & ? & ?). eauto.
  - intros H. destruct (IH H) as (x' & ? & ?). eauto.
Qed.

(** X8. Whatever the network answers, every record that a publication
    search returns has a non-empty title, a non-empty abstract and the
    source label "Europe PMC", and the search never returns more records
    than the answer's result list has entries. *)
Theorem search_results_are_complete_records
    (net : Network) (orcidId : string) (maxResults : Z) (config : Epmc.EpmcConfig)
    (publications : list Epmc.PublicationRecord) :
  Epmc.getEpmcPublicationsByOrcid net orcidId maxResults config = Ok publications ->
  Forall (fun p => Epmc.title p <> ""
                   /\ nonempty (Epmc.abstract p)
                   /\ Epmc.source p = "Europe PMC") publications
  /\ exists status statusText data,
       fetch net (Epmc.baseUrl config ++ "/search")
             (epmcSearchPayload orcidId maxResults)
       = Responded status statusText (Body data)
       /\ (List.length publications <= List.length (rawEntries data))%nat.
Proof.
  intros H. apply search_succeeds_iff_valid_answer in H.
  destruct H as (_ & status & statusText & data & F & _ & _ & ->).
  unfold Epmc.convertEpmcResponseToPublications.
  pose proof (entries_of_view data) as E. unfold entries in E.
  split.
  - apply Forall_forall. intros p Hp.
    destruct (opt_get _ _) as [results|]; [|contradiction].
    apply collect_In in Hp. destruct Hp as (r & _ & Hr).
    now apply convertResult_invariant with r.
  - exists status, statusText, data. split; [exact F|].
    destruct (opt_get _ _) as [results|]; [|simpl; lia].
    rewrite <- (length_map Epmc.viewResult), <- E. apply collect_length.
Qed.

Lemma search_results_witness :
  Forall (fun p => Epmc.title p <> ""
                   /\ nonempty (Epmc.abstract p)
                   /\ Epmc.source p = "Europe PMC")
         [{| Epmc.title := "A title";
             Epmc.abstract := Some "An abstract";
             Epmc.doi := None;
             Epmc.pmid := None;
             Epmc.pmcid := None;
             Epmc.publicationDate := None;
             Epmc.journalName := None;
             Epmc.journalIssn := None;
             Epmc.authors := [];
             Epmc.source := "Europe PMC";
             Epmc.fullTextUrl := None;
             Epmc.citationCount := None;
             Epmc.keywords := [];
             Epmc.subjects := [];
             Epmc.grants := [];
             Epmc.isOpenAccess := false |}].
Proof.
  exact (proj1 (search_results_are_complete_records
                  (Samples.networkOk Samples.epmcOnePublication)
                  Samples.orcidId 20 Epmc.defaultEpmcConfig _ eq_refl)).
Defined.

(* ===================================================================== *)
(** * NIH: the fields of a grant record                                   *)
(* ===================================================================== *)

Lemma trimStart_head (s : string) :
  match trimStart s with
  | EmptyString => True
  | String c _ => is_space c = false
  end.
Proof.
  induction s as [|c s IH]; simpl; [exact I|].
  destruct (is_space c) eqn:E; [exact IH | exact E].
Qed.

Lemma trimStart_fixed (s : string) :
  match s with
  | EmptyString => True
  | String c _ => is_space c = false
  end ->
  trimStart s = s.
Proof. destruct s as [|c s]; simpl; [reflexivity | now intros ->]. Qed.

Lemma trimEnd_head (c : ascii) (s : string) :
  is_space c = false -> exists r, trimEnd (String c s) = String c r.
Proof.
  intros H. simpl. destruct (trimEnd s); [rewrite H|]; eauto.
Qed.

Lemma trimEnd_idempotent (s : string) : trimEnd (trimEnd s) = trimEnd s.
Proof.
  induction s as [|c s IH]; simpl; [reflexivity|].
  destruct (trimEnd s) as [|c' r] eqn:E.
  - destruct (is_space c) eqn:Hc; simpl; [reflexivity | now rewrite Hc].
  - change (trimEnd (String c (String c' r)) = String c (String c' r)).
    cbn [trimEnd] in *. destruct (trimEnd r); now rewrite IH.
Qed.

(** A trimmed string has no white space left at either end: trimming it
    again changes nothing. *)
Lemma trim_idempotent (s : string) : trim (trim s) = trim s.
Proof.
  unfold trim. pose proof (trimStart_head s) as H.
  destruct (trimStart s) as [|c t]; [reflexivity|].
  destruct (trimEnd_head c t H) as [r E]. rewrite E.
  rewrite trimStart_fixed by exact H. rewrite <- E. apply trimEnd_idempotent.
Qed.

Lemma occurs_trimStart (c : ascii) (s : string) :
  occurs c s = false -> occurs c (trimStart s) = false.
Proof.
  induction s as [|x s IH]; simpl; [reflexivity|].
  intros H. apply orb_false_iff in H. destruct H as [Hx Hs].
  destruct (is_space x); [now apply IH | simpl; now rewrite Hx, Hs].
Qed.

Lemma occurs_trimEnd (c : ascii) (s : string) :
  occurs c s = false -> occurs c (trimEnd s) = false.
Proof.
  induction s as [|x s IH]; simpl; [reflexivity|].
  intros H. apply orb_false_iff in H. destruct H as [Hx Hs].
  specialize (IH Hs). destruct (trimEnd s) as [|y r].
  - destruct (is_space x); simpl; [reflexivity | now rewrite Hx].
  - simpl in *. now rewrite Hx, IH.
Qed.

Lemma occurs_trim (c : ascii) (s : string) :
  occurs c s = false -> occurs c (trim s) = false.
Proof. intros H. unfold trim. now apply occurs_trimEnd, occurs_trimStart. Qed.

(** No piece of a split contains the separator. *)
Lemma split_pieces (sep : ascii) (s : string) :
  Forall (fun piece => occurs sep piece = false) (split sep s).
Proof.
  induction s as [|c s IH]; simpl.
  - constructor; [reflexivity | constructor].
  - destruct (Ascii.eqb c sep) eqn:E.
    + constructor; [reflexivity | exact IH].
    + destruct (split sep s) as [|piece rest].
      * constructor; [simpl; now rewrite E | constructor].
      * inversion IH as [|? ? Hp Hr]. subst.
        constructor; [simpl; now rewrite E, Hp | exact Hr].
Qed.

(** X10. The keywords of a grant record are the segments of the
    semicolon-delimited preferred terms, trimmed, in order, without the
    empty ones: every keyword is non-empty, has no white space at either
    end and contains no semicolon; absent or empty preferred terms give no
    keyword. *)
Theorem keywords_are_trimmed_segments (project : Nih.Raw.NIHProject) :
  Forall (fun k => k <> "" /\ trim k = k /\ occurs ";" k = false)
         (Nih.keywords (Nih.convertNIHProjectToGrantRecord project))
  /\ (truthy_opt (Nih.Raw.pref_terms project) = false ->
      Nih.keywords (Nih.convertNIHProjectToGrantRecord project) = [])
  /\ (forall terms,
        Nih.Raw.pref_terms project = Some terms ->
        Nih.keywords (Nih.convertNIHProjectToGrantRecord project)
        = filter truthy_string (map trim (split ";" terms))).
Proof.
  unfold Nih.convertNIHProjectToGrantRecord. cbn [Nih.keywords].
  destruct (Nih.Raw.pref_terms project) as [terms|]; simpl.
  2: { repeat split; [constructor | discriminate]. }
  assert (K : Forall (fun k => k <> "" /\ trim k = k /\ occurs ";" k = false)
                     (filter truthy_string (map trim (split ";" terms)))).
  { apply Forall_forall. intros k Hk. apply filter_In in Hk.
    destruct Hk as [Hin Ht]. apply truthy_string_true in Ht.
    apply in_map_iff in Hin. destruct Hin as (piece & <- & Hp).
    split; [exact Ht|]. split; [apply trim_idempotent|].
    apply occurs_trim.
    pose proof (split_pieces ";" terms) as S. rewrite Forall_forall in S. auto. }
  destruct (truthy_string terms) eqn:T.
  - repeat split; [exact K | discriminate | intros ? [= <-]; reflexivity].
  - destruct terms; [|discriminate].
    repeat split; [constructor | intros ? [= <-]; reflexivity].
Qed.

Lemma join_nonempty (p : string) (rest : list string) :
  p <> "" -> truthy_string (join ", " (p :: rest)) = true.
Proof.
  intros H. destruct p as [|c p]; [congruence|].
  destruct rest; reflexivity.
Qed.

(** X11. The recipient of a grant record is the ", "-join of the
    non-empty ones among organisation name, department and country, in
    that order, and is absent when none of the three is there. *)
Theorem recipient_joins_organization_parts (project : Nih.Raw.NIHProject) :
  Nih.recipient (Nih.convertNIHProjectToGrantRecord project)
  = match recipientParts project with
    | [] => None
    | parts => Some (join ", " parts)
    end.
Proof.
  unfold Nih.convertNIHProjectToGrantRecord, recipientParts, Nih.push_if_truthy.
  cbn [Nih.recipient flat_map].
  destruct (Nih.Raw.organization project) as [org|]; [|reflexivity].
  cbn [opt_get].
  destruct (Nih.Raw.org_name org) as [[|c1 s1]|];
    destruct (Nih.Raw.org_department org) as [[|c2 s2]|];
    destruct (Nih.Raw.org_country org) as [[|c3 s3]|]; reflexivity.
Qed.

(** X12. Every grant record has the project number as id, the currency
    "USD", a non-empty funder (the administering agency's name, or "NIH"
    when that is missing or empty), a non-empty award type (the mechanism
    code, or "research"), and an amount that is never zero: a null, missing
    or zero award amount gives an absent amount, any other amount is
    kept. *)
Theorem grant_record_defaults (project : Nih.Raw.NIHProject) :
  let grant := Nih.convertNIHProjectToGrantRecord project in
  Nih.id grant = Nih.Raw.project_num project
  /\ Nih.currency grant = "USD"
  /\ Nih.funder grant <> ""
  /\ (Nih.funder grant
      = match present (opt_get (Nih.Raw.agency_ic_admin project) Nih.Raw.name) with
        | [name] => name
        | _ => "NIH"
        end)
  /\ Nih.award_type grant <> ""
  /\ (Nih.award_type grant
      = match present (Nih.Raw.mechanism_code_dc project) with
        | [code] => code
        | _ => "research"
        end)
  /\ Nih.amount grant <> Some 0
  /\ (forall n, Nih.Raw.award_amount project = Some n -> n <> 0 ->
                Nih.amount grant = Some n)
  /\ (Nih.Raw.award_amount project = None
      \/ Nih.Raw.award_amount project = Some 0 ->
      Nih.amount grant = None)
  /\ (Nih.amount grant
      = match Nih.Raw.award_amount project with
        | Some n => if n =? 0 then None else Some n
        | None => None
        end).
Proof.
  cbv zeta. unfold Nih.convertNIHProjectToGrantRecord.
  cbn [Nih.id Nih.currency Nih.funder Nih.award_type Nih.amount].
  split; [reflexivity|]. split; [reflexivity|].
  split; [|split; [|split; [|split; [|split; [|split; [|split]]]]]].
  - destruct (opt_get _ _) as [[|c s]|]; discriminate.
  - destruct (opt_get _ _) as [[|c s]|]; reflexivity.
  - destruct (Nih.Raw.mechanism_code_dc project) as [[|c s]|]; discriminate.
  - destruct (Nih.Raw.mechanism_code_dc project) as [[|c s]|]; reflexivity.
  - destruct (Nih.Raw.award_amount project) as [n|]; simpl; [|discriminate].
    destruct (Z.eqb_spec n 0); simpl; [discriminate | congruence].
  - intros n -> Hn. simpl. destruct (Z.eqb_spec n 0); [contradiction | reflexivity].
  - intros [-> | ->]; reflexivity.
  - destruct (Nih.Raw.award_amount project) as [n|]; simpl; [|reflexivity].
    destruct (n =? 0); reflexivity.
Qed.

(* ===================================================================== *)
(** * NIH: the searches from end to end                                   *)
(* ===================================================================== *)

Lemma searchGrants_cases (net : Network) (payload : jsval) (config : NihApi.NIHConfig) :
  NihApi.searchGrants net payload config
  = match fetch net (searchUrl config) payload with
    | Rejected _ message => Throw (fetchFailure message)
    | Responded status _ json =>
        if ok status then
          match json with
          | NotJson message => Throw (fetchFailure message)
          | Body data =>
              if Json.truthy data then
                if accepts Nih.NIHSearchResponseSchema data
                then Ok (map Nih.convertNIHProjectToGrantRecord
                             (NihApi.viewResults data))
                else Throw (JsError "ZodError" "Invalid input")
              else Ok []
          end
        else Throw (fetchFailure ("HTTP error! status: " ++ string_of_Z status))
    end.
Proof.
  unfold NihApi.searchGrants, NihApi.fetchNIHData, searchUrl, fetchFailure, parse.
  cbv beta iota zeta delta [Js.bind Js.try_catch json_of].
  destruct (fetch net _ payload) as [name message | status statusText [data|message]];
    [reflexivity | | destruct (ok status); reflexivity].
  destruct (ok status); cbn [negb]; [|reflexivity].
  destruct (Json.truthy data); cbn [negb]; [|reflexivity].
  destruct (accepts Nih.NIHSearchResponseSchema data); reflexivity.
Qed.

Lemma searchGrants_answered
    (net : Network) (payload : jsval) (config : NihApi.NIHConfig)
    (grants : list Nih.GrantRecord) :
  NihApi.searchGrants net payload config = Ok grants
  <-> SearchAnswered net config payload grants.
Proof.
  rewrite searchGrants_cases. unfold SearchAnswered.
  destruct (fetch net _ payload) as [name message | status statusText [data|message]].
  - split; [discriminate | intros (? & ? & ? & H & _); discriminate].
  - destruct (ok status) eqn:S.
    + destruct (Json.truthy data) eqn:T.
      * destruct (accepts _ data) eqn:A.
        -- split.
           ++ intros [= <-]. exists status, statusText, data. auto 6.
           ++ intros (? & ? & ? & [= <- <- <-] & _ & [[? _]|(_ & _ & ->)]);
                [congruence | reflexivity].
        -- split; [discriminate|].
           intros (? & ? & ? & [= <- <- <-] & _ & [[? _]|(_ & ? & _)]); congruence.
      * split.
        -- intros [= <-]. exists status, statusText, data. auto 6.
        -- intros (? & ? & ? & [= <- <- <-] & _ & [[_ ->]|(? & _)]);
             [reflexivity | congruence].
    + split; [discriminate|].
      intros (? & ? & ? & [= <- <- <-] & ? & _). congruence.
  - destruct (ok status);
      (split; [discriminate | intros (? & ? & ? & H & _); discriminate]).
Qed.

(** X13. A grant search by investigator name or by organisation succeeds
    exactly when the registry answers with a 2xx status and a JSON body
    that is either falsy, in which case the result is the empty list and
    the body is not validated, or accepted by the response schema, in which
    case the result has one grant record per project of the result list, in
    order, none being dropped. *)
Theorem grant_searches_succeed_iff_answered
    (net : Network) (text : string) (maxResults : Z) (config : NihApi.NIHConfig)
    (grants : list Nih.GrantRecord) :
  (NihApi.getNIHGrantsByPIName net text maxResults config = Ok grants
   <-> SearchAnswered net config (NihApi.piNamePayload text maxResults) grants)
  /\ (NihApi.getNIHGrantsByOrganization net text maxResults config = Ok grants
      <-> SearchAnswered net config (NihApi.organizationPayload text maxResults)
            grants).
Proof. split; apply searchGrants_answered. Qed.

Lemma viewResults_ids (data : jsval) :
  map Nih.id (map Nih.convertNIHProjectToGrantRecord (NihApi.viewResults data))
  = rawProjectNumbers data.
Proof.
  unfold NihApi.viewResults, rawProjectNumbers.
  destruct (field "results" data); try reflexivity.
  rewrite !map_map. reflexivity.
Qed.

(** X14. The ids of the grants that a search by investigator name
    returns are the project numbers of the answer's result list, in order:
    the search returns as many grants as the answer has projects. *)
Theorem grant_ids_are_project_numbers
    (net : Network) (piName : string) (maxResults : Z) (config : NihApi.NIHConfig)
    (grants : list Nih.GrantRecord) :
  NihApi.getNIHGrantsByPIName net piName maxResults config = Ok grants ->
  exists status statusText data,
    fetch net (searchUrl config) (NihApi.piNamePayload piName maxResults)
    = Responded status statusText (Body data)
    /\ (Json.truthy data = true -> map Nih.id grants = rawProjectNumbers data).
Proof.
  intros H. apply searchGrants_answered in H.
  destruct H as (status & statusText & data & F & _ & [[T ->]|(_ & _ & ->)]);
    exists status, statusText, data; (split; [exact F|]).
  - congruence.
  - intros _. apply viewResults_ids.
Qed.

Lemma grant_ids_witness :
  exists status statusText data,
    fetch (Samples.networkOk
             (Samples.nihSearchResponse Samples.nihMeta Samples.nihProjectPayload))
          (searchUrl NihApi.defaultNIHConfig) (NihApi.piNamePayload "Smith" 20)
    = Responded status statusText (Body data)
    /\ (Json.truthy data = true ->
        map Nih.id
            [Nih.convertNIHProjectToGrantRecord
               (NihApi.viewProject (JObj Samples.nihProjectPayload))]
        = rawProjectNumbers data).
Proof.
  exact (grant_ids_are_project_numbers
           (Samples.networkOk
              (Samples.nihSearchResponse Samples.nihMeta Samples.nihProjectPayload))
           "Smith" 20 NihApi.defaultNIHConfig _ eq_refl).
Defined.

(** X15. Whatever a grant search throws is a built-in exception, not an
    error of the adapters' taxonomy: a plain error saying that the project
    search could not be fetched, followed by the cause, or the schema's
    own validation error. A non-2xx answer is reported with its status
    code, whatever its body. *)
Theorem grant_search_failures_are_plain_errors
    (net : Network) (piName : string) (maxResults : Z) (config : NihApi.NIHConfig) :
  (forall e,
      NihApi.getNIHGrantsByPIName net piName maxResults config = Throw e ->
      (exists reason, e = fetchFailure reason)
      \/ (exists issues, e = JsError "ZodError" issues))
  /\ (forall status statusText json,
        fetch net (searchUrl config) (NihApi.piNamePayload piName maxResults)
        = Responded status statusText json ->
        ok status = false ->
        NihApi.getNIHGrantsByPIName net piName maxResults config
        = Throw (fetchFailure ("HTTP error! status: " ++ string_of_Z status))).
Proof.
  unfold NihApi.getNIHGrantsByPIName. rewrite searchGrants_cases. split.
  - intros e.
    destruct (fetch net _ _) as [name message | status statusText [data|message]].
    + intros [= <-]. eauto.
    + destruct (ok status); [|intros [= <-]; eauto].
      destruct (Json.truthy data); [|discriminate].
      destruct (accepts _ data); [discriminate|]. intros [= <-]. eauto.
    + destruct (ok status); intros [= <-]; eauto.
  - intros status statusText json -> ->. reflexivity.
Qed.

Lemma trim_blank_guard (s : string) :
  negb (truthy_string s) || negb (truthy_string (trim s))
  = negb (truthy_string (trim s)).
Proof. destruct s; reflexivity. Qed.

(** X16. For a project number that is empty or made of white space only,
    the lookup by number answers "no grant" whatever the network would
    say, and the tool reports the grant as not found. *)
Theorem blank_project_number_is_not_found
    (net : Network) (projectNumber : string) (config : NihApi.NIHConfig) :
  trim projectNumber = "" ->
  NihApi.getNIHGrantByNumber net projectNumber config = Ok None
  /\ NihApi.get_nih_grant_by_number net projectNumber
     = Server.Text ("Error: Grant " ++ projectNumber ++ " not found.").
Proof.
  intros H.
  assert (G : forall c, NihApi.getNIHGrantByNumber net projectNumber c = Ok None).
  { intros c. unfold NihApi.getNIHGrantByNumber.
    now rewrite trim_blank_guard, H. }
  split; [apply G|]. unfold NihApi.get_nih_grant_by_number. now rewrite G.
Qed.

Lemma blank_project_number_witness :
  NihApi.getNIHGrantByNumber Samples.networkBadUrl "   " NihApi.defaultNIHConfig
  = Ok None
  /\ NihApi.get_nih_grant_by_number Samples.networkBadUrl "   "
     = Server.Text "Error: Grant     not found.".
Proof.
  exact (blank_project_number_is_not_found Samples.networkBadUrl "   "
           NihApi.defaultNIHConfig eq_refl).
Defined.

(** X17. White space around a project number never matters: the lookup
    of a number and the lookup of the trimmed number give the same
    outcome. *)
Theorem project_number_is_trimmed
    (net : Network) (projectNumber : string) (config : NihApi.NIHConfig) :
  NihApi.getNIHGrantByNumber net projectNumber config
  = NihApi.getNIHGrantByNumber net (trim projectNumber) config.
Proof.
  unfold NihApi.getNIHGrantByNumber, NihApi.projectNumberPayload.
  rewrite !trim_blank_guard, !trim_idempotent. reflexivity.
Qed.

Lemma getNIHGrantByNumber_cases
    (net : Network) (projectNumber : string) (config : NihApi.NIHConfig) :
  NihApi.getNIHGrantByNumber net projectNumber config
  = if truthy_string (trim projectNumber) then
      match fetch net (searchUrl config)
                  (NihApi.projectNumberPayload projectNumber) with
      | Rejected _ message => Throw (fetchFailure message)
      | Responded status _ json =>
          if ok status then
            match json with
            | NotJson message => Throw (fetchFailure message)
            | Body data =>
                if Json.truthy data then
                  if accepts Nih.NIHSearchResponseSchema data then
                    match NihApi.viewResults data with
                    | [] => Ok None
                    | first :: _ =>
                        Ok (Some (Nih.convertNIHProjectToGrantRecord first))
                    end
                  else Throw (JsError "ZodError" "Invalid input")
                else Ok None
            end
          else Throw (fetchFailure ("HTTP error! status: " ++ string_of_Z status))
      end
    else Ok None.
Proof.
  unfold NihApi.getNIHGrantByNumber. rewrite trim_blank_guard.
  destruct (truthy_string (trim projectNumber)); cbn [negb]; [|reflexivity].
  unfold NihApi.fetchNIHData, searchUrl, fetchFailure, parse.
  cbv beta iota zeta delta [Js.bind Js.try_catch json_of].
  destruct (fetch net _ _) as [name message | status statusText [data|message]];
    [reflexivity | | destruct (ok status); reflexivity].
  destruct (ok status); cbn [negb]; [|reflexivity].
  destruct (Json.truthy data); cbn [negb]; [|reflexivity].
  destruct (accepts Nih.NIHSearchResponseSchema data); reflexivity.
Qed.

(** X18. The lookup by number returns a grant exactly when the number is
    not blank and the registry answers with a 2xx status and a truthy JSON
    body that the response schema accepts and whose result list is not
    empty; the grant is then the record of the first project, whatever
    follows it. *)
Theorem grant_by_number_is_first_result
    (net : Network) (projectNumber : string) (config : NihApi.NIHConfig)
    (grant : Nih.GrantRecord) :
  NihApi.getNIHGrantByNumber net projectNumber config = Ok (Some grant)
  <-> trim projectNumber <> ""
      /\ exists status statusText data first rest,
           fetch net (searchUrl config) (NihApi.projectNumberPayload projectNumber)
           = Responded status statusText (Body data)
           /\ ok status = true
           /\ Json.truthy data = true
           /\ accepts Nih.NIHSearchResponseSchema data = true
           /\ NihApi.viewResults data = first :: rest
           /\ grant = Nih.convertNIHProjectToGrantRecord first.
Proof.
  rewrite getNIHGrantByNumber_cases.
  destruct (truthy_string (trim projectNumber)) eqn:B.
  2: { destruct (trim projectNumber); [|discriminate].
       split; [discriminate | intros [H _]; congruence]. }
  apply truthy_string_true in B.
  destruct (fetch net _ _) as [name message | status statusText [data|message]].
  - split; [discriminate | intros (_ & ? & ? & ? & ? & ? & H & _); discriminate].
  - destruct (ok status) eqn:S.
    2: { split; [discriminate|].
         intros (_ & ? & ? & ? & ? & ? & [= <- <- <-] & ? & _). congruence. }
    destruct (Json.truthy data) eqn:T.
    2: { split; [discriminate|].
         intros (_ & ? & ? & ? & ? & ? & [= <- <- <-] & _ & ? & _). congruence. }
    destruct (accepts Nih.NIHSearchResponseSchema data) eqn:A.
    2: { split; [discriminate|].
         intros (_ & ? & ? & ? & ? & ? & [= <- <- <-] & _ & _ & ? & _). congruence. }
    destruct (NihApi.viewResults data) as [|first rest] eqn:V.
    + split; [discriminate|].
      intros (_ & ? & ? & ? & ? & ? & [= <- <- <-] & _ & _ & _ & ? & _).
      congruence.
    + split.
      * intros [= <-]. split; [exact B|].
        exists status, statusText, data, first, rest. auto 8.
      * intros (_ & ? & ? & ? & ? & ? & [= <- <- <-] & _ & _ & _ & V' & ->).
        rewrite V in V'. now inversion V'.
  - destruct (ok status);
      (split; [discriminate
              | intros (_ & ? & ? & ? & ? & ? & H & _); discriminate]).
Qed.

(* ===================================================================== *)
(** * ORCID: dates, fetches and the aggregate from end to end             *)
(* ===================================================================== *)

(** X19. The date reconstruction yields no date exactly when the date
    object is falsy or its year value is; otherwise it builds the date from
    the year value, the month value or 1, and the day value or 1, so that
    none of the three components of a built date is ever missing. *)
Theorem parseDate_needs_year_and_defaults_month_day (dateObj : jsval) :
  (Orcid.parseDate dateObj = None
   <-> Json.truthy dateObj = false
       \/ Json.truthy (oget "value" (oget "year" dateObj)) = false)
  /\ (forall year month day,
        Orcid.parseDate dateObj = Some (Orcid.NewDate year month day) ->
        year = oget "value" (oget "year" dateObj)
        /\ month = Json.or (oget "value" (oget "month" dateObj)) (JNum 1)
        /\ day = Json.or (oget "value" (oget "day" dateObj)) (JNum 1)
        /\ Json.truthy year = true
        /\ Json.truthy month = true
        /\ Json.truthy day = true).
Proof.
  unfold Orcid.parseDate.
  destruct (Json.truthy dateObj) eqn:D; cbn [negb].
  2: { split; [split; auto | discriminate]. }
  destruct (Json.truthy (oget "value" (oget "year" dateObj))) eqn:Y.
  - split.
    + split; [discriminate | intros [H|H]; discriminate].
    + intros year month day [= <- <- <-].
      split; [reflexivity|]. split; [reflexivity|]. split; [reflexivity|].
      split; [exact Y|].
      split; unfold Json.or;
        match goal with
        | |- Json.truthy (if Json.truthy ?x then _ else _) = true =>
            destruct (Json.truthy x) eqn:T; [exact T | reflexivity]
        end.
  - split; [split; auto | discriminate].
Qed.

(** X20. A sub-resource fetch succeeds exactly when the registry answers
    with a 2xx status and a JSON body, which it returns unvalidated; it
    fails with the not-found error exactly when the status is 404; every
    other failure, a network failure and an undecodable body included, is
    the API error for that endpoint. *)
Theorem fetchOrcidData_outcomes
    (net : Network) (orcidId endpoint : string) (config : Orcid.OrcidConfig) :
  (forall body,
      Orcid.fetchOrcidData net orcidId endpoint config = Ok body
      <-> exists status statusText,
            fetch net (resourceUrl config orcidId endpoint) JUndefined
            = Responded status statusText (Body body)
            /\ ok status = true)
  /\ (forall e,
        Orcid.fetchOrcidData net orcidId endpoint config = Throw e
        /\ Orcid.is_OrcidNotFoundError e = true
        <-> (exists statusText json,
               fetch net (resourceUrl config orcidId endpoint) JUndefined
               = Responded 404 statusText json)
            /\ e = OrcidNotFoundError
                     "The requested researcher profile could not be found. Please verify the ORCID ID is correct."
                     (JObj [("orcidId", JStr orcidId); ("endpoint", JStr endpoint)]))
  /\ (forall e,
        Orcid.fetchOrcidData net orcidId endpoint config = Throw e ->
        Orcid.is_OrcidNotFoundError e = false ->
        exists details,
          e = OrcidAPIError ("Failed to fetch " ++ endpoint ++ " data") details).
Proof.
  unfold Orcid.fetchOrcidData, resourceUrl.
  destruct (fetch net _ _) as [name message | status statusText [data|message]].
  - cbn. split; [|split].
    + intros body. split; [discriminate | intros (? & ? & H & _); discriminate].
    + intros e. split; [intros [[= <-] H]; discriminate
                       | intros [(? & ? & H) _]; discriminate].
    + intros e [= <-] _. eauto.
  - destruct (ok status) eqn:S; cbn.
    + split; [|split].
      * intros body. split.
        -- intros [= <-]. eauto.
        -- intros (? & ? & [= <- <- <-] & _). reflexivity.
      * intros e. split; [intros [H _]; discriminate|].
        intros [(? & ? & [= -> <- <-]) _]. discriminate.
      * discriminate.
    + destruct (Z.eqb_spec status 404) as [->|N]; cbn.
      * split; [|split].
        -- intros body. split; [discriminate|].
           intros (? & ? & [= <- <- <-] & ?). discriminate.
        -- intros e. split.
           ++ intros [[= <-] _]. split; [eauto | reflexivity].
           ++ intros [_ ->]. split; reflexivity.
        -- intros e [= <-]. discriminate.
      * split; [|split].
        -- intros body. split; [discriminate|].
           intros (? & ? & [= <- <- <-] & ?). congruence.
        -- intros e. split; [intros [[= <-] ?]; discriminate|].
           intros [(? & ? & [= -> <- <-]) _]. contradiction.
        -- intros e [= <-] _. eauto.
  - destruct (ok status) eqn:S; cbn.
    + split; [|split].
      * intros body. split; [discriminate | intros (? & ? & H & _); discriminate].
      * intros e. split; [intros [[= <-] ?]; discriminate|].
        intros [(? & ? & [= -> <- <-]) _]. discriminate.
      * intros e [= <-] _. eauto.
    + destruct (Z.eqb_spec status 404) as [->|N]; cbn.
      * split; [|split].
        -- intros body. split; [discriminate | intros (? & ? & H & _); discriminate].
        -- intros e. split.
           ++ intros [[= <-] _]. split; [eauto | reflexivity].
           ++ intros [_ ->]. split; reflexivity.
        -- intros e [= <-]. discriminate.
      * split; [|split].
        -- intros body. split; [discriminate | intros (? & ? & H & _); discriminate].
        -- intros e. split; [intros [[= <-] ?]; discriminate|].
           intros [(? & ? & [= -> <- <-]) _]. contradiction.
        -- intros e [= <-] _. eauto.
Qed.

Lemma first_rejection_of_values {A} (vs : list A) (order : list nat) :
  first_rejection (map (@Ok exn A) vs) order = None.
Proof.
  induction order as [|i order IH]; [reflexivity|].
  cbn [first_rejection].
  destruct (nth_error _ i) as [[a|e]|] eqn:E;
    [exact IH | | exact IH].
  apply nth_error_In in E. apply in_map_iff in E.
  destruct E as (v & Hv & _). discriminate Hv.
Qed.

Lemma mapM_id_values {A} (ps : list (outcome A)) (vs : list A) :
  mapM (fun p => p) ps = Ok vs <-> ps = map (@Ok exn A) vs.
Proof.
  revert vs. induction ps as [|p ps IH]; intros vs; simpl.
  - split; [intros [= <-]; reflexivity | destruct vs; [reflexivity | discriminate]].
  - destruct p as [a|e]; simpl.
    + destruct (mapM (fun p => p) ps) as [ys|e] eqn:M; simpl.
      * split.
        -- intros [= <-]. simpl. f_equal. now apply IH.
        -- destruct vs as [|v vs]; [discriminate|]. simpl. intros [= -> H].
           apply IH in H. congruence.
      * split; [discriminate|].
        destruct vs as [|v vs]; [discriminate|]. simpl. intros [= -> H].
        apply IH in H. discriminate.
    + split; [discriminate | destruct vs; discriminate].
Qed.

(** [Promise.all] fulfils exactly when every promise does, with their
    values in the order of the promises, however they settle. *)
Lemma promise_all_fulfils {A} (order : list nat) (ps : list (outcome A)) (vs : list A) :
  promise_all order ps = Ok vs <-> ps = map (@Ok exn A) vs.
Proof.
  unfold promise_all. split.
  - destruct (first_rejection ps order); [discriminate|]. apply mapM_id_values.
  - intros ->. rewrite first_rejection_of_values. now apply mapM_id_values.
Qed.

Lemma getOrcidProfile_try_fetched
    (order : list nat) (net : Network) (orcidId : string) (config : Orcid.OrcidConfig)
    (personData worksData educationData employmentData : jsval) :
  AllFetched net orcidId config personData worksData educationData employmentData ->
  Orcid.getOrcidProfile order net orcidId config
  = if Json.truthy personData then
      match Orcid.assembleProfile orcidId personData worksData educationData
              employmentData with
      | Ok profile => Ok profile
      | Throw cause =>
          Throw (OrcidValidationError "Failed to validate ORCID data"
                   (validationDetails orcidId cause personData worksData
                      educationData employmentData))
      end
    else Throw (OrcidAPIError "No person data found"
                  (JObj [("orcidId", JStr orcidId)])).
Proof.
  intros F. unfold AllFetched in F.
  assert (P : promise_all order (Orcid.subFetches net orcidId config)
              = Ok [personData; worksData; educationData; employmentData])
    by (apply promise_all_fulfils; exact F).
  unfold Orcid.getOrcidProfile, Orcid.getOrcidProfile_try. rewrite P.
  cbv beta iota zeta delta [Js.bind Js.try_catch nth].
  destruct (Json.truthy personData); cbn [negb]; [|reflexivity].
  destruct (Orcid.assembleProfile _ _ _ _ _); reflexivity.
Qed.

(** X21. The profile aggregation returns a profile exactly when all four
    sub-fetches succeeded, the person data is truthy and parsing and
    assembling the four bodies succeeds; the profile is then the assembled
    one, whatever the order in which the fetches settled. *)
Theorem profile_returned_iff_all_fetched_and_parsed
    (order : list nat) (net : Network) (orcidId : string) (config : Orcid.OrcidConfig)
    (profile : Orcid.CustomerProfile) :
  Orcid.getOrcidProfile order net orcidId config = Ok profile
  <-> exists personData worksData educationData employmentData,
        AllFetched net orcidId config personData worksData educationData
          employmentData
        /\ Json.truthy personData = true
        /\ Orcid.assembleProfile orcidId personData worksData educationData
             employmentData = Ok profile.
Proof.
  split.
  - intros H.
    destruct (promise_all order (Orcid.subFetches net orcidId config))
      as [vs|e] eqn:P.
    + apply promise_all_fulfils in P.
      destruct vs as [|p [|w [|ed [|em [|]]]]]; try discriminate.
      exists p, w, ed, em. split; [exact P|].
      rewrite (getOrcidProfile_try_fetched order _ _ _ _ _ _ _ P) in H.
      destruct (Json.truthy p); [|discriminate]. split; [reflexivity|].
      destruct (Orcid.assembleProfile _ _ _ _ _); [congruence | discriminate].
    + unfold Orcid.getOrcidProfile, Orcid.getOrcidProfile_try in H.
      rewrite P in H. cbv beta iota delta [Js.bind Js.try_catch] in H.
      unfold Orcid.getOrcidProfile_catch in H.
      destruct (_ || _ || _); discriminate.
  - intros (p & w & ed & em & F & T & A).
    rewrite (getOrcidProfile_try_fetched order _ _ _ _ _ _ _ F), T, A. reflexivity.
Qed.

(** X22. Whatever the profile aggregation throws has one of three causes:
    it is the error of a failed sub-fetch, unchanged; or all four fetches
    succeeded and the person data is falsy, and it is the API error "No
    person data found"; or all four succeeded, the person data is truthy
    and parsing threw a built-in exception, and it is the validation error
    that carries the exception's message and the four raw bodies. *)
Theorem profile_failure_causes
    (order : list nat) (net : Network) (orcidId : string) (config : Orcid.OrcidConfig)
    (e : exn) :
  Orcid.getOrcidProfile order net orcidId config = Throw e ->
  In (Throw e) (Orcid.subFetches net orcidId config)
  \/ exists personData worksData educationData employmentData,
       AllFetched net orcidId config personData worksData educationData
         employmentData
       /\ ((Json.truthy personData = false
            /\ e = OrcidAPIError "No person data found"
                     (JObj [("orcidId", JStr orcidId)]))
           \/ (Json.truthy personData = true
               /\ exists cause,
                    Orcid.assembleProfile orcidId personData worksData
                      educationData employmentData = Throw cause
                    /\ builtin cause
                    /\ e = OrcidValidationError "Failed to validate ORCID data"
                             (validationDetails orcidId cause personData
                                worksData educationData employmentData))).
Proof.
  intros H.
  destruct (promise_all order (Orcid.subFetches net orcidId config))
    as [vs|e'] eqn:P.
  - right. apply promise_all_fulfils in P.
    destruct vs as [|p [|w [|ed [|em [|]]]]]; try discriminate.
    exists p, w, ed, em. split; [exact P|].
    rewrite (getOrcidProfile_try_fetched order _ _ _ _ _ _ _ P) in H.
    destruct (Json.truthy p); [right | left; split; congruence].
    split; [reflexivity|].
    destruct (Orcid.assembleProfile _ _ _ _ _) as [profile|cause] eqn:A;
      [discriminate|].
    exists cause. split; [reflexivity|].
    split; [now apply assembleProfile_throws_builtin in A | congruence].
  - left.
    assert (I : In (Throw e') (Orcid.subFetches net orcidId config)).
    { unfold promise_all in P.
      destruct (first_rejection _ order) as [e0|] eqn:F.
      - injection P as ->. now apply first_rejection_In in F.
      - destruct (mapM (fun p => p) (Orcid.subFetches net orcidId config))
          as [vs|e0] eqn:M; [discriminate|]. injection P as ->.
        clear F. revert M.
        generalize (Orcid.subFetches net orcidId config).
        induction l as [|[a|e1] l IH]; simpl; [discriminate| |].
        + destruct (mapM (fun p => p) l); simpl; [discriminate|].
          intros [= ->]. right. now apply IH.
        + intros [= ->]. now left. }
    unfold Orcid.getOrcidProfile, Orcid.getOrcidProfile_try in H.
    rewrite P in H. cbv beta iota delta [Js.bind Js.try_catch] in H.
    unfold Orcid.getOrcidProfile_catch in H.
    pose proof (subFetches_throw_classified _ _ _ _ I) as C.
    unfold classifiedOrcid in C. rewrite C in H. congruence.
Qed.

Lemma profile_failure_witness :
  In (Throw (OrcidValidationError "Failed to validate ORCID data"
               (validationDetails Samples.orcidId
                  (JsError "TypeError"
                     "Cannot read properties of null (reading 'content')")
                  brokenPerson brokenPerson brokenPerson brokenPerson)))
     (Orcid.subFetches (Samples.networkOk brokenPerson) Samples.orcidId
        Orcid.defaultOrcidConfig)
  \/ exists personData worksData educationData employmentData,
       AllFetched (Samples.networkOk brokenPerson) Samples.orcidId
         Orcid.defaultOrcidConfig personData worksData educationData
         employmentData
       /\ ((Json.truthy personData = false
            /\ OrcidValidationError "Failed to validate ORCID data"
                 (validationDetails Samples.orcidId
                    (JsError "TypeError"
                       "Cannot read properties of null (reading 'content')")
                    brokenPerson brokenPerson brokenPerson brokenPerson)
               = OrcidAPIError "No person data found"
                   (JObj [("orcidId", JStr Samples.orcidId)]))
           \/ (Json.truthy personData = true
               /\ exists cause,
                    Orcid.assembleProfile Samples.orcidId personData worksData
                      educationData employmentData = Throw cause
                    /\ builtin cause
                    /\ OrcidValidationError "Failed to validate ORCID data"
                         (validationDetails Samples.orcidId
                            (JsError "TypeError"
                               "Cannot read properties of null (reading 'content')")
                            brokenPerson brokenPerson brokenPerson brokenPerson)
                       = OrcidValidationError "Failed to validate ORCID data"
                           (validationDetails Samples.orcidId cause personData
                              worksData educationData employmentData))).
Proof.
  exact (profile_failure_causes [0; 1; 2; 3]%nat (Samples.networkOk brokenPerson)
           Samples.orcidId Orcid.defaultOrcidConfig _ eq_refl).
Defined.

(* ===================================================================== *)
(** * ORCID: what the parsers guarantee                                   *)
(* ===================================================================== *)

Lemma bind_ok {A B} (m : outcome A) (k : A -> outcome B) (b : B) :
  Js.bind m k = Ok b -> exists a, m = Ok a /\ k a = Ok b.
Proof. destruct m as [a|e]; simpl; [eauto | discriminate]. Qed.

Lemma mapM_ok_In {A B} (f : A -> outcome B) (l : list A) (ys : list B) (y : B) :
  mapM f l = Ok ys -> In y ys -> exists x, In x l /\ f x = Ok y.
Proof.
  revert ys. induction l as [|x l IH]; simpl; intros ys H.
  - injection H as <-. contradiction.
  - apply bind_ok in H. destruct H as (y0 & Hx & H).
    apply bind_ok in H. destruct H as (ys0 & Hl & H). injection H as <-.
    intros [<-|Hin]; [eauto|].
    destruct (IH _ Hl Hin) as (x' & ? & ?). eauto.
Qed.

Lemma mapM_ok_length {A B} (f : A -> outcome B) (l : list A) (ys : list B) :
  mapM f l = Ok ys -> List.length ys = List.length l.
Proof.
  revert ys. induction l as [|x l IH]; simpl; intros ys H.
  - now injection H as <-.
  - apply bind_ok in H. destruct H as (y0 & Hx & H).
    apply bind_ok in H. destruct H as (ys0 & Hl & H). injection H as <-.
    simpl. now rewrite (IH _ Hl).
Qed.

Lemma map_of_ok_In {B} (f : jsval -> outcome B) (v : jsval) (ys : list B) (y : B) :
  map_of f v = Ok ys -> In y ys -> exists x, f x = Ok y.
Proof.
  destruct v; simpl; try discriminate.
  intros H Hin. destruct (mapM_ok_In _ _ _ _ H Hin) as (x & _ & Hx). eauto.
Qed.

Lemma keep_In {A} (l : list (option A)) (a : A) : In a (Orcid.keep l) -> In (Some a) l.
Proof.
  unfold Orcid.keep. intros H. apply collect_In in H.
  destruct H as (o & Hin & ->). exact Hin.
Qed.

Lemma or_defaulted (v : jsval) : defaulted (Json.or v (JBool false)).
Proof.
  unfold defaulted, Json.or. destruct (Json.truthy v) eqn:T; auto.
Qed.

Lemma parseAffiliationSummary_name (summary : jsval) (a : Orcid.OrcidAffiliation) :
  Orcid.parseAffiliationSummary summary = Ok (Some a) ->
  Json.truthy (Orcid.org_name (Orcid.organization a)) = true
  \/ Orcid.org_name (Orcid.organization a) = JStr "".
Proof.
  unfold Orcid.parseAffiliationSummary. intros H.
  apply bind_ok in H. destruct H as (education & _ & H).
  destruct (Json.truthy (if Json.truthy education then _ else _)); [|discriminate].
  injection H as <-. cbn [Orcid.organization Orcid.org_name].
  unfold Json.or. destruct (Json.truthy (oget "name" _)) eqn:T; auto.
Qed.

Lemma get_ok (k : string) (v x : jsval) : get k v = Ok x -> x = oget k v.
Proof. destruct v; simpl; intros H; inversion H; reflexivity. Qed.

Lemma for_of_ok (v : jsval) (items : list jsval) :
  for_of v = Ok items -> itemsOf v = items.
Proof. unfold itemsOf. now intros ->. Qed.

Lemma keep_app {A} (l l' : list (option A)) :
  Orcid.keep (l ++ l')%list = (Orcid.keep l ++ Orcid.keep l')%list.
Proof.
  unfold Orcid.keep. induction l as [|[a|] l IH]; simpl; [reflexivity| |exact IH].
  now rewrite IH.
Qed.

Lemma mapM_ok_map {A B} (f : A -> outcome B) (g : A -> B) (l : list A) (ys : list B) :
  (forall x y, f x = Ok y -> y = g x) -> mapM f l = Ok ys -> ys = map g l.
Proof.
  intros Hf. revert ys. induction l as [|x l IH]; simpl; intros ys H.
  - now injection H as <-.
  - apply bind_ok in H. destruct H as (y0 & Hx & H).
    apply bind_ok in H. destruct H as (ys0 & Hl & H). injection H as <-.
    now rewrite (Hf _ _ Hx), (IH _ Hl).
Qed.

(** A summary is pushed exactly when it describes an affiliation, and then
    with the organisation name it sends, defaulted to the empty string. *)
Lemma parseAffiliationSummary_sent (summary : jsval) (o : option Orcid.OrcidAffiliation) :
  Orcid.parseAffiliationSummary summary = Ok o ->
  match o with
  | Some a =>
      Json.truthy (affiliationSent summary) = true
      /\ Orcid.org_name (Orcid.organization a)
         = (if Json.truthy (nameSent summary) then nameSent summary else JStr "")
  | None => Json.truthy (affiliationSent summary) = false
  end.
Proof.
  unfold Orcid.parseAffiliationSummary, nameSent, affiliationSent. intros H.
  apply bind_ok in H. destruct H as (education & G & H).
  apply get_ok in G. subst education.
  destruct (Json.truthy (oget "education-summary" summary)) eqn:Ed.
  - rewrite Ed in H. injection H as <-. split; [exact Ed | reflexivity].
  - destruct (Json.truthy (oget "employment-summary" summary)) eqn:Em.
    + rewrite Em in H. injection H as <-. split; reflexivity.
    + cbn [Json.truthy] in H. now injection H as <-.
Qed.

Lemma pushed_names (summaries : list jsval) (pushed : list (option Orcid.OrcidAffiliation)) :
  mapM Orcid.parseAffiliationSummary summaries = Ok pushed ->
  map (fun a => Orcid.org_name (Orcid.organization a)) (Orcid.keep pushed)
  = map (fun summary =>
           if Json.truthy (nameSent summary) then nameSent summary else JStr "")
        (filter (fun summary => Json.truthy (affiliationSent summary)) summaries).
Proof.
  revert pushed. induction summaries as [|summary summaries IH]; simpl; intros pushed H.
  - now injection H as <-.
  - apply bind_ok in H. destruct H as (o & S & H).
    apply bind_ok in H. destruct H as (rest & R & H). injection H as <-.
    apply parseAffiliationSummary_sent in S. specialize (IH _ R).
    destruct o as [a|].
    + destruct S as [T N]. rewrite T. unfold Orcid.keep in *. simpl.
      rewrite N. f_equal. exact IH.
    + rewrite S. exact IH.
Qed.

Lemma pushed_names_of_groups (groups : list jsval)
    (pushed : list (list (option Orcid.OrcidAffiliation))) :
  mapM (fun group =>
          groupSummaries <- get "summaries" group;;
          summaries <- for_of (Json.or groupSummaries (JArr []));;
          mapM Orcid.parseAffiliationSummary summaries)
       groups = Ok pushed ->
  map (fun a => Orcid.org_name (Orcid.organization a))
      (Orcid.keep (List.concat pushed))
  = map (fun summary =>
           if Json.truthy (nameSent summary) then nameSent summary else JStr "")
        (filter (fun summary => Json.truthy (affiliationSent summary))
           (flat_map (fun group =>
                        itemsOf (Json.or (oget "summaries" group) (JArr [])))
                     groups)).
Proof.
  revert pushed. induction groups as [|group groups IH]; simpl; intros pushed H.
  - now injection H as <-.
  - apply bind_ok in H. destruct H as (l & G & H).
    apply bind_ok in H. destruct H as (rest & R & H). injection H as <-.
    apply bind_ok in G. destruct G as (groupSummaries & Gs & G).
    apply get_ok in Gs. subst groupSummaries.
    apply bind_ok in G. destruct G as (summaries & F & G).
    apply for_of_ok in F. rewrite F.
    simpl. rewrite keep_app, map_app, filter_app, map_app.
    now rewrite (pushed_names _ _ G), (IH _ R).
Qed.

(** X23. Parsing an affiliations answer that is falsy or has no
    affiliation groups gives the empty list, and in every parsed list each
    affiliation has an organisation name that is never missing: it is the
    name sent, or the empty string when none was sent. The names of the
    parsed list are, in order, those of the summaries that describe an
    affiliation (an education summary, or else an employment summary). *)
Theorem parseAffiliations_names_never_missing (data : jsval) :
  (Json.truthy data = false
   \/ Json.truthy (oget "affiliation-group" data) = false ->
   Orcid.parseAffiliations data = Ok [])
  /\ (forall affiliations,
        Orcid.parseAffiliations data = Ok affiliations ->
        Forall (fun a =>
                  Json.truthy (Orcid.org_name (Orcid.organization a)) = true
                  \/ Orcid.org_name (Orcid.organization a) = JStr "")
               affiliations
        /\ Forall2 (fun summary a =>
                      defaultedFrom (nameSent summary) (JStr "")
                        (Orcid.org_name (Orcid.organization a)))
                   (filter (fun summary => Json.truthy (affiliationSent summary))
                           (summariesSent data))
                   affiliations
        /\ map (fun a => Orcid.org_name (Orcid.organization a)) affiliations
           = map (fun summary =>
                    if Json.truthy (nameSent summary) then nameSent summary
                    else JStr "")
                 (filter (fun summary => Json.truthy (affiliationSent summary))
                         (summariesSent data))).
Proof.
  split.
  - unfold Orcid.parseAffiliations.
    intros [-> | ->]; [reflexivity|]. now rewrite orb_true_r.
  - intros affiliations H.
    assert (N : map (fun a => Orcid.org_name (Orcid.organization a)) affiliations
                = map (fun summary =>
                         if Json.truthy (nameSent summary) then nameSent summary
                         else JStr "")
                      (filter (fun summary => Json.truthy (affiliationSent summary))
                              (summariesSent data))).
    { unfold Orcid.parseAffiliations in H. unfold summariesSent.
      destruct (Json.truthy data) eqn:D; cbn [negb orb] in H.
      - destruct (Json.truthy (oget "affiliation-group" data)) eqn:G;
          cbn [negb] in H.
        + apply bind_ok in H. destruct H as (groups & F & H).
          apply bind_ok in H. destruct H as (pushed & M & H). injection H as <-.
          apply for_of_ok in F. rewrite F. now apply pushed_names_of_groups.
        + injection H as <-.
          destruct (oget "affiliation-group" data) as [| |[]|n|[|c s]|items|fields];
            try reflexivity; try discriminate G.
          all: cbn in G; try discriminate G.
          all: unfold itemsOf; simpl; try reflexivity.
      - injection H as <-.
        destruct data as [| |[]|n|[|c s]|items|fields]; try reflexivity;
          try discriminate D. }
    split; [|split; [|exact N]].
    + apply Forall_forall. intros a Ha.
      assert (I : In (Orcid.org_name (Orcid.organization a))
                     (map (fun a => Orcid.org_name (Orcid.organization a))
                          affiliations))
        by (apply in_map_iff; eauto).
      rewrite N in I. apply in_map_iff in I. destruct I as (summary & <- & _).
      destruct (Json.truthy (nameSent summary)) eqn:T; auto.
    + clear H. revert N. generalize (filter (fun summary => Json.truthy (affiliationSent summary))
                                   (summariesSent data)).
      induction affiliations as [|a affiliations IH]; intros [|summary l] N;
        try discriminate N; constructor.
      * injection N as N _. unfold defaultedFrom. rewrite N.
        split; intros ->; reflexivity.
      * apply IH. now injection N.
Qed.

Lemma parseAffiliations_witness :
  exists affiliations,
    Orcid.parseAffiliations SamplesOrcid.employments = Ok affiliations
    /\ map (fun a => Orcid.org_name (Orcid.organization a)) affiliations
       = [JStr "EMBL"; JStr ""]
    /\ map nameSent
           (filter (fun summary => Json.truthy (affiliationSent summary))
                   (summariesSent SamplesOrcid.employments))
       = [JStr "EMBL"; JUndefined]
    /\ Forall (fun a =>
                 Json.truthy (Orcid.org_name (Orcid.organization a)) = true
                 \/ Orcid.org_name (Orcid.organization a) = JStr "")
              affiliations
    /\ Forall2 (fun summary a =>
                  defaultedFrom (nameSent summary) (JStr "")
                    (Orcid.org_name (Orcid.organization a)))
               (filter (fun summary => Json.truthy (affiliationSent summary))
                       (summariesSent SamplesOrcid.employments))
               affiliations
    /\ map (fun a => Orcid.org_name (Orcid.organization a)) affiliations
       = map (fun summary =>
                if Json.truthy (nameSent summary) then nameSent summary
                else JStr "")
             (filter (fun summary => Json.truthy (affiliationSent summary))
                     (summariesSent SamplesOrcid.employments)).
Proof.
  eexists. split; [reflexivity|]. split; [reflexivity|]. split; [reflexivity|].
  exact (proj2 (parseAffiliations_names_never_missing SamplesOrcid.employments)
               _ eq_refl).
Defined.

(** X24. In every parsed person record the e-mail entries are, in order,
    those sent, each with the address sent and with its verified and
    primary flags defaulted: each flag is the truthy value sent, or [false]
    when the value sent was missing or falsy. *)
Theorem parsed_email_flags_are_defaulted
    (personData : jsval) (profile : Orcid.OrcidProfile) :
  Orcid.parseOrcidProfile personData = Ok profile ->
  Forall (fun e => defaulted (Orcid.verified e) /\ defaulted (Orcid.primary e))
         (Orcid.emails profile)
  /\ Forall2 (fun entry e =>
                Orcid.email e = oget "email" entry
                /\ defaultedFrom (oget "verified" entry) (JBool false)
                                 (Orcid.verified e)
                /\ defaultedFrom (oget "primary" entry) (JBool false)
                                 (Orcid.primary e))
             (emailsSent personData) (Orcid.emails profile).
Proof.
  unfold Orcid.parseOrcidProfile. cbv zeta. intros H.
  apply bind_ok in H. destruct H as (keywords & _ & H).
  apply bind_ok in H. destruct H as (otherNames & _ & H).
  apply bind_ok in H. destruct H as (emails & E & H).
  apply bind_ok in H. destruct H as (externalIds & _ & H).
  apply bind_ok in H. destruct H as (researcherUrls & _ & H).
  injection H as <-. cbn [Orcid.emails]. split.
  - apply Forall_forall. intros e He.
    destruct (map_of_ok_In _ _ _ _ E He) as (x & Hx).
    apply bind_ok in Hx. destruct Hx as (address & _ & Hx). injection Hx as <-.
    cbn [Orcid.verified Orcid.primary]. split; apply or_defaulted.
  - unfold emailsSent.
    destruct (Json.or (oget "email" (oget "emails" personData)) (JArr []))
      as [| | | | |entries|]; try discriminate E.
    cbn [map_of] in E. clear - E. revert emails E.
    induction entries as [|entry entries IH]; simpl; intros emails E.
    + injection E as <-. constructor.
    + apply bind_ok in E. destruct E as (e & He & E).
      apply bind_ok in E. destruct E as (rest & R & E). injection E as <-.
      constructor; [|exact (IH _ R)].
      apply bind_ok in He. destruct He as (address & A & He).
      apply get_ok in A. injection He as <-.
      cbn [Orcid.email Orcid.verified Orcid.primary].
      split; [exact A|]. unfold defaultedFrom, Json.or.
      split; split; intros ->; reflexivity.
Qed.

Lemma parsed_email_flags_witness :
  exists profile,
    Orcid.parseOrcidProfile SamplesOrcid.personWithEmails = Ok profile
    /\ map (fun e => (Orcid.verified e, Orcid.primary e)) (Orcid.emails profile)
       = [(JBool false, JBool true); (JBool false, JBool false)]
    /\ map (fun entry => (oget "verified" entry, oget "primary" entry))
           (emailsSent SamplesOrcid.personWithEmails)
       = [(JUndefined, JBool true); (JNull, JNum 0)]
    /\ Forall (fun e => defaulted (Orcid.verified e) /\ defaulted (Orcid.primary e))
              (Orcid.emails profile)
    /\ Forall2 (fun entry e =>
                  Orcid.email e = oget "email" entry
                  /\ defaultedFrom (oget "verified" entry) (JBool false)
                                   (Orcid.verified e)
                  /\ defaultedFrom (oget "primary" entry) (JBool false)
                                   (Orcid.primary e))
               (emailsSent SamplesOrcid.personWithEmails) (Orcid.emails profile).
Proof.
  eexists. split; [reflexivity|]. split; [reflexivity|]. split; [reflexivity|].
  exact (parsed_email_flags_are_defaulted SamplesOrcid.personWithEmails _ eq_refl).
Defined.

(** X25. A person record that lacks all five list members (keywords,
    other names, e-mails, external identifiers, researcher URLs), or has
    them falsy, still parses: the five lists of the profile are empty and
    the name and biography are read as sent. *)
Theorem person_without_lists_parses (personData : jsval) :
  Json.truthy (oget "keyword" (oget "keywords" personData)) = false ->
  Json.truthy (oget "other-name" (oget "other-names" personData)) = false ->
  Json.truthy (oget "email" (oget "emails" personData)) = false ->
  Json.truthy (oget "external-identifier"
                 (oget "external-identifiers" personData)) = false ->
  Json.truthy (oget "researcher-url" (oget "researcher-urls" personData)) = false ->
  exists profile,
    Orcid.parseOrcidProfile personData = Ok profile
    /\ Orcid.keywords profile = []
    /\ Orcid.otherNames profile = []
    /\ Orcid.emails profile = []
    /\ Orcid.externalIds profile = []
    /\ Orcid.researcherUrls profile = []
    /\ Orcid.givenNames (Orcid.name profile)
       = oget "value" (oget "given-names" (oget "name" personData))
    /\ Orcid.biography profile = oget "content" (oget "biography" personData).
Proof.
  intros K O E X R. unfold Orcid.parseOrcidProfile, Json.or.
  rewrite K, O, E, X, R. cbn [map_of mapM Js.bind].
  eexists. split; [reflexivity|]. repeat split.
Qed.

Lemma person_without_lists_witness :
  exists profile,
    Orcid.parseOrcidProfile barePerson = Ok profile
    /\ Orcid.keywords profile = []
    /\ Orcid.otherNames profile = []
    /\ Orcid.emails profile = []
    /\ Orcid.externalIds profile = []
    /\ Orcid.researcherUrls profile = []
    /\ Orcid.givenNames (Orcid.name profile)
       = oget "value" (oget "given-names" (oget "name" barePerson))
    /\ Orcid.biography profile = oget "content" (oget "biography" barePerson).
Proof.
  exact (person_without_lists_parses barePerson eq_refl eq_refl eq_refl eq_refl
           eq_refl).
Defined.

Lemma publicationOfWork_titled (work : Orcid.OrcidWork) (p : Orcid.Publication) :
  Orcid.publicationOfWork work = Some p -> Json.truthy (Orcid.pub_title p) = true.
Proof.
  unfold Orcid.publicationOfWork.
  destruct (Json.truthy (Orcid.first_truthy Orcid.ws_title _)) eqn:T; [|discriminate].
  intros [= <-]. exact T.
Qed.

Lemma parseOrcidWorks_length (worksData : jsval) (works : Orcid.OrcidWorks)
    (groups : list jsval) :
  Orcid.parseOrcidWorks worksData = Ok works ->
  for_of (oget "group" worksData) = Ok groups ->
  (List.length (Orcid.works works) <= List.length groups)%nat.
Proof.
  unfold Orcid.parseOrcidWorks. destruct (_ || _).
  - intros [= <-] _. simpl. lia.
  - intros H G. rewrite G in H. cbn [Js.bind] in H.
    apply bind_ok in H. destruct H as (ws & M & H). injection H as <-.
    cbn [Orcid.works]. rewrite (mapM_ok_length _ _ _ M). lia.
Qed.

(** X26. In every profile that parsing and assembling produce, the ORCID
    id is the one asked for, every publication has a truthy title, and
    there are at most as many publications as the works answer has
    groups. *)
Theorem assembled_profile_publications
    (orcidId : string) (personData worksData educationData employmentData : jsval)
    (profile : Orcid.CustomerProfile) :
  Orcid.assembleProfile orcidId personData worksData educationData employmentData
  = Ok profile ->
  Orcid.orcid (Orcid.researcherId profile) = orcidId
  /\ Forall (fun p => Json.truthy (Orcid.pub_title p) = true)
            (Orcid.publications profile)
  /\ (forall groups,
        for_of (oget "group" worksData) = Ok groups ->
        (List.length (Orcid.publications profile) <= List.length groups)%nat).
Proof.
  unfold Orcid.assembleProfile. intros H.
  apply bind_ok in H. destruct H as (orcidProfile & _ & H).
  apply bind_ok in H. destruct H as (orcidWorks & W & H).
  apply bind_ok in H. destruct H as (educations & _ & H).
  apply bind_ok in H. destruct H as (employments & _ & H).
  injection H as <-. unfold Orcid.createCustomerProfile.
  cbn [Orcid.researcherId Orcid.orcid Orcid.publications].
  split; [reflexivity|]. split.
  - apply Forall_forall. intros p Hp. apply collect_In in Hp.
    destruct Hp as (work & _ & Hw). now apply publicationOfWork_titled with work.
  - intros groups G.
    pose proof (parseOrcidWorks_length _ _ _ W G).
    pose proof (collect_length Orcid.publicationOfWork (Orcid.works orcidWorks)).
    lia.
Qed.

Lemma assembled_profile_witness :
  exists profile,
    Orcid.assembleProfile Samples.orcidId barePerson SamplesOrcid.worksAnswer
      SamplesOrcid.employments JNull = Ok profile
    /\ map Orcid.pub_title (Orcid.publications profile) = [JStr "A title"]
    /\ Orcid.orcid (Orcid.researcherId profile) = Samples.orcidId
    /\ Forall (fun p => Json.truthy (Orcid.pub_title p) = true)
              (Orcid.publications profile)
    /\ (forall groups,
          for_of (oget "group" SamplesOrcid.worksAnswer) = Ok groups ->
          (List.length (Orcid.publications profile) <= List.length groups)%nat).
Proof.
  eexists. split; [reflexivity|]. split; [reflexivity|].
  exact (assembled_profile_publications Samples.orcidId barePerson
           SamplesOrcid.worksAnswer SamplesOrcid.employments JNull _ eq_refl).
Defined.

(* ===================================================================== *)
(** * Europe PMC: validation is all or nothing                            *)
(* ===================================================================== *)

Lemma accepts_field (shape : list (string * schema)) (fields : list (string * jsval))
    (k : string) (s : schema) :
  accepts (ZObject shape) (JObj fields) = true ->
  In (k, s) shape ->
  accepts s (lookup k fields) = true.
Proof.
  rewrite accepts_object, forallb_forall. intros H Hin. exact (H (k, s) Hin).
Qed.

Lemma accepts_optional_present (s : schema) (v : jsval) :
  v <> JUndefined -> accepts (optional s) v = accepts s v.
Proof. destruct v; simpl; intros H; [congruence | reflexivity ..]. Qed.

Lemma accepts_array (s : schema) (items : list jsval) :
  accepts (ZArray s) (JArr items) = forallb (accepts s) items.
Proof. reflexivity. Qed.

(** X9. One entry of the result list that the entry schema rejects, a
    title that is a number for instance, makes the response schema reject
    the whole answer: the entry is not skipped, the search fails. *)
Theorem one_malformed_entry_rejects_response (data entry : jsval) :
  In entry (rawEntries data) ->
  accepts Epmc.EpmcResultSchema entry = false ->
  accepts Epmc.EpmcResponseSchema data = false.
Proof.
  intros Hin Hrej. unfold rawEntries in Hin.
  destruct (field "result" (field "resultList" data)) as [| | | | |items|] eqn:R;
    try contradiction.
  destruct data as [| | | | | |fields]; try reflexivity.
  destruct (accepts Epmc.EpmcResponseSchema (JObj fields)) eqn:A; [|reflexivity].
  exfalso. unfold Epmc.EpmcResponseSchema in A.
  apply accepts_field with (k := "resultList")
    (s := optional (ZObject [("result", optional (ZArray Epmc.EpmcResultSchema))]))
    in A; [|right; right; left; reflexivity].
  cbn [field] in R.
  destruct (lookup "resultList" fields) as [| | | | | |inner] eqn:L;
    try discriminate R.
  rewrite accepts_optional_present in A by discriminate.
  apply accepts_field with (k := "result")
    (s := optional (ZArray Epmc.EpmcResultSchema)) in A; [|left; reflexivity].
  cbn [field] in R. rewrite R in A.
  rewrite accepts_optional_present in A by discriminate.
  rewrite accepts_array, forallb_forall in A.
  specialize (A _ Hin). congruence.
Qed.

Lemma one_malformed_entry_witness :
  accepts Epmc.EpmcResponseSchema
    (JObj [("resultList",
             JObj [("result",
                     JArr [JObj [("title", JStr "A title");
                                 ("abstractText", JStr "An abstract")];
                           JObj [("title", JNum 7)]])])])
  = false.
Proof.
  apply (one_malformed_entry_rejects_response _ (JObj [("title", JNum 7)])).
  - right. left. reflexivity.
  - reflexivity.
Defined.

(* ===================================================================== *)
(** * The publication-detail tool, by index                               *)
(* ===================================================================== *)

(** X27. Once the search behind the publication-detail tool has
    succeeded, an index within the list of publications gets the
    publication at that position, an index at or beyond the end of the list
    gets the out-of-range message with the index and the number of
    publications found, and a negative index gets the serialisation of
    [undefined], with no message. *)
Theorem publication_details_by_index
    (net : Network) (orcid_id : string) (publication_index : Z)
    (publications : list Epmc.PublicationRecord) :
  Epmc.getEpmcPublicationsByOrcid net orcid_id 100 Epmc.defaultEpmcConfig
  = Ok publications ->
  (0 <= publication_index < Z.of_nat (List.length publications) ->
   exists p,
     nth_error publications (Z.to_nat publication_index) = Some p
     /\ Server.get_publication_details net orcid_id publication_index
        = Server.Stringify (Some p))
  /\ (Z.of_nat (List.length publications) <= publication_index ->
      Server.get_publication_details net orcid_id publication_index
      = Server.Text
          ("Error: Publication index " ++ string_of_Z publication_index
           ++ " is out of range. Found "
           ++ string_of_Z (Z.of_nat (List.length publications))
           ++ " publications."))
  /\ (publication_index < 0 ->
      Server.get_publication_details net orcid_id publication_index
      = Server.Stringify None).
Proof.
  intros H. unfold Server.get_publication_details. rewrite H.
  destruct (Z.geb_spec publication_index (Z.of_nat (List.length publications)))
    as [G|G].
  - split; [lia|]. split; [reflexivity | lia].
  - split; [|split; [lia|]].
    + intros R. destruct (index_in_range publications _ R) as (p & Hi & Hn).
      exists p. split; [exact Hn | now rewrite Hi].
    + intros R. unfold index.
      destruct (Z.ltb_spec publication_index 0); [reflexivity | lia].
Qed.

Lemma publication_details_by_index_witness :
  (0 <= 0 < Z.of_nat 1 ->
   exists p,
     nth_error
       (Epmc.convertEpmcResponseToPublications
          (Epmc.viewResponse Samples.epmcOnePublication)) (Z.to_nat 0) = Some p
     /\ Server.get_publication_details
          (Samples.networkOk Samples.epmcOnePublication) Samples.orcidId 0
        = Server.Stringify (Some p))
  /\ (Z.of_nat 1 <= 0 ->
      Server.get_publication_details
        (Samples.networkOk Samples.epmcOnePublication) Samples.orcidId 0
      = Server.Text
          ("Error: Publication index " ++ string_of_Z 0
           ++ " is out of range. Found " ++ string_of_Z (Z.of_nat 1)
           ++ " publications."))
  /\ (0 < 0 ->
      Server.get_publication_details
        (Samples.networkOk Samples.epmcOnePublication) Samples.orcidId 0
      = Server.Stringify None).
Proof.
  exact (publication_details_by_index
           (Samples.networkOk Samples.epmcOnePublication) Samples.orcidId 0
           (Epmc.convertEpmcResponseToPublications
              (Epmc.viewResponse Samples.epmcOnePublication))
           eq_refl).
Defined.

(* ===================================================================== *)
(** * Screening list: query, errors, configuration                        *)
(* ===================================================================== *)

(** X28. The query of a screening search starts with the subscription
    key and continues with the filters that are present and not empty, in
    the order name, countries, city, state; an absent or empty filter is
    left out of the query. *)
Theorem search_params_omit_empty_filters
    (service : Screening.ScreeningListService)
    (params : Screening.ScreeningSearchParams) :
  Screening.searchParamsOf service params
  = ("subscription-key", Screening.apiKey service)
    :: flat_map (fun kv => map (pair (fst kv)) (present (snd kv))) (filters params).
Proof.
  unfold Screening.searchParamsOf, filters, Screening.append_if_truthy.
  cbn [flat_map fst snd].
  destruct (Screening.name params) as [[|c1 s1]|];
    destruct (Screening.countries params) as [[|c2 s2]|];
    destruct (Screening.city params) as [[|c3 s3]|];
    destruct (Screening.state params) as [[|c4 s4]|]; reflexivity.
Qed.

(** X29. Whatever a screening search throws is the service's own error:
    for a non-2xx answer it carries the status and the answer's text, and
    for any built-in exception (a network failure, a 2xx answer with an
    undecodable body, a non-2xx answer whose text cannot be read) it
    carries that exception rendered as text. A 2xx answer with a JSON body
    is returned as it is, with no validation. *)
Theorem screening_search_outcomes
    (fetch : list (string * string) -> Screening.FetchOutcome)
    (service : Screening.ScreeningListService)
    (params : Screening.ScreeningSearchParams) :
  (forall e,
      Screening.search fetch service params = Throw e ->
      exists message, e = Screening.ScreeningListError message)
  /\ (forall status errorText json,
        fetch (Screening.searchParamsOf service params)
        = Screening.Responded status (Screening.TextBody errorText) json ->
        ok status = false ->
        Screening.search fetch service params
        = Throw (Screening.ScreeningListError
                   ("API returned status " ++ string_of_Z status ++ ": "
                    ++ errorText)))
  /\ (forall name message,
        fetch (Screening.searchParamsOf service params)
        = Screening.Rejected name message ->
        Screening.search fetch service params
        = Throw (Screening.ScreeningListError
                   ("Failed to search screening list: "
                    ++ Screening.error_to_string (Screening.Builtin name message))))
  /\ (forall status text message,
        fetch (Screening.searchParamsOf service params)
        = Screening.Responded status text (NotJson message) ->
        ok status = true ->
        Screening.search fetch service params
        = Throw (Screening.ScreeningListError
                   ("Failed to search screening list: "
                    ++ Screening.error_to_string
                         (Screening.Builtin "SyntaxError" message))))
  /\ (forall status name message json,
        fetch (Screening.searchParamsOf service params)
        = Screening.Responded status (Screening.NoText name message) json ->
        ok status = false ->
        Screening.search fetch service params
        = Throw (Screening.ScreeningListError
                   ("Failed to search screening list: "
                    ++ Screening.error_to_string (Screening.Builtin name message))))
  /\ (forall data,
        Screening.search fetch service params = Ok data
        <-> exists status text,
              fetch (Screening.searchParamsOf service params)
              = Screening.Responded status text (Body data)
              /\ ok status = true).
Proof.
  unfold Screening.search.
  destruct (fetch _) as [name message | status [t|n m] [data|message]];
    cbv beta iota delta [Js.try_catch];
    try (destruct (ok status) eqn:S; cbn [negb]);
    (split; [intros e; try discriminate; intros [= <-]; eauto|]);
    (split; [intros ? ? ? H; inversion H; subst; try congruence; reflexivity|]);
    (split; [intros ? ? H; inversion H; subst; reflexivity|]);
    (split; [intros ? ? ? H; inversion H; subst; try congruence; reflexivity|]);
    (split; [intros ? ? ? ? H; inversion H; subst; try congruence; reflexivity|]);
    intros d; (split; [try discriminate; intros [= <-]; eauto
                      | intros (? & ? & H & S'); inversion H; subst;
                        try congruence; reflexivity]).
Qed.

Lemma tool_error_is_not_key_required
    (fetch : list (string * string) -> Screening.FetchOutcome)
    (service : Screening.ScreeningListService)
    (params : Screening.ScreeningSearchParams) (e : Screening.error) :
  Screening.search fetch service params = Throw e ->
  Screening.message_of e <> keyRequired.
Proof.
  unfold Screening.search.
  destruct (fetch _) as [name message | status [t|n m] [data|message]];
    cbv beta iota delta [Js.try_catch];
    try (destruct (ok status); cbn [negb]);
    try discriminate; intros [= <-]; discriminate.
Qed.

(** X30. The screening tool reports a missing or empty key as the
    environment variable not being set, whatever the network and the
    arguments, and the constructor's own "key is required" error never
    reaches the caller of the tool. *)
Theorem screening_tool_key_errors
    (env : option string)
    (fetch : list (string * string) -> Screening.FetchOutcome)
    (args : Screening.ScreeningSearchParams) :
  (truthy_opt env = false ->
   Screening.search_screening_list env fetch args = Server.Text keyNotSet)
  /\ Screening.search_screening_list env fetch args
     <> Server.Text ("Error: " ++ keyRequired).
Proof.
  unfold Screening.search_screening_list. split.
  - now intros ->.
  - destruct env as [[|c key]|]; cbn [truthy_opt truthy_string negb];
      try discriminate.
    cbn [Screening.newScreeningListService truthy_string Js.bind].
    destruct (Screening.search fetch _ args) as [data|e] eqn:S; [discriminate|].
    intros [= H]. now apply tool_error_is_not_key_required in S.
Qed.
